(** * panw-aci-config-migrator: the tree rewrite passes of [migrator.py]

    A shallow embedding of the migration passes of [src/migrator.py]
    (device package 1.2 to 1.3 for an APIC tenant) and the properties the
    specification states about them. *)

From Stdlib Require Import Ascii.
From Stdlib Require String.
From stdpp Require Import base list strings gmap.

Set Warnings "-register-all".

(** ** Python string operations

    Strings are sequences of characters; the operations below are the
    slices and tests [migrator.py] applies to names and keys.  [lower]
    maps the letters A to Z only: the one string it is applied to is the
    start of a key that line 164 has compared with two literals.

    A character here is an 8-bit [ascii], where Python counts code
    points: lengths and slices are those of Python on strings of ASCII
    characters ([is_ascii]), and wherever the part a slice cuts or a
    test reads is made of ASCII characters, as the literals of
    [migrator.py] are.  On a string with other characters, written as
    its UTF-8 bytes, [len] counts bytes and a slice can cut at another
    place than Python does. *)
Module PyStr.

Definition chars : string → list ascii := String.list_ascii_of_string.
Definition of_chars : list ascii → string := String.string_of_list_ascii.

(** Every character of [s] is an ASCII character. *)
Definition is_ascii (s : string) : bool :=
  forallb (λ c, nat_of_ascii c <? 128) (chars s).

(** [len(s)] *)
Definition len (s : string) : nat := length (chars s).

(** [s[:n]] for [n >= 0] *)
Definition slice_to (n : nat) (s : string) : string :=
  of_chars (take n (chars s)).

(** [s[n:]] for [n >= 0] *)
Definition slice_from (n : nat) (s : string) : string :=
  of_chars (drop n (chars s)).

(** [s[:-n]] for [n > 0]: everything but the last [n] characters, the
    empty string when [s] is that short. *)
Definition slice_to_neg (n : nat) (s : string) : string :=
  of_chars (take (len s - n) (chars s)).

(** [s.endswith(suffix)] *)
Definition endswith (s suffix : string) : bool :=
  (len suffix <=? len s)
  && bool_decide (slice_from (len s - len suffix) s = suffix).

Definition lower_char (c : ascii) : ascii :=
  let n := nat_of_ascii c in
  if (65 <=? n) && (n <=? 90) then ascii_of_nat (n + 32) else c.

(** [s.lower()] *)
Definition lower (s : string) : string := of_chars (lower_char <$> chars s).

(** [s.split(sep)] for a one-character separator. [cur] holds the
    characters of the piece being read, last one first. *)
Fixpoint split_go (sep : ascii) (cur : list ascii) (l : list ascii)
  : list string :=
  match l with
  | [] => [of_chars (reverse cur)]
  | c :: l' =>
      if bool_decide (c = sep)
      then of_chars (reverse cur) :: split_go sep [] l'
      else split_go sep (c :: cur) l'
  end.
Definition split (sep : ascii) (s : string) : list string :=
  split_go sep [] (chars s).

End PyStr.

(** ** The entity tree

    [migrator.py] works on the object tree of the [acitoolkit] package
    ([aci.Tenant], [aci.AppProfile], [aci.EPG], [aci.Folder],
    [aci.Parameter], [aci.Relation]), which is not part of the sources.
    The types below follow the data model of the specification (section
    3): each entity has its name, the attributes the passes read or
    write, the soft-delete mark set by [mark_as_deleted], and the ordered
    list of the children it owns. *)

(** Modelled from the spec: [aci.Parameter], a named scalar value inside
    a Folder, with name, key and value ([Parameter] is a reserved word of
    Rocq). *)
Record Param : Type := mkParam {
  p_name : string;
  p_key : string;
  p_value : string;
  p_deleted : bool }.

(** Modelled from the spec: [aci.Relation], a named reference from a
    Folder to another Folder's name, with name, key and targetName. *)
Record Relation : Type := mkRelation {
  r_name : string;
  r_key : string;
  r_targetName : string;
  r_deleted : bool }.

(** Modelled from the spec: what a Folder owns, Folders, Parameters and
    Relations, in one ordered list of children ([F] is the type of
    Folders, tied below). *)
Inductive ChildOf (F : Type) : Type :=
| CFolder (f : F)
| CParameter (p : Param)
| CRelation (r : Relation).
Arguments CFolder {F} f.
Arguments CParameter {F} p.
Arguments CRelation {F} r.

(** Modelled from the spec: [aci.Folder], a typed configuration block
    with its name, its key and the five scalar fields of the schema. *)
Inductive Folder : Type := mkFolder {
  name : string;
  key : string;
  ctrctNameOrLbl : string;
  devCtxLbl : string;
  graphNameOrLbl : string;
  nodeNameOrLbl : string;
  scopedBy : string;
  deleted : bool;
  children : list (ChildOf Folder) }.

Abbreviation Child := (ChildOf Folder).

(** Modelled from the spec: [aci.EPG], which owns Folders. *)
Record EPG : Type := mkEPG {
  epg_name : string;
  epg_children : list Folder }.

(** Modelled from the spec: [aci.AppProfile], which owns EPGs. *)
Record AppProfile : Type := mkAppProfile {
  app_name : string;
  app_children : list EPG }.

(** Modelled from the spec: [aci.Tenant], which owns AppProfiles. *)
Record Tenant : Type := mkTenant {
  tenant_name : string;
  tenant_children : list AppProfile }.

(** Attribute assignment, [obj.attr = v]. *)
Definition set_name (v : string) (f : Folder) : Folder :=
  mkFolder v (key f) (ctrctNameOrLbl f) (devCtxLbl f) (graphNameOrLbl f)
    (nodeNameOrLbl f) (scopedBy f) (deleted f) (children f).
Definition set_key (v : string) (f : Folder) : Folder :=
  mkFolder (name f) v (ctrctNameOrLbl f) (devCtxLbl f) (graphNameOrLbl f)
    (nodeNameOrLbl f) (scopedBy f) (deleted f) (children f).
Definition set_ctrctNameOrLbl (v : string) (f : Folder) : Folder :=
  mkFolder (name f) (key f) v (devCtxLbl f) (graphNameOrLbl f)
    (nodeNameOrLbl f) (scopedBy f) (deleted f) (children f).
Definition set_devCtxLbl (v : string) (f : Folder) : Folder :=
  mkFolder (name f) (key f) (ctrctNameOrLbl f) v (graphNameOrLbl f)
    (nodeNameOrLbl f) (scopedBy f) (deleted f) (children f).
Definition set_graphNameOrLbl (v : string) (f : Folder) : Folder :=
  mkFolder (name f) (key f) (ctrctNameOrLbl f) (devCtxLbl f) v
    (nodeNameOrLbl f) (scopedBy f) (deleted f) (children f).
Definition set_nodeNameOrLbl (v : string) (f : Folder) : Folder :=
  mkFolder (name f) (key f) (ctrctNameOrLbl f) (devCtxLbl f)
    (graphNameOrLbl f) v (scopedBy f) (deleted f) (children f).
Definition set_scopedBy (v : string) (f : Folder) : Folder :=
  mkFolder (name f) (key f) (ctrctNameOrLbl f) (devCtxLbl f)
    (graphNameOrLbl f) (nodeNameOrLbl f) v (deleted f) (children f).
Definition set_children (v : list Child) (f : Folder) : Folder :=
  mkFolder (name f) (key f) (ctrctNameOrLbl f) (devCtxLbl f)
    (graphNameOrLbl f) (nodeNameOrLbl f) (scopedBy f) (deleted f) v.
Definition set_epg_children (v : list Folder) (e : EPG) : EPG :=
  mkEPG (epg_name e) v.
Definition set_app_children (v : list EPG) (a : AppProfile) : AppProfile :=
  mkAppProfile (app_name a) v.
Definition set_tenant_children (v : list AppProfile) (t : Tenant) : Tenant :=
  mkTenant (tenant_name t) v.

(** The operations of the entity tree model (specification, section
    4.1) live in [acitoolkit] too. *)

(** Modelled from the spec: [mark_as_deleted] flags a node as removed
    without unlinking it. *)
Definition mark_as_deleted (f : Folder) : Folder :=
  mkFolder (name f) (key f) (ctrctNameOrLbl f) (devCtxLbl f)
    (graphNameOrLbl f) (nodeNameOrLbl f) (scopedBy f) true (children f).

(** Modelled from the spec: [mark_as_deleted] on a Parameter. *)
Definition mark_param_as_deleted (p : Param) : Param :=
  mkParam (p_name p) (p_key p) (p_value p) true.

(** Modelled from the spec: [deepcopy] is a full independent clone of a
    subtree; on values, the subtree itself. *)
Definition deepcopy (f : Folder) : Folder := f.

(** Modelled from the spec: the constructor [aci.Folder(name, parent)]
    makes a live Folder without children and inserts it as the last child
    of [parent] (the callers below say where); the attributes the passes
    assign afterwards start empty. *)
Definition new_Folder (n : string) : Folder :=
  mkFolder n "" "" "" "" "" "" false [].

(** Modelled from the spec: the constructor [aci.Parameter(name, parent)],
    as for Folders. *)
Definition new_Parameter (n : string) : Param := mkParam n "" "" false.

(** Modelled from the spec: the constructor [aci.Relation(name, parent)],
    as for Folders. *)
Definition new_Relation (n : string) : Relation := mkRelation n "" "" false.

(** Modelled from the spec: [tenant.get_child(aci.AppProfile, name)] is
    the first AppProfile child of that name, with its position, or
    [None].  ([get_children(cls)] is a fresh list of the children of that
    class, in order, deleted ones included: see the loops below.) *)
Definition get_child (tenant : Tenant) (n : string)
  : option (nat * AppProfile) :=
  list_find (λ a, app_name a = n) (tenant_children tenant).

(** [x in (a, b, ...)] on strings. *)
Definition py_in (x : string) (l : list string) : bool := bool_decide (x ∈ l).

(** ** Loops over the children of a node

    [for x in node.get_children(cls): body] walks the list of children
    taken when the loop starts.  The object bound to [x] is the child at
    a fixed position of [node]; what the body assigns to it is written
    back at that position, the children the body adds to [node] go behind
    the last child, and are not visited.  [body x s] gives the child as
    the body leaves it, the children it adds to [node], and the state [s]
    of everything else the body writes.  The class filter of
    [get_children] is the first test of each body. *)
Section ForEach.
Context {A St : Type}.
Variable body : A → St → A * list A * St.

Definition for_step (st : list A * St) (i : nat) : list A * St :=
  match st.1 !! i with
  | Some x =>
      let '(x', added, s') := body x st.2 in
      (<[i := x']> st.1 ++ added, s')
  | None => st
  end.

Definition for_each (l : list A) (s : St) : list A * St :=
  foldl for_step (l, s) (seq 0 (length l)).
End ForEach.

(** ** Forward pass 1: interface folder keys ([migrator.py], 103-139) *)

(** Lines 133-138, the body of [for subfolder in subfolders]. *)
Definition rename_subfolder (c : Child) (_ : unit) : Child * list Child * unit :=
  match c with
  | CFolder subfolder =>
      if negb (py_in (key subfolder)
                 ["Layer3InterfaceConfig"; "Layer2InterfaceConfig"])
      then (c, [], tt)
      else (CFolder (set_key (PyStr.slice_to 15 (key subfolder)) subfolder),
            [], tt)
  | _ => (c, [], tt)
  end.

(** Lines 121-138, the body of [for folder in epg.get_children(aci.Folder)]. *)
Definition migrate_keys_folder (folder : Folder) (changes_made : bool)
  : Folder * list Folder * bool :=
  if bool_decide (key folder = "InterfaceConfig")
     && negb (PyStr.endswith (name folder) "_premigration")
  then
    let backup := deepcopy folder in
    let backup := set_name (name backup +:+ "_premigration") backup in
    let backup :=
      set_ctrctNameOrLbl (ctrctNameOrLbl backup +:+ "_premigration") backup in
    let folder := set_key "Interface" folder in
    let folder := set_name (name folder) folder in
    let subfolders := for_each rename_subfolder (children folder) tt in
    (set_children subfolders.1 folder, [backup], true)
  else (folder, [], changes_made).

(** The body of [for epg in epgs] (lines 119-120, and the same two lines
    of every other tree pass): the loop over the Folders of the EPG. *)
Definition for_folders (body : Folder → bool → Folder * list Folder * bool)
    (epg : EPG) (changes_made : bool) : EPG * list EPG * bool :=
  let r := for_each body (epg_children epg) changes_made in
  (set_epg_children r.1 epg, [], r.2).

(** Running a pass on the application profile [n] of [tenant]: lines
    113-118 and the [return changes_made] that end every tree pass. *)
Definition on_app_profile (body : EPG → bool → EPG * list EPG * bool)
    (tenant : Tenant) (n : string) : Tenant * bool :=
  match get_child tenant n with
  | None => (tenant, false)
  | Some (i, app) =>
      let r := for_each body (app_children app) false in
      (set_tenant_children
         (<[i := set_app_children r.1 app]> (tenant_children tenant)) tenant,
       r.2)
  end.

Definition migrate_interface_folder_keys : Tenant → string → Tenant * bool :=
  on_app_profile (for_folders migrate_keys_folder).

(** ** Forward pass 2: zones and vlans ([migrator.py], 142-198)

    The state of the two inner loops is the list of Folders made so far
    under the EPG (each is the last child of the EPG when it is made; the
    walk over the EPG's Folders does not visit them) and [changes_made]. *)

(** Lines 166-197, the body of [for param in layerfolder.get_children(aci.Parameter)]. *)
Definition extract_zone_or_vlan (folder layerfolder : Folder)
    (c : Child) (st : list Folder * bool)
  : Child * list Child * (list Folder * bool) :=
  match c with
  | CParameter param =>
      if negb (py_in (p_key param) ["security_zone"; "bridge_domain"])
      then (c, [], st)
      else
        let param := mark_param_as_deleted param in
        let new_folder := new_Folder (p_value param) in
        let new_folder := set_ctrctNameOrLbl (ctrctNameOrLbl folder) new_folder in
        let new_folder := set_devCtxLbl (devCtxLbl folder) new_folder in
        let new_folder := set_graphNameOrLbl (graphNameOrLbl folder) new_folder in
        let new_folder := set_nodeNameOrLbl (nodeNameOrLbl folder) new_folder in
        let new_folder := set_scopedBy (scopedBy folder) new_folder in
        let new_ref_key := "" in
        let '(new_ref_key, new_folder) :=
          if bool_decide (p_key param = "bridge_domain") then
            ("vlan", set_key "Vlan" new_folder)
          else if bool_decide (p_key param = "security_zone") then
            let new_folder := set_key "Zone" new_folder in
            let layer := new_Parameter "mode" in
            let layer :=
              mkParam (p_name layer) "mode"
                (PyStr.lower (PyStr.slice_to 6 (key layerfolder)))
                (p_deleted layer) in
            ("zone",
             set_children (children new_folder ++ [CParameter layer]) new_folder)
          else (new_ref_key, new_folder) in
        let relation := new_Relation (p_key param +:+ "_rel") in
        let relation :=
          mkRelation (r_name relation) new_ref_key (name new_folder)
            (r_deleted relation) in
        let param := mark_param_as_deleted param in
        (CParameter param, [CRelation relation], (st.1 ++ [new_folder], true))
  | _ => (c, [], st)
  end.

(** The two outer loops that passes 2 and 3 share (lines 159-165 and
    218-224): Folders with key [Interface], and in them the sub-folders
    with key [Layer3Interface] or [Layer2Interface]. *)
Section InterfaceScan.
Variable on_param :
  Folder → Folder → Child → list Folder * bool
  → Child * list Child * (list Folder * bool).

Definition scan_layerfolder (folder : Folder)
    (c : Child) (st : list Folder * bool)
  : Child * list Child * (list Folder * bool) :=
  match c with
  | CFolder layerfolder =>
      if negb (py_in (key layerfolder) ["Layer3Interface"; "Layer2Interface"])
      then (c, [], st)
      else
        let r := for_each (on_param folder layerfolder)
                   (children layerfolder) st in
        (CFolder (set_children r.1 layerfolder), [], r.2)
  | _ => (c, [], st)
  end.

Definition scan_folder (folder : Folder) (changes_made : bool)
  : Folder * list Folder * bool :=
  if bool_decide (key folder ≠ "Interface")
  then (folder, [], changes_made)
  else
    let r := for_each (scan_layerfolder folder) (children folder)
               ([], changes_made) in
    (set_children r.1 folder, r.2.1, r.2.2).

End InterfaceScan.

Definition migrate_zones_and_vlans : Tenant → string → Tenant * bool :=
  on_app_profile (for_folders (scan_folder extract_zone_or_vlan)).

(** ** Forward pass 3: default gateway ([migrator.py], 201-248) *)

(** Lines 225-247, the body of [for param in layerfolder.get_children(aci.Parameter)]. *)
Definition extract_default_gateway (folder layerfolder : Folder)
    (c : Child) (st : list Folder * bool)
  : Child * list Child * (list Folder * bool) :=
  match c with
  | CParameter param =>
      if bool_decide (p_key param ≠ "default_gateway")
      then (c, [], st)
      else
        let param := mark_param_as_deleted param in
        let new_folder := new_Folder "default_gateway" in
        let new_folder := set_ctrctNameOrLbl (ctrctNameOrLbl folder) new_folder in
        let new_folder := set_devCtxLbl (devCtxLbl folder) new_folder in
        let new_folder := set_graphNameOrLbl (graphNameOrLbl folder) new_folder in
        let new_folder := set_nodeNameOrLbl (nodeNameOrLbl folder) new_folder in
        let new_folder := set_scopedBy (scopedBy folder) new_folder in
        let new_folder := set_key "StaticRoute" new_folder in
        let nexthop := new_Parameter "nexthop" in
        let nexthop :=
          mkParam (p_name nexthop) "nexthop" (p_value param)
            (p_deleted nexthop) in
        let new_folder :=
          set_children (children new_folder ++ [CParameter nexthop]) new_folder in
        let destination := new_Parameter "destination" in
        let destination :=
          mkParam (p_name destination) "destination" "0.0.0.0/0"
            (p_deleted destination) in
        let new_folder :=
          set_children (children new_folder ++ [CParameter destination])
            new_folder in
        (CParameter param, [], (st.1 ++ [new_folder], true))
  | _ => (c, [], st)
  end.

Definition migrate_default_gateway : Tenant → string → Tenant * bool :=
  on_app_profile (for_folders (scan_folder extract_default_gateway)).

(** ** Cleanup ([migrator.py], 282-310) *)

Definition cleanup_folder (folder : Folder) (changes_made : bool)
  : Folder * list Folder * bool :=
  if bool_decide (key folder = "InterfaceConfig")
     && PyStr.endswith (name folder) "_premigration"
  then (mark_as_deleted folder, [], true)
  else (folder, [], changes_made).

Definition cleanup_interface_folders : Tenant → string → Tenant * bool :=
  on_app_profile (for_folders cleanup_folder).

(** ** Revert, first stage ([migrator.py], 313-339) *)

Definition delete_migrated_folder (folder : Folder) (changes_made : bool)
  : Folder * list Folder * bool :=
  if py_in (key folder) ["Interface"; "Zone"; "Vlan"; "StaticRoute"]
  then (mark_as_deleted folder, [], true)
  else (folder, [], changes_made).

Definition delete_migrated_folders : Tenant → string → Tenant * bool :=
  on_app_profile (for_folders delete_migrated_folder).

(** ** Revert, second stage ([migrator.py], 342-375) *)

(** Modelled from the spec: [epg.remove_child(folder)] unlinks that child
    from the EPG.  Lines 362-364: the loop walks the Folders the EPG had
    on entry; the one that was at position [i] then sits [removed] places
    further left, [removed] counting the children unlinked so far. *)
Definition remove_migrated_step (st : list Folder * nat) (i : nat)
  : list Folder * nat :=
  match st.1 !! (i - st.2) with
  | Some folder =>
      if py_in (key folder) ["Interface"; "Zone"; "Vlan"; "StaticRoute"]
      then (delete (i - st.2) st.1, S st.2)
      else st
  | None => st
  end.

Definition remove_migrated (l : list Folder) : list Folder :=
  (foldl remove_migrated_step (l, 0) (seq 0 (length l))).1.

(** Lines 365-374. *)
Definition restore_backup (folder : Folder) (changes_made : bool)
  : Folder * list Folder * bool :=
  if PyStr.endswith (name folder) "_premigration"
  then
    let backup := deepcopy folder in
    let backup := mark_as_deleted backup in
    let folder := set_name (PyStr.slice_to_neg 13 (name folder)) folder in
    let folder :=
      set_ctrctNameOrLbl (PyStr.slice_to_neg 13 (ctrctNameOrLbl folder))
        folder in
    (folder, [backup], true)
  else (folder, [], changes_made).

(** Lines 362-374, the body of [for epg in epgs]. *)
Definition revert_epg (epg : EPG) (changes_made : bool)
  : EPG * list EPG * bool :=
  let epg := set_epg_children (remove_migrated (epg_children epg)) epg in
  for_folders restore_backup epg changes_made.

Definition revert_interface_folders : Tenant → string → Tenant * bool :=
  on_app_profile revert_epg.

(** ** Cluster associations ([migrator.py], 251-279 and 378-406)

    [get_clusters] returns the [imdata] list of the controller's JSON
    answer: a list of objects, whose attribute values are strings.  A
    JSON object is a Python dict. *)

Inductive json : Type :=
| JStr (s : string)
| JObj (m : gmap string json)
| JArr (l : list json).

Abbreviation dict := (gmap string json).

(** The exceptions the cluster code can raise. *)
Inductive exn : Type := KeyError | IndexError | AttributeError | TypeError.

Inductive raises (A : Type) : Type :=
| Ok (a : A)
| Raise (e : exn).
Arguments Ok {A} a.
Arguments Raise {A} e.

#[global] Instance raises_ret : MRet raises := λ A a, Ok a.
#[global] Instance raises_bind : MBind raises := λ A B k r,
  match r with
  | Ok a => k a
  | Raise e => Raise e
  end.

(** [d[k]] on a dict. *)
Definition dict_item (d : dict) (k : string) : raises json :=
  match d !! k with
  | Some v => Ok v
  | None => Raise KeyError
  end.

(** [v[k]] on a value of the answer, [k] a string. *)
Definition item (v : json) (k : string) : raises json :=
  match v with
  | JObj d => dict_item d k
  | _ => Raise TypeError
  end.

(** [v == s], [s] a string. *)
Definition json_is (v : json) (s : string) : bool :=
  match v with
  | JStr s' => bool_decide (s' = s)
  | _ => false
  end.

(** [cluster[k]['attributes']['tDn']] *)
Definition tDn_of (cluster : dict) (k : string) : raises json :=
  a ← dict_item cluster k;
  b ← item a "attributes";
  item b "tDn".

(** [cluster[k]['attributes']['tDn'] = v] *)
Definition set_tDn (cluster : dict) (k : string) (v : string) : raises dict :=
  a ← dict_item cluster k;
  b ← item a "attributes";
  match (a : json), (b : json) with
  | JObj da, JObj db =>
      Ok (<[k := JObj (<["attributes" := JObj (<["tDn" := JStr v]> db)]> da)]>
            cluster)
  | _, _ => Raise TypeError
  end.

(** [cluster['vnsRsMDevAtt']['attributes']['dn'].split('/')[2][8:]] *)
Definition cluster_name_of (cluster : dict) : raises string :=
  a ← dict_item cluster "vnsRsMDevAtt";
  b ← item a "attributes";
  dn ← item b "dn";
  match (dn : json) with
  | JStr dn =>
      match PyStr.split "/" dn !! 2 with
      | Some piece => Ok (PyStr.slice_from 8 piece)
      | None => Raise IndexError
      end
  | _ => Raise AttributeError
  end.

(** [cluster.name]: a dict has no such attribute. *)
Definition dict_name (cluster : dict) : raises string := Raise AttributeError.

(** [{'vnsLDevVip': {'attributes': {'name': cluster_name},
                     'children': [{'vnsRsMDevAtt': {'attributes': {'tDn': tDn}}}]}}] *)
Definition lDevVip (cluster_name tDn : string) : dict :=
  let rsmdevatt : dict := {[ "attributes" := JObj {[ "tDn" := JStr tDn ]} ]} in
  {[ "vnsLDevVip" :=
       JObj (<["attributes" := JObj {[ "name" := JStr cluster_name ]}]>
             {[ "children" := JArr [JObj {[ "vnsRsMDevAtt" := JObj rsmdevatt ]}] ]}) ]}.

(** [a and b], where evaluating [b] can raise. *)
Definition and_then (a : bool) (b : raises bool) : raises bool :=
  if a then b else Ok false.

(** [k in cluster and cluster[k]['attributes']['tDn'] == v] *)
Definition has_target (cluster : dict) (k v : string) : raises bool :=
  and_then (bool_decide (is_Some (cluster !! k)))
    (t ← tDn_of cluster k; Ok (json_is t v)).

(** The body of [for cluster in cluster_rels] of [migrate_clusters]
    (lines 262-278); [result] is the list built so far. *)
Definition migrate_cluster (result : list dict) (cluster : dict)
  : raises (list dict) :=
  c1 ← has_target cluster "vnsRsMDevAtt"
         "uni/infra/mDev-PaloAltoNetworks-PANOS-1.2";
  if (c1 : bool) then
    cluster_name ← cluster_name_of cluster;
    Ok (result ++ [lDevVip cluster_name
                     "uni/infra/mDev-PaloAltoNetworks-PANOS-1.3"])
  else
  c2 ← has_target cluster "vnsRsDevMgrToMDevMgr"
         "uni/infra/mDevMgr-PaloAltoNetworks-Panorama-1.2";
  if (c2 : bool) then
    cluster_name ← dict_name cluster;
    cluster ← set_tDn cluster "vnsRsDevMgrToMDevMgr"
                "uni/infra/mDevMgr-PaloAltoNetworks-Panorama-1.3";
    Ok (result ++ [cluster])
  else
  c3 ← has_target cluster "vnsRsChassisToMChassis"
         "uni/infra/mChassis-PaloAltoNetworks-Chassis-1.2";
  if (c3 : bool) then
    cluster_name ← dict_name cluster;
    cluster ← set_tDn cluster "vnsRsChassisToMChassis"
                "uni/infra/mChassis-PaloAltoNetworks-Chassis-1.3";
    Ok (result ++ [cluster])
  else Ok result.

(** A [for] loop whose body can raise: the first exception ends it. *)
Fixpoint for_result {A B} (body : B → A → raises B) (b : B) (l : list A)
  : raises B :=
  match l with
  | [] => Ok b
  | x :: l' => b' ← body b x; for_result body b' l'
  end.

Definition migrate_clusters (cluster_rels : list dict) : raises (list dict) :=
  for_result migrate_cluster [] cluster_rels.

(** The body of [for cluster in cluster_rels] of [revert_clusters]
    (lines 389-405): the first test reads [cluster['vnsRsMDevAtt']]
    without asking whether the key is there. *)
Definition revert_cluster (result : list dict) (cluster : dict)
  : raises (list dict) :=
  t ← tDn_of cluster "vnsRsMDevAtt";
  if json_is t "uni/infra/mDev-PaloAltoNetworks-PANOS-1.3" then
    cluster_name ← cluster_name_of cluster;
    Ok (result ++ [lDevVip cluster_name
                     "uni/infra/mDev-PaloAltoNetworks-PANOS-1.2"])
  else
  c2 ← has_target cluster "vnsRsDevMgrToMDevMgr"
         "uni/infra/mDevMgr-PaloAltoNetworks-Panorama-1.3";
  if (c2 : bool) then
    cluster_name ← dict_name cluster;
    cluster ← set_tDn cluster "vnsRsDevMgrToMDevMgr"
                "uni/infra/mDevMgr-PaloAltoNetworks-Panorama-1.2";
    Ok (result ++ [cluster])
  else
  c3 ← has_target cluster "vnsRsChassisToMChassis"
         "uni/infra/mChassis-PaloAltoNetworks-Chassis-1.3";
  if (c3 : bool) then
    cluster_name ← dict_name cluster;
    cluster ← set_tDn cluster "vnsRsChassisToMChassis"
                "uni/infra/mChassis-PaloAltoNetworks-Chassis-1.2";
    Ok (result ++ [cluster])
  else Ok result.

Definition revert_clusters (cluster_rels : list dict) : raises (list dict) :=
  for_result revert_cluster [] cluster_rels.

(** ** The command ([migrator.py], 22-53 and 409-512)

    What the command does to the controller is a trace of events; it
    ends by returning, by [sys.exit] or by an exception nobody catches. *)

Record Args : Type := mkArgs {
  parameters : bool;
  clusters : bool;
  revert : bool;
  cleanup : bool;
  tenant : option string;
  app : option string;
  dry_run : bool;
  debug : bool }.

Inductive event : Type :=
| Login                                       (* session.login() *)
| GetTenants                                  (* aci.Tenant.get(session) *)
| GetAppProfiles                              (* aci.AppProfile.get(session, tenant) *)
| GetDeep                                     (* aci.Tenant.get_deep(...) *)
| NewTenant (n : string)                      (* aci.Tenant(args.tenant) *)
| GetClusters                                 (* get_clusters(session, tenant) *)
| Push (tree : Tenant) (extra : list dict).   (* session.push_to_apic(...) *)

Inductive stop : Type :=
| Exit (code : nat)
| Uncaught (e : exn).

Inductive proc (A : Type) : Type :=
| Proc (trace : list event) (r : stop + A).
Arguments Proc {A} trace r.

Definition trace {A} (p : proc A) : list event :=
  match p with Proc t _ => t end.
Definition outcome {A} (p : proc A) : stop + A :=
  match p with Proc _ r => r end.

#[global] Instance proc_ret : MRet proc := λ A a, Proc [] (inr a).
#[global] Instance proc_bind : MBind proc := λ A B k p,
  match p with
  | Proc t (inl s) => Proc t (inl s)
  | Proc t (inr a) => match k a with Proc t' r => Proc (t ++ t') r end
  end.

Definition emit (e : event) : proc unit := Proc [e] (inr tt).
Definition sys_exit {A} (code : nat) : proc A := Proc [] (inl (Exit code)).
Definition lift {A} (r : raises A) : proc A :=
  match r with
  | Ok a => Proc [] (inr a)
  | Raise e => Proc [] (inl (Uncaught e))
  end.

(** The truth value of [args.tenant] and [args.app]: [None] and the empty
    string count as false. *)
Definition truthy (o : option string) : bool :=
  match o with
  | Some s => negb (bool_decide (s = ""))
  | None => false
  end.

(** Lines 34-53, from the parsed arguments on. *)
Definition parse_args (args : Args) : proc Args :=
  if negb (truthy (tenant args)) || negb (truthy (app args)) then mret args
  else if negb (parameters args) && negb (clusters args)
          && negb (cleanup args) && negb (revert args) then sys_exit 1
  else if revert args && (negb (parameters args) && negb (clusters args))
       then sys_exit 1
  else if revert args && cleanup args then sys_exit 1
  else if cleanup args && (parameters args || clusters args) then sys_exit 1
  else mret args.

(** What the controller answers. *)
Record World : Type := mkWorld {
  login_ok : bool;
  apic_tenants : list string;       (* names of the tenants *)
  apic_apps : list string;          (* names of the tenant's AppProfiles *)
  deep : Tenant;                    (* the tenant with its Folders *)
  cluster_rels : list dict;         (* the answer to get_clusters *)
  revert_push_ok : bool;            (* the push of line 478 *)
  final_push_ok : bool }.           (* the push of line 502 *)

Definition when (b : bool) (p : proc unit) : proc unit :=
  if b then p else mret tt.

Definition main (w : World) (argv : Args) : proc unit :=
  args ← parse_args argv;
  emit Login;;
  when (negb (login_ok w)) (sys_exit 1);;
  emit GetTenants;;
  when (negb (truthy (tenant args))) (sys_exit 0);;
  let tenant_name := default "" (tenant args) in
  when (negb (bool_decide (tenant_name ∈ apic_tenants w))) (sys_exit 1);;
  emit GetAppProfiles;;
  when ((parameters args || cleanup args) && negb (truthy (app args)))
    (sys_exit 0);;
  let app_name := default "" (app args) in
  when ((parameters args || cleanup args)
        && negb (bool_decide (app_name ∈ apic_apps w))) (sys_exit 1);;
  tenant ←
    (if parameters args || cleanup args || (revert args && parameters args)
     then emit GetDeep;; mret (deep w)
     else emit (NewTenant tenant_name);; mret (mkTenant tenant_name []));
  let changes_made := false in
  let '(tenant, changes_made) :=
    if parameters args && negb (revert args) then
      let r := migrate_interface_folder_keys tenant app_name in
      let '(tenant, changes_made) := (r.1, r.2 || changes_made) in
      let r := migrate_zones_and_vlans tenant app_name in
      let '(tenant, changes_made) := (r.1, r.2 || changes_made) in
      let r := migrate_default_gateway tenant app_name in
      (r.1, r.2 || changes_made)
    else (tenant, changes_made) in
  let found : list dict := [] in
  '(found, changes_made) ←
    (if clusters args && negb (revert args) then
       emit GetClusters;;
       found ← lift (migrate_clusters (cluster_rels w));
       mret (found, if bool_decide (found ≠ []) then true else changes_made)
     else mret (found, changes_made));
  let '(tenant, changes_made) :=
    if cleanup args && negb (revert args) then
      let r := cleanup_interface_folders tenant app_name in
      (r.1, r.2 || changes_made)
    else (tenant, changes_made) in
  '(tenant, changes_made) ←
    (if revert args && parameters args then
       let r := delete_migrated_folders tenant app_name in
       let '(tenant, changes_made) := (r.1, r.2 || changes_made) in
       when (negb (dry_run args) && changes_made)
         (emit (Push tenant []);;
          when (negb (revert_push_ok w)) (sys_exit 1));;
       let r := revert_interface_folders tenant app_name in
       mret (r.1, r.2 || changes_made)
     else mret (tenant, changes_made));
  '(found, changes_made) ←
    (if revert args && clusters args then
       emit GetClusters;;
       found ← lift (revert_clusters (cluster_rels w));
       mret (found, if bool_decide (found ≠ []) then true else changes_made)
     else mret (found, changes_made));
  let extra :=
    if clusters args && bool_decide (found ≠ []) then found else [] in
  when (negb (dry_run args))
    (when changes_made
       (emit (Push tenant extra);;
        when (negb (final_push_ok w)) (sys_exit 1))).

(** ** The loops in closed form

    [sweep body l s] walks [l] from left to right: the children as the
    body leaves them, the children it adds, and the final state. *)
Section Sweep.
Context {A St : Type}.
Variable body : A → St → A * list A * St.

Fixpoint sweep (l : list A) (s : St) : list A * list A * St :=
  match l with
  | [] => ([], [], s)
  | x :: l' =>
      let b := body x s in
      let r := sweep l' b.2 in
      (b.1.1 :: r.1.1, b.1.2 ++ r.1.2, r.2)
  end.
End Sweep.

(** A loop body over a [changes_made] flag, read at a child [x]: the
    child as the body leaves it, the children it adds to the parent, and
    whether it reports a change. *)
Section Flagging.
Context {A : Type}.
Variable body : A → bool → A * list A * bool.

Definition kept (x : A) : A := (body x false).1.1.
Definition added (x : A) : list A := (body x false).1.2.
Definition hit (x : A) : bool := (body x false).2.

(** The body only ever raises the flag. *)
Definition flagging : Prop :=
  ∀ x s, body x s = (kept x, added x, s || hit x).

(** The children of the parent after the loop. *)
Definition children_after (l : list A) : list A :=
  (kept <$> l) ++ (l ≫= added).
End Flagging.

(** The same for the bodies of the inner loops of passes 2 and 3, whose
    state also holds the Folders made under the EPG. *)
Section Collecting.
Context {A B : Type}.
Variable body : A → list B * bool → A * list A * (list B * bool).

Definition ckept (x : A) : A := (body x ([], false)).1.1.
Definition cadded (x : A) : list A := (body x ([], false)).1.2.
Definition cmade (x : A) : list B := (body x ([], false)).2.1.
Definition chit (x : A) : bool := (body x ([], false)).2.2.

Definition collecting : Prop :=
  ∀ x st,
    body x st = (ckept x, cadded x, (st.1 ++ cmade x, st.2 || chit x)).
End Collecting.

(** [map_folders F t n]: the tenant [t] with the Folders of every EPG of
    the application profile [n] rewritten by [F], and nothing else
    touched. *)
Definition map_epg (F : list Folder → list Folder) (e : EPG) : EPG :=
  set_epg_children (F (epg_children e)) e.

Definition map_folders (F : list Folder → list Folder)
    (t : Tenant) (n : string) : Tenant :=
  match get_child t n with
  | None => t
  | Some (i, a) =>
      set_tenant_children
        (<[i := set_app_children (map_epg F <$> app_children a) a]>
           (tenant_children t)) t
  end.

(** The Folders of the EPGs of the application profile [n]. *)
Definition selected_epgs (t : Tenant) (n : string) : list EPG :=
  match get_child t n with
  | None => []
  | Some (_, a) => app_children a
  end.

(** The body leaves the child [x] alone. *)
Definition skips {A} (body : A → bool → A * list A * bool) (x : A) : Prop :=
  body x false = (x, [], false).

(** The test of line 121: a version 1.2 interface Folder that has no
    backup yet. *)
Definition is_v12_interface (folder : Folder) : bool :=
  bool_decide (key folder = "InterfaceConfig")
  && negb (PyStr.endswith (name folder) "_premigration").

(** What lines 133-138 make of a child of a migrated Folder. *)
Definition renamed_child (c : Child) : Child := (rename_subfolder c tt).1.1.

(** Lines 125-127: the backup of a Folder. *)
Definition backup_of (folder : Folder) : Folder :=
  set_ctrctNameOrLbl (ctrctNameOrLbl folder +:+ "_premigration")
    (set_name (name folder +:+ "_premigration") folder).

(** [s] without its trailing [suffix], in the words of the specification
    (section 4.2): the suffix is removed when [s] ends in it. *)
Definition remove_suffix (suffix s : string) : string :=
  if PyStr.endswith s suffix
  then PyStr.slice_to_neg (PyStr.len suffix) s
  else s.

(** The Folder at position [k] of the EPG at position [j] of the
    application profile at position [i] of the tenant. *)
Definition folder_at (t : Tenant) (i j k : nat) : option Folder :=
  a ← tenant_children t !! i;
  e ← app_children a !! j;
  epg_children e !! k.

(** A backup Folder: key 'InterfaceConfig' and a name that ends in
    '_premigration' (the test of line 300). *)
Definition is_backup (folder : Folder) : bool :=
  bool_decide (key folder = "InterfaceConfig")
  && PyStr.endswith (name folder) "_premigration".

(** The three forward passes, and a run of any of them in any order,
    each on an application profile of its own. *)
Inductive forward_pass : Type := KeyRename | ZoneVlan | DefaultGateway.

Definition run_forward (p : forward_pass) : Tenant → string → Tenant * bool :=
  match p with
  | KeyRename => migrate_interface_folder_keys
  | ZoneVlan => migrate_zones_and_vlans
  | DefaultGateway => migrate_default_gateway
  end.

Definition run_sequence (ps : list (forward_pass * string)) (t : Tenant)
  : Tenant :=
  foldl (λ t pn, (run_forward pn.1 t pn.2).1) t ps.

(** No EPG of the tenant holds a backup Folder. *)
Definition no_backups (t : Tenant) : Prop :=
  ∀ a e x,
    a ∈ tenant_children t → e ∈ app_children a → x ∈ epg_children e →
    is_backup x = false.

(** The combinations of actions lines 38-52 reject: no action, revert
    without parameters or clusters, revert with cleanup, cleanup with
    parameters or clusters. *)
Definition invalid_combination (args : Args) : bool :=
  (negb (parameters args) && negb (clusters args)
   && negb (cleanup args) && negb (revert args))
  || (revert args && negb (parameters args) && negb (clusters args))
  || (revert args && cleanup args)
  || (cleanup args && (parameters args || clusters args)).

(** [--parameters --cleanup] with no [--tenant] and no [--app], and
    [--tenant T --revert --cleanup] with no [--app]. *)
Definition args_invalid_no_names : Args :=
  mkArgs true false false true None None false false.
Definition args_revert_cleanup_no_app : Args :=
  mkArgs false false true true (Some "T") None false false.

(** A controller with the tenant "T", its application profile "A" and
    no Folder. *)
Definition world_T : World :=
  mkWorld true ["T"] ["A"] (mkTenant "T" []) [] true true.

(** The target literals of the device package. *)
Definition PANOS_1_2 : string := "uni/infra/mDev-PaloAltoNetworks-PANOS-1.2".
Definition PANOS_1_3 : string := "uni/infra/mDev-PaloAltoNetworks-PANOS-1.3".

(** A device-package association as the controller lists it:
    [{'vnsRsMDevAtt': {'attributes': {'dn': dn, 'tDn': tDn}}}]. *)
Definition rsMDevAtt (dn tDn : string) : dict :=
  {[ "vnsRsMDevAtt" :=
       JObj {[ "attributes" :=
                 JObj (<["dn" := JStr dn]> {[ "tDn" := JStr tDn ]}) ]} ]}.

(** A device manager as the controller lists it:
    [{'vnsDevMgr': {'attributes': {'dn': dn, 'name': name}}}]. *)
Definition devMgr (dn n : string) : dict :=
  {[ "vnsDevMgr" :=
       JObj {[ "attributes" :=
                 JObj (<["dn" := JStr dn]> {[ "name" := JStr n ]}) ]} ]}.

(** The three forward passes in the order [main] runs them (lines
    460-462). *)
Definition forward (t : Tenant) (n : string) : Tenant :=
  let t := (migrate_interface_folder_keys t n).1 in
  let t := (migrate_zones_and_vlans t n).1 in
  (migrate_default_gateway t n).1.

(** The layer sub-folders passes 2 and 3 descend into (lines 164, 223). *)
Definition is_layerfolder (layerfolder : Folder) : bool :=
  py_in (key layerfolder) ["Layer3Interface"; "Layer2Interface"].

(** The keys of the Folders the revert takes for migrated ones (lines 334
    and 363). *)
Definition is_migrated (folder : Folder) : bool :=
  py_in (key folder) ["Interface"; "Zone"; "Vlan"; "StaticRoute"].

(** A layer sub-folder as pass 2 or 3 leaves it: its children as the
    body of the Parameter loop leaves them, then the children the body
    adds. *)
Definition scanned_layerfolder
    (on_param : Folder → Folder → Child → list Folder * bool
                → Child * list Child * (list Folder * bool))
    (folder layerfolder : Folder) : Folder :=
  set_children
    ((ckept (on_param folder layerfolder) <$> children layerfolder)
     ++ (children layerfolder ≫= cadded (on_param folder layerfolder)))
    layerfolder.

(** What the three forward passes make of the Folders of one EPG. *)
Definition forward_children (cs : list Folder) : list Folder :=
  children_after (scan_folder extract_default_gateway)
    (children_after (scan_folder extract_zone_or_vlan)
       (children_after migrate_keys_folder cs)).

(** ** Sample trees *)

(** A Layer3InterfaceConfig sub-folder with security_zone=zoneA and
    default_gateway=10.0.0.1. *)
Definition sample_layer3 : Folder :=
  mkFolder "l3" "Layer3InterfaceConfig" "" "" "" "" "" false
    [CParameter (mkParam "sz" "security_zone" "zoneA" false);
     CParameter (mkParam "gw" "default_gateway" "10.0.0.1" false)].

(** An InterfaceConfig Folder named [n] that holds it. *)
Definition sample_interface (n : string) : Folder :=
  mkFolder n "InterfaceConfig" "c1" "d" "g" "n" "s" false
    [CFolder sample_layer3].

(** A tenant with one application profile "A" and one EPG "E" that holds
    the Folders [cs]. *)
Definition sample_tenant (cs : list Folder) : Tenant :=
  mkTenant "T" [mkAppProfile "A" [mkEPG "E" cs]].

(** The Folders of the EPG at position [j] of the application profile
    [n], if there is one. *)
Definition folders_of (t : Tenant) (n : string) (j : nat)
  : option (list Folder) :=
  '(_, a) ← get_child t n;
  e ← app_children a !! j;
  Some (epg_children e).

(** The revert ([main], lines 475-485) applied to the output of the three
    forward passes. *)
Definition round_trip (t : Tenant) (n : string) : Tenant :=
  let t := forward t n in
  let t := (delete_migrated_folders t n).1 in
  (revert_interface_folders t n).1.

(** What the specification promises of the round trip: the tree is the
    one before the migration, but for Folders that are marked deleted and
    named as backups, left under the EPGs. *)
Definition is_deleted_copy (folder : Folder) : bool :=
  deleted folder && PyStr.endswith (name folder) "_premigration".

Definition without_deleted_copies (t : Tenant) : Tenant :=
  set_tenant_children
    ((λ a,
       set_app_children
         (map_epg (filter (λ x, is_deleted_copy x = false))
            <$> app_children a) a)
       <$> tenant_children t) t.

(** The Folders of an EPG after the round trip: the ones that were not
    interface Folders, then the interface Folders, then a copy of each
    backup, marked deleted. *)
Definition reverted_children (cs : list Folder) : list Folder :=
  filter (λ x, key x ≠ "InterfaceConfig") cs
  ++ filter (λ x, key x = "InterfaceConfig") cs
  ++ ((λ x, mark_as_deleted (backup_of x))
        <$> filter (λ x, key x = "InterfaceConfig") cs).

(** A tree of version 1.2: the EPGs of the application profile hold no
    Folder with a key of version 1.3 and none named as a backup. *)
Definition pre_migration (t : Tenant) (n : string) : Prop :=
  ∀ e x,
    e ∈ selected_epgs t n → x ∈ epg_children e →
    is_migrated x = false
    ∧ PyStr.endswith (name x) "_premigration" = false.

(** What the revert, after the forward passes, makes of the Folders of
    one EPG. *)
Definition round_trip_children (cs : list Folder) : list Folder :=
  children_after restore_backup
    (remove_migrated
       (children_after delete_migrated_folder (forward_children cs))).

(** A tenant whose EPG holds one Folder of version 1.3 already. *)
Definition sample_zone : Folder :=
  mkFolder "z1" "Zone" "c1" "d" "g" "n" "s" false [].

(** A Folder of another kind. *)
Definition sample_other : Folder :=
  mkFolder "oth" "Other" "c1" "d" "g" "n" "s" false [].

(** A tenant of version 1.2: an interface Folder and a Folder of another
    kind. *)
Definition sample_v12 : Tenant :=
  sample_tenant [sample_interface "if1"; sample_other].

(** [--tenant T --app A --cleanup], and the same with [--parameters]. *)
Definition args_cleanup : Args :=
  mkArgs false false false true (Some "T") (Some "A") false false.
Definition args_cleanup_parameters : Args :=
  mkArgs true false false true (Some "T") (Some "A") false false.

(** A controller that holds [sample_v12]. *)
Definition world_v12 : World :=
  mkWorld true ["T"] ["A"] sample_v12 [] true true.

(** ** More of the command *)

(** Whether the three forward passes report a change, as lines 460-462
    add their results up. *)
Definition forward_changed (t : Tenant) (n : string) : bool :=
  let r1 := migrate_interface_folder_keys t n in
  let r2 := migrate_zones_and_vlans r1.1 n in
  let r3 := migrate_default_gateway r2.1 n in
  r3.2 || (r2.2 || (r1.2 || false)).

(** The target literals of the device manager and of the chassis. *)
Definition Panorama_1_2 : string :=
  "uni/infra/mDevMgr-PaloAltoNetworks-Panorama-1.2".
Definition Panorama_1_3 : string :=
  "uni/infra/mDevMgr-PaloAltoNetworks-Panorama-1.3".
Definition Chassis_1_2 : string :=
  "uni/infra/mChassis-PaloAltoNetworks-Chassis-1.2".
Definition Chassis_1_3 : string :=
  "uni/infra/mChassis-PaloAltoNetworks-Chassis-1.3".

(** A record with none of the three attributes the cluster migrations
    look for. *)
Definition other_shape (cluster : dict) : Prop :=
  cluster !! "vnsRsMDevAtt" = None
  ∧ cluster !! "vnsRsDevMgrToMDevMgr" = None
  ∧ cluster !! "vnsRsChassisToMChassis" = None.

(** The dn of the device-package attachment of the cluster [cluster_name]
    of the tenant [tn]. *)
Definition rsMDevAtt_dn (tn cluster_name : string) : string :=
  "uni/tn-" +:+ tn +:+ "/lDevVip-" +:+ cluster_name +:+ "/rsMDevAtt".


(** ** More of the tree passes *)

(** The six tree passes. *)
Inductive tree_pass : Type :=
| PassKeys | PassZones | PassGateway | PassCleanup | PassDelete | PassRestore.

Definition run_pass (p : tree_pass) : Tenant → string → Tenant * bool :=
  match p with
  | PassKeys => migrate_interface_folder_keys
  | PassZones => migrate_zones_and_vlans
  | PassGateway => migrate_default_gateway
  | PassCleanup => cleanup_interface_folders
  | PassDelete => delete_migrated_folders
  | PassRestore => revert_interface_folders
  end.

(** What a pass on the application profile [n] keeps of the tenant [t]:
    the tenant's name, the application profiles with their names and
    order, the EPGs of each with their names and order, and every
    application profile but the one it works on, whole. *)
Definition frame_kept (t t' : Tenant) (n : string) : Prop :=
  tenant_name t' = tenant_name t
  ∧ length (tenant_children t') = length (tenant_children t)
  ∧ ∀ i a,
      tenant_children t !! i = Some a →
      ∃ a',
        tenant_children t' !! i = Some a'
        ∧ app_name a' = app_name a
        ∧ epg_name <$> app_children a' = epg_name <$> app_children a
        ∧ (get_child t n ≠ Some (i, a) → a' = a).

(** Lines 129-138: an interface Folder as pass 1 leaves it. *)
Definition migrated_interface (folder : Folder) : Folder :=
  set_children (renamed_child <$> children folder)
    (set_key "Interface" folder).

(** [sample_v12] after the key rename pass. *)
Definition sample_renamed : Tenant :=
  (migrate_interface_folder_keys sample_v12 "A").1.

(** A Layer2Interface sub-folder with a bridge domain and a security
    zone, in an 'Interface' Folder, in a tenant. *)
Definition sample_layer2 : Folder :=
  mkFolder "l2" "Layer2Interface" "" "" "" "" "" false
    [CParameter (mkParam "bd" "bridge_domain" "bd1" false);
     CParameter (mkParam "sz" "security_zone" "zoneB" false)].
Definition sample_interface_13 : Folder :=
  mkFolder "if2" "Interface" "c2" "d" "g" "n" "s" false [CFolder sample_layer2].
Definition sample_v13 : Tenant := sample_tenant [sample_interface_13].

(** The forward passes, then the cleanup, then the revert. *)
Definition cleanup_then_revert (t : Tenant) (n : string) : Tenant :=
  let t := forward t n in
  let t := (cleanup_interface_folders t n).1 in
  let t := (delete_migrated_folders t n).1 in
  (revert_interface_folders t n).1.

(** The Folders of an EPG after that: the interface Folders come back
    under their names, marked deleted. *)
Definition reverted_after_cleanup (cs : list Folder) : list Folder :=
  filter (λ x, key x ≠ "InterfaceConfig") cs
  ++ (mark_as_deleted <$> filter (λ x, key x = "InterfaceConfig") cs)
  ++ ((λ x, mark_as_deleted (backup_of x))
        <$> filter (λ x, key x = "InterfaceConfig") cs).

(** [f'] is [f] as far as its name, its five fields and a deletion mark
    already set go. *)
Definition same_identity (f f' : Folder) : Prop :=
  name f' = name f
  ∧ ctrctNameOrLbl f' = ctrctNameOrLbl f
  ∧ devCtxLbl f' = devCtxLbl f
  ∧ graphNameOrLbl f' = graphNameOrLbl f
  ∧ nodeNameOrLbl f' = nodeNameOrLbl f
  ∧ scopedBy f' = scopedBy f
  ∧ (deleted f = true → deleted f' = true).

(** [--tenant T --app A --clusters] and [--tenant T --app A --parameters
    --revert]. *)
Definition args_clusters : Args :=
  mkArgs false true false false (Some "T") (Some "A") false false.
Definition args_revert_parameters : Args :=
  mkArgs true false true false (Some "T") (Some "A") false false.

(** A controller with one cluster, "FW", on the 1.2 device package. *)
Definition world_cluster : World :=
  mkWorld true ["T"] ["A"] sample_v12
    [rsMDevAtt (rsMDevAtt_dn "T" "FW") PANOS_1_2] true true.

(** A controller that holds [sample_v12] as the forward passes leave it;
    [ok] says whether it accepts the first push of a revert. *)
Definition world_migrated (ok : bool) : World :=
  mkWorld true ["T"] ["A"] (forward sample_v12 "A") [] ok true.

(** * Properties *)

(** ** Strings *)
Module PyStrFacts.
Import PyStr.

Lemma chars_app s1 s2 : chars (s1 +:+ s2) = chars s1 ++ chars s2.
Proof. induction s1 as [|c s1 IH]; simpl; [done|]. by rewrite <- IH. Qed.

Lemma of_chars_chars s : of_chars (chars s) = s.
Proof. apply String.string_of_list_ascii_of_string. Qed.

Lemma chars_of_chars l : chars (of_chars l) = l.
Proof. apply String.list_ascii_of_string_of_list_ascii. Qed.

Lemma len_app s1 s2 : len (s1 +:+ s2) = len s1 + len s2.
Proof. unfold len. by rewrite chars_app, length_app. Qed.

Lemma endswith_app s suffix : endswith (s +:+ suffix) suffix = true.
Proof.
  unfold endswith, slice_from. rewrite len_app.
  apply andb_true_iff; split.
  - apply Nat.leb_le. lia.
  - apply bool_decide_eq_true.
    replace (len s + len suffix - len suffix) with (length (chars s))
      by (unfold len; lia).
    by rewrite chars_app, drop_app_length, of_chars_chars.
Qed.

Lemma slice_to_neg_app s suffix :
  slice_to_neg (len suffix) (s +:+ suffix) = s.
Proof.
  unfold slice_to_neg. rewrite len_app.
  replace (len s + len suffix - len suffix) with (length (chars s))
    by (unfold len; lia).
  by rewrite chars_app, take_app_length, of_chars_chars.
Qed.

Lemma slice_to_neg_premigration s :
  slice_to_neg 13 (s +:+ "_premigration") = s.
Proof. apply (slice_to_neg_app s "_premigration"). Qed.
End PyStrFacts.

(** ** Loops *)
Section SweepFacts.
Context {A St : Type}.
Variable body : A → St → A * list A * St.

Lemma for_each_from (done rest added : list A) (s : St) :
  foldl (for_step body) (done ++ rest ++ added, s)
    (seq (length done) (length rest))
  = (done ++ (sweep body rest s).1.1 ++ added ++ (sweep body rest s).1.2,
     (sweep body rest s).2).
Proof.
  revert done added s.
  induction rest as [|x rest IH]; intros done added s; simpl.
  - by rewrite !app_nil_r.
  - unfold for_step at 2. simpl.
    rewrite lookup_app_r by lia. rewrite Nat.sub_diag. simpl.
    destruct (body x s) as [[x' add] s'] eqn:Hb. simpl.
    rewrite insert_app_r_alt by lia. rewrite Nat.sub_diag. simpl.
    specialize (IH (done ++ [x']) (added ++ add) s').
    rewrite length_app in IH. simpl in IH.
    replace (length done + 1) with (S (length done)) in IH by lia.
    rewrite <- !app_assoc in IH. simpl in IH.
    rewrite <- !app_assoc. simpl. by rewrite <- !app_assoc.
Qed.

Lemma for_each_sweep (l : list A) (s : St) :
  for_each body l s
  = ((sweep body l s).1.1 ++ (sweep body l s).1.2, (sweep body l s).2).
Proof.
  unfold for_each.
  pose proof (for_each_from [] l [] s) as H. simpl in H.
  rewrite app_nil_r in H. by rewrite H.
Qed.

(** A body whose result at a child does not depend on the state, and
    whose effect on the state is [upd]. *)
Section Uniform.
Variable f : A → A.
Variable g : A → list A.
Variable upd : St → A → St.
Hypothesis body_uniform : ∀ x s, body x s = (f x, g x, upd s x).

Lemma sweep_uniform (l : list A) (s : St) :
  sweep body l s = (f <$> l, l ≫= g, foldl upd s l).
Proof.
  revert s. induction l as [|x l IH]; intros s; simpl; [done|].
  rewrite body_uniform. simpl. by rewrite IH.
Qed.

Lemma for_each_uniform (l : list A) (s : St) :
  for_each body l s = ((f <$> l) ++ (l ≫= g), foldl upd s l).
Proof. by rewrite for_each_sweep, sweep_uniform. Qed.
End Uniform.
End SweepFacts.

Section FlaggingFacts.
Context {A : Type}.
Variable body : A → bool → A * list A * bool.
Hypothesis Hbody : flagging body.

Lemma foldl_orb_hit (l : list A) (s : bool) :
  foldl (λ s x, s || hit body x) s l = s || existsb (hit body) l.
Proof.
  revert s. induction l as [|x l IH]; intros s; simpl.
  - by rewrite orb_false_r.
  - by rewrite IH, orb_assoc.
Qed.

Lemma for_each_flagging (l : list A) (s : bool) :
  for_each body l s = (children_after body l, s || existsb (hit body) l).
Proof.
  rewrite (for_each_uniform body (kept body) (added body)
             (λ s x, s || hit body x)) by apply Hbody.
  by rewrite foldl_orb_hit.
Qed.
End FlaggingFacts.

Section CollectingFacts.
Context {A B : Type}.
Variable body : A → list B * bool → A * list A * (list B * bool).
Hypothesis Hbody : collecting body.

Lemma foldl_collect (l : list A) (st : list B * bool) :
  foldl (λ st x, (st.1 ++ cmade body x, st.2 || chit body x)) st l
  = (st.1 ++ (l ≫= cmade body), st.2 || existsb (chit body) l).
Proof.
  revert st. induction l as [|x l IH]; intros [made s]; simpl.
  - by rewrite app_nil_r, orb_false_r.
  - rewrite IH. simpl. by rewrite <- app_assoc, orb_assoc.
Qed.

Lemma for_each_collecting (l : list A) (st : list B * bool) :
  for_each body l st
  = ((ckept body <$> l) ++ (l ≫= cadded body),
     (st.1 ++ (l ≫= cmade body), st.2 || existsb (chit body) l)).
Proof.
  rewrite (for_each_uniform body (ckept body) (cadded body)
             (λ st x, (st.1 ++ cmade body x, st.2 || chit body x)))
    by apply Hbody.
  by rewrite foldl_collect.
Qed.
End CollectingFacts.

(** ** The bodies of the passes *)

Lemma bind_nil {A B} (l : list A) : l ≫= (λ _ : A, @nil B) = [].
Proof. induction l; simpl; auto. Qed.

Lemma migrate_keys_folder_flagging : flagging migrate_keys_folder.
Proof.
  intros x s. unfold kept, added, hit, migrate_keys_folder.
  destruct (bool_decide _ && negb _); simpl; [by rewrite orb_true_r|].
  by rewrite orb_false_r.
Qed.

Lemma cleanup_folder_flagging : flagging cleanup_folder.
Proof.
  intros x s. unfold kept, added, hit, cleanup_folder.
  destruct (bool_decide _ && _); simpl; [by rewrite orb_true_r|].
  by rewrite orb_false_r.
Qed.

Lemma delete_migrated_folder_flagging : flagging delete_migrated_folder.
Proof.
  intros x s. unfold kept, added, hit, delete_migrated_folder.
  destruct (py_in _ _); simpl; [by rewrite orb_true_r|].
  by rewrite orb_false_r.
Qed.

Lemma restore_backup_flagging : flagging restore_backup.
Proof.
  intros x s. unfold kept, added, hit, restore_backup.
  destruct (PyStr.endswith _ _); simpl; [by rewrite orb_true_r|].
  by rewrite orb_false_r.
Qed.

Lemma extract_zone_or_vlan_collecting folder layerfolder :
  collecting (extract_zone_or_vlan folder layerfolder).
Proof.
  intros c [made s]. unfold ckept, cadded, cmade, chit, extract_zone_or_vlan.
  destruct c as [f|p|r]; simpl; try by rewrite app_nil_r, orb_false_r.
  destruct (negb (py_in _ _)); simpl; [by rewrite app_nil_r, orb_false_r|].
  repeat case_bool_decide; simpl; by rewrite orb_true_r.
Qed.

Lemma extract_default_gateway_collecting folder layerfolder :
  collecting (extract_default_gateway folder layerfolder).
Proof.
  intros c [made s].
  unfold ckept, cadded, cmade, chit, extract_default_gateway.
  destruct c as [f|p|r]; simpl; try by rewrite app_nil_r, orb_false_r.
  case_bool_decide; simpl; [by rewrite app_nil_r, orb_false_r|].
  by rewrite orb_true_r.
Qed.

Section ScanFacts.
Variable on_param :
  Folder → Folder → Child → list Folder * bool
  → Child * list Child * (list Folder * bool).
Hypothesis Hparam : ∀ folder layerfolder,
  collecting (on_param folder layerfolder).

Lemma scan_layerfolder_collecting folder :
  collecting (scan_layerfolder on_param folder).
Proof.
  intros c [made s]. unfold ckept, cadded, cmade, chit, scan_layerfolder.
  destruct c as [f|p|r]; simpl; try by rewrite app_nil_r, orb_false_r.
  destruct (negb (py_in _ _)); simpl; [by rewrite app_nil_r, orb_false_r|].
  by rewrite !(for_each_collecting _ (Hparam folder f)).
Qed.

Lemma scan_folder_flagging : flagging (scan_folder on_param).
Proof.
  intros x s. unfold kept, added, hit, scan_folder.
  case_bool_decide; simpl; [by rewrite orb_false_r|].
  by rewrite !(for_each_collecting _ (scan_layerfolder_collecting x)).
Qed.
End ScanFacts.

(** ** A pass over the application profile *)

Lemma set_app_children_same a : set_app_children (app_children a) a = a.
Proof. by destruct a. Qed.

Lemma set_epg_children_same e : set_epg_children (epg_children e) e = e.
Proof. by destruct e. Qed.

Lemma set_tenant_children_same t :
  set_tenant_children (tenant_children t) t = t.
Proof. by destruct t. Qed.

Lemma get_child_lookup t n i a :
  get_child t n = Some (i, a) →
  tenant_children t !! i = Some a ∧ app_name a = n.
Proof. unfold get_child. rewrite list_find_Some. by intros (? & ? & _). Qed.

(** Rewriting the children of the profile a pass works on does not move
    the profile: the next pass finds it at the same place. *)
Lemma get_child_update t n i a es :
  get_child t n = Some (i, a) →
  get_child
    (set_tenant_children
       (<[i := set_app_children es a]> (tenant_children t)) t) n
  = Some (i, set_app_children es a).
Proof.
  unfold get_child. intros H. simpl.
  apply list_find_Some in H as (Hi & Hn & Hfirst).
  apply list_find_Some. split_and!.
  - apply list_lookup_insert_eq. by eapply lookup_lt_Some.
  - done.
  - intros j y Hj Hlt. rewrite list_lookup_insert_ne in Hj by lia. eauto.
Qed.

Lemma map_folders_get_child F t n i a :
  get_child t n = Some (i, a) →
  get_child (map_folders F t n) n
  = Some (i, set_app_children (map_epg F <$> app_children a) a).
Proof.
  intros H. unfold map_folders. rewrite H. by apply get_child_update.
Qed.

Lemma map_folders_None F t n : get_child t n = None → map_folders F t n = t.
Proof. unfold map_folders. by intros ->. Qed.

Lemma map_folders_compose F G t n :
  map_folders G (map_folders F t n) n = map_folders (G ∘ F) t n.
Proof.
  destruct (get_child t n) as [[i a]|] eqn:H.
  - unfold map_folders at 1. rewrite (map_folders_get_child F _ _ _ _ H).
    unfold map_folders. rewrite H. simpl.
    rewrite list_insert_insert_eq. unfold set_app_children. simpl.
    rewrite <- list_fmap_compose.
    assert (map_epg G ∘ map_epg F <$> app_children a
            = map_epg (G ∘ F) <$> app_children a) as ->; [|done].
    apply list_fmap_ext. intros _ e _. by destruct e.
  - by rewrite !map_folders_None by (by rewrite ?map_folders_None).
Qed.

Lemma map_folders_ext F G t n :
  (∀ e, e ∈ selected_epgs t n → F (epg_children e) = G (epg_children e)) →
  map_folders F t n = map_folders G t n.
Proof.
  unfold map_folders, selected_epgs.
  destruct (get_child t n) as [[i a]|]; [|done]. intros H.
  do 3 f_equal. apply list_fmap_ext. intros j e Hj. unfold map_epg.
  rewrite H; [done|]. eapply list_elem_of_lookup_2, Hj.
Qed.

Lemma map_folders_id F t n :
  (∀ e, e ∈ selected_epgs t n → F (epg_children e) = epg_children e) →
  map_folders F t n = t.
Proof.
  intros H. rewrite (map_folders_ext F id) by done.
  unfold map_folders. destruct (get_child t n) as [[i a]|] eqn:Hg; [|done].
  apply get_child_lookup in Hg as [Hi _].
  replace (map_epg id <$> app_children a) with (app_children a).
  - rewrite set_app_children_same, list_insert_id by done.
    apply set_tenant_children_same.
  - rewrite <- (list_fmap_id (app_children a)) at 1.
    apply list_fmap_ext. intros _ e _. by destruct e.
Qed.

Section PassFacts.
Variable body : Folder → bool → Folder * list Folder * bool.
Hypothesis Hbody : flagging body.

Lemma for_folders_flagging : flagging (for_folders body).
Proof.
  intros e s. unfold kept, added, hit, for_folders.
  by rewrite !(for_each_flagging _ Hbody).
Qed.

Lemma for_folders_kept e :
  kept (for_folders body) e = map_epg (children_after body) e.
Proof.
  unfold kept, for_folders. by rewrite (for_each_flagging _ Hbody).
Qed.

Lemma for_folders_children_after es :
  children_after (for_folders body) es
  = map_epg (children_after body) <$> es.
Proof.
  unfold children_after.
  replace (es ≫= added (for_folders body)) with (@nil EPG).
  - rewrite app_nil_r. apply list_fmap_ext. intros _ e _.
    apply for_folders_kept.
  - symmetry. apply bind_nil.
Qed.

(** A tree pass is [map_folders] of what its body does to the Folders of
    one EPG. *)
Lemma pass_tree t n :
  (on_app_profile (for_folders body) t n).1
  = map_folders (children_after body) t n.
Proof.
  unfold on_app_profile, map_folders.
  destruct (get_child t n) as [[i a]|]; [|done]. simpl.
  rewrite (for_each_flagging _ for_folders_flagging). simpl.
  by rewrite for_folders_children_after.
Qed.

Lemma pass_flag t n :
  (on_app_profile (for_folders body) t n).2
  = existsb (λ e, existsb (hit body) (epg_children e)) (selected_epgs t n).
Proof.
  unfold on_app_profile, selected_epgs.
  destruct (get_child t n) as [[i a]|]; [|done]. simpl.
  rewrite (for_each_flagging _ for_folders_flagging). simpl.
  induction (app_children a) as [|e es IH]; simpl; [done|].
  rewrite IH. f_equal. unfold hit at 1, for_folders.
  by rewrite (for_each_flagging _ Hbody).
Qed.
End PassFacts.

Lemma selected_epgs_map_folders F t n :
  selected_epgs (map_folders F t n) n = map_epg F <$> selected_epgs t n.
Proof.
  unfold selected_epgs at 1.
  destruct (get_child t n) as [[i a]|] eqn:H.
  - rewrite (map_folders_get_child F _ _ _ _ H).
    unfold selected_epgs. by rewrite H.
  - rewrite map_folders_None, H by done. unfold selected_epgs. by rewrite H.
Qed.

Lemma selected_epgs_elem_of t n e :
  e ∈ selected_epgs t n →
  ∃ a, a ∈ tenant_children t ∧ app_name a = n ∧ e ∈ app_children a.
Proof.
  unfold selected_epgs. destruct (get_child t n) as [[i a]|] eqn:H.
  - apply get_child_lookup in H as [Hi Hn]. intros He. exists a.
    split_and!; [by eapply list_elem_of_lookup_2|done..].
  - by intros ?%elem_of_nil.
Qed.

Section SkipFacts.
Context {A : Type}.
Variable body : A → bool → A * list A * bool.

Lemma children_after_skips (l : list A) :
  (∀ x, x ∈ l → skips body x) → children_after body l = l.
Proof.
  unfold children_after, skips. intros H.
  assert (kept body <$> l = l ∧ l ≫= added body = []) as [-> ->];
    [|apply app_nil_r].
  induction l as [|x l IH]; [done|].
  destruct IH as [IH1 IH2]; [intros y Hy; apply H; by right|].
  rewrite fmap_cons, bind_cons, IH1, IH2.
  unfold kept, added. by rewrite (H x) by left.
Qed.

Lemma existsb_hit_skips (l : list A) :
  (∀ x, x ∈ l → skips body x) → existsb (hit body) l = false.
Proof.
  unfold hit, skips. induction l as [|x l IH]; intros H; [done|]. simpl.
  rewrite (H x) by left. simpl. apply IH. intros y Hy. apply H. by right.
Qed.
End SkipFacts.

(** A pass whose body leaves every Folder of the profile alone changes
    nothing and reports no change. *)
Lemma pass_skips body t n :
  flagging body →
  (∀ e x, e ∈ selected_epgs t n → x ∈ epg_children e → skips body x) →
  on_app_profile (for_folders body) t n = (t, false).
Proof.
  intros Hbody H.
  rewrite (surjective_pairing (on_app_profile _ t n)).
  rewrite pass_tree, pass_flag by done. f_equal.
  - apply map_folders_id. intros e He. apply children_after_skips. eauto.
  - induction (selected_epgs t n) as [|e es IH]; [done|]. simpl.
    rewrite existsb_hit_skips by (intros x Hx; eapply H; [left|done]).
    simpl. apply IH. intros e' x He'. apply H. by right.
Qed.

(** ** Pass 1 does not visit its own output *)

Lemma migrate_keys_skips_output (x y : Folder) :
  y = kept migrate_keys_folder x ∨ y ∈ added migrate_keys_folder x →
  skips migrate_keys_folder y.
Proof.
  unfold kept, added, skips, migrate_keys_folder.
  destruct (bool_decide (key x = "InterfaceConfig")
            && negb (PyStr.endswith (name x) "_premigration")) eqn:Hx; simpl.
  - intros [->| ->%list_elem_of_singleton]; simpl; [done|].
    unfold deepcopy. by rewrite PyStrFacts.endswith_app, andb_false_r.
  - intros [->|?%elem_of_nil]; [|done]. by rewrite Hx.
Qed.

Lemma migrate_keys_children_after_skips (l : list Folder) (y : Folder) :
  y ∈ children_after migrate_keys_folder l → skips migrate_keys_folder y.
Proof.
  unfold children_after. rewrite elem_of_app, list_elem_of_fmap.
  rewrite list_elem_of_bind.
  intros [(x & -> & _)|(x & Hy & _)];
    apply (migrate_keys_skips_output x); auto.
Qed.

(** C3. Running the interface-folder key rename pass a second time on the
    result of a first run changes nothing: the tree after the second run
    is the tree after the first run (no second backup is made), and the
    second run returns False. *)
Theorem migrate_interface_folder_keys_idempotent (t : Tenant) (n : string) :
  migrate_interface_folder_keys (migrate_interface_folder_keys t n).1 n
  = ((migrate_interface_folder_keys t n).1, false).
Proof.
  unfold migrate_interface_folder_keys.
  rewrite (pass_tree _ migrate_keys_folder_flagging).
  apply pass_skips; [apply migrate_keys_folder_flagging|].
  intros e x. rewrite selected_epgs_map_folders, list_elem_of_fmap.
  intros (e0 & -> & _). simpl. apply migrate_keys_children_after_skips.
Qed.

(** C10. When the app-profile name matches no AppProfile child of the
    tenant, each tree pass (key rename, zone/VLAN extraction,
    default-gateway extraction, cleanup, delete-migrated, restore-backups)
    returns False and leaves the tenant tree unchanged; none raises. *)
Theorem unknown_app_profile_no_change (t : Tenant) (n : string) :
  (∀ a, a ∈ tenant_children t → app_name a ≠ n) →
  migrate_interface_folder_keys t n = (t, false)
  ∧ migrate_zones_and_vlans t n = (t, false)
  ∧ migrate_default_gateway t n = (t, false)
  ∧ cleanup_interface_folders t n = (t, false)
  ∧ delete_migrated_folders t n = (t, false)
  ∧ revert_interface_folders t n = (t, false).
Proof.
  intros H.
  assert (get_child t n = None) as Hg.
  { unfold get_child. apply list_find_None, Forall_forall. exact H. }
  unfold migrate_interface_folder_keys, migrate_zones_and_vlans,
    migrate_default_gateway, cleanup_interface_folders,
    delete_migrated_folders, revert_interface_folders, on_app_profile.
  by rewrite Hg.
Qed.

(** ** Pass 1 on one Folder *)

Lemma rename_subfolder_uniform c u :
  rename_subfolder c u = (renamed_child c, [], tt).
Proof.
  unfold renamed_child, rename_subfolder. destruct u.
  destruct c as [f|p|r]; [|done..]. by destruct (negb _).
Qed.

Lemma rename_subfolders l :
  (for_each rename_subfolder l tt).1 = renamed_child <$> l.
Proof.
  rewrite (for_each_uniform rename_subfolder renamed_child (λ _, [])
             (λ _ _, tt)) by apply rename_subfolder_uniform.
  simpl. by rewrite bind_nil, app_nil_r.
Qed.

Lemma migrate_keys_folder_hit folder :
  hit migrate_keys_folder folder = is_v12_interface folder.
Proof.
  unfold hit, migrate_keys_folder, is_v12_interface.
  by destruct (bool_decide _ && negb _).
Qed.

Lemma migrate_keys_folder_kept folder :
  kept migrate_keys_folder folder
  = if is_v12_interface folder
    then set_children (renamed_child <$> children folder)
           (set_key "Interface" folder)
    else folder.
Proof.
  unfold kept, migrate_keys_folder, is_v12_interface.
  destruct (bool_decide _ && negb _); [|done]. simpl.
  rewrite rename_subfolders. by destruct folder.
Qed.

Lemma migrate_keys_folder_added folder :
  added migrate_keys_folder folder
  = if is_v12_interface folder then [backup_of folder] else [].
Proof.
  unfold added, migrate_keys_folder, is_v12_interface.
  by destruct (bool_decide _ && negb _).
Qed.

(** C5. For a direct child Folder of a migrated interface Folder whose key
    is 'Layer3InterfaceConfig' or 'Layer2InterfaceConfig', the key the
    rename pass writes (the first 15 characters of the key) is the key
    without its trailing 'Config': the child ends up with key
    'Layer3Interface' or 'Layer2Interface' respectively; its name, its
    fields, its deletion mark and its children stay as they were. *)
Theorem subfolder_key_truncation
    (folder subfolder : Folder) (i : nat) :
  is_v12_interface folder = true →
  children folder !! i = Some (CFolder subfolder) →
  key subfolder = "Layer3InterfaceConfig"
  ∨ key subfolder = "Layer2InterfaceConfig" →
  ∃ child,
    children (kept migrate_keys_folder folder) !! i = Some (CFolder child)
    ∧ child = set_key (PyStr.slice_to 15 (key subfolder)) subfolder
    ∧ key child = PyStr.slice_to 15 (key subfolder)
    ∧ key child = remove_suffix "Config" (key subfolder)
    ∧ (key subfolder = "Layer3InterfaceConfig" →
       key child = "Layer3Interface")
    ∧ (key subfolder = "Layer2InterfaceConfig" →
       key child = "Layer2Interface")
    ∧ name child = name subfolder
    ∧ ctrctNameOrLbl child = ctrctNameOrLbl subfolder
    ∧ devCtxLbl child = devCtxLbl subfolder
    ∧ graphNameOrLbl child = graphNameOrLbl subfolder
    ∧ nodeNameOrLbl child = nodeNameOrLbl subfolder
    ∧ scopedBy child = scopedBy subfolder
    ∧ deleted child = deleted subfolder
    ∧ children child = children subfolder.
Proof.
  intros Hv Hi Hk.
  exists (set_key (PyStr.slice_to 15 (key subfolder)) subfolder).
  rewrite migrate_keys_folder_kept, Hv. simpl.
  rewrite list_lookup_fmap, Hi. simpl.
  unfold renamed_child, rename_subfolder, py_in.
  destruct Hk as [-> | ->]; by split_and!.
Qed.

(** ** Backups and the forward passes *)

Lemma scan_folder_kept_other on_param folder :
  key folder ≠ "Interface" → kept (scan_folder on_param) folder = folder.
Proof. intros H. unfold kept, scan_folder. by rewrite bool_decide_true. Qed.

Lemma scan_folder_added_other on_param folder :
  key folder ≠ "Interface" → added (scan_folder on_param) folder = [].
Proof. intros H. unfold added, scan_folder. by rewrite bool_decide_true. Qed.

Lemma is_backup_key folder :
  is_backup folder = true → key folder = "InterfaceConfig".
Proof.
  unfold is_backup. intros [H _]%andb_true_iff.
  by apply bool_decide_eq_true in H.
Qed.

Lemma is_backup_not_v12 folder :
  is_backup folder = true → is_v12_interface folder = false.
Proof.
  unfold is_backup, is_v12_interface. intros [_ ->]%andb_true_iff.
  apply andb_false_r.
Qed.

Lemma folder_at_map_folders body t n i j k f :
  kept body f = f →
  folder_at t i j k = Some f →
  folder_at (map_folders (children_after body) t n) i j k = Some f.
Proof.
  intros Hkept. unfold folder_at, map_folders.
  destruct (get_child t n) as [[i0 a0]|] eqn:Hg; [|done].
  apply get_child_lookup in Hg as [Hi0 _]. simpl.
  destruct (decide (i = i0)) as [->|Hne].
  - rewrite Hi0, list_lookup_insert_eq by (by eapply lookup_lt_Some).
    simpl. rewrite list_lookup_fmap.
    destruct (app_children a0 !! j) as [e|]; [|done]. simpl.
    intros Hk. unfold children_after.
    rewrite lookup_app_l
      by (rewrite length_fmap; by eapply lookup_lt_Some).
    rewrite list_lookup_fmap, Hk. simpl. by rewrite Hkept.
  - by rewrite list_lookup_insert_ne.
Qed.

Lemma run_forward_keeps_backup p t n i j k f :
  is_backup f = true →
  folder_at t i j k = Some f →
  folder_at (run_forward p t n).1 i j k = Some f.
Proof.
  intros Hb Hf.
  assert (key f ≠ "Interface") as Hk by (by rewrite (is_backup_key f Hb)).
  destruct p; simpl;
    unfold migrate_interface_folder_keys, migrate_zones_and_vlans,
      migrate_default_gateway.
  - rewrite (pass_tree _ migrate_keys_folder_flagging).
    apply folder_at_map_folders; [|done].
    by rewrite migrate_keys_folder_kept, is_backup_not_v12.
  - rewrite (pass_tree _
      (scan_folder_flagging _ extract_zone_or_vlan_collecting)).
    apply folder_at_map_folders; [|done]. by apply scan_folder_kept_other.
  - rewrite (pass_tree _
      (scan_folder_flagging _ extract_default_gateway_collecting)).
    apply folder_at_map_folders; [|done]. by apply scan_folder_kept_other.
Qed.

(** C9. No forward pass mutates a backup Folder: a Folder with key
    'InterfaceConfig' whose name ends in '_premigration' is skipped by the
    rename pass and is not descended into by the zone/VLAN and
    default-gateway passes, so after any sequence of the three forward
    passes it sits where it was, with the same name, key, fields and
    children. *)
Theorem forward_passes_keep_backups
    (ps : list (forward_pass * string)) (t : Tenant) (i j k : nat)
    (f : Folder) :
  is_backup f = true →
  folder_at t i j k = Some f →
  folder_at (run_sequence ps t) i j k = Some f.
Proof.
  intros Hb. unfold run_sequence. revert t.
  induction ps as [|[p n] ps IH]; intros t Hf; simpl; [done|].
  apply IH. by apply run_forward_keeps_backup.
Qed.

(** ** Cleanup *)

Lemma cleanup_folder_skips folder :
  is_backup folder = false → skips cleanup_folder folder.
Proof. unfold is_backup, skips, cleanup_folder. by intros ->. Qed.

Lemma cleanup_no_backups (t : Tenant) (n : string) :
  no_backups t → cleanup_interface_folders t n = (t, false).
Proof.
  intros H. apply pass_skips; [apply cleanup_folder_flagging|].
  intros e x (a & Ha & _ & He)%selected_epgs_elem_of Hx.
  apply cleanup_folder_skips. eauto.
Qed.

#[local] Arguments truthy : simpl never.

(** Unfolding the command down to its events. *)
Ltac run_main :=
  unfold main, parse_args, when, emit, sys_exit, lift;
  repeat (simpl;
          unfold mbind, mret, proc_bind, proc_ret, trace, outcome;
          simpl;
          match goal with
          | H : cleanup_interface_folders ?t ?n = _
            |- context [cleanup_interface_folders ?t ?n] => rewrite H
          | H : truthy ?o = _ |- context [truthy ?o] => rewrite H
          | |- context [truthy ?o] => destruct (truthy o) eqn:?
          | |- context [if ?b then _ else _] => destruct b eqn:?
          | |- context [match ?r with Ok _ => _ | Raise _ => _ end] =>
              destruct r eqn:?
          end);
  simpl.

Ltac not_in_trace :=
  let H := fresh in
  intros H;
  repeat (apply elem_of_cons in H as [H|H]; [discriminate H|]);
  by apply elem_of_nil in H.

(** C7. On a tenant tree in which no EPG holds a Folder with key
    'InterfaceConfig' whose name ends in '_premigration', the cleanup pass
    marks nothing deleted, leaves the tree unchanged and returns False;
    an invocation with the cleanup action on such a tree never pushes to
    the controller. *)
Theorem cleanup_without_backups (w : World) (args : Args) (n : string) :
  no_backups (deep w) →
  cleanup_interface_folders (deep w) n = (deep w, false)
  ∧ (cleanup args = true →
     ∀ tree extra, Push tree extra ∉ trace (main w args)).
Proof.
  intros Hno. split; [by apply cleanup_no_backups|].
  destruct args as [p c r cl ten ap dr dbg]. simpl. intros -> tree extra.
  pose proof (cleanup_no_backups (deep w) (default "" ap) Hno) as Hc.
  destruct p, c, r; run_main; not_in_trace.
Qed.

(** ** The command and its arguments *)

(** C8, as stated, fails: an invocation that names no tenant is not
    checked by [parse_args] (line 35 returns first), whatever its actions
    are.  With cleanup and parameters together it is not rejected by the
    argument parsing: [main] logs in, lists the tenants and exits with
    status 0 (lines 419-423). *)
Lemma invalid_combination_not_rejected :
  invalid_combination args_invalid_no_names = true
  ∧ parse_args args_invalid_no_names = mret args_invalid_no_names
  ∧ main world_T args_invalid_no_names
    = Proc [Login; GetTenants] (inl (Exit 0)).
Proof. split_and!; reflexivity. Qed.

(** C8, amended. For every invocation whose action flags are an invalid
    combination (no action, revert without parameters or clusters, revert
    with cleanup, cleanup with parameters or clusters): when it names a
    tenant and an application profile, [parse_args] exits with status 1
    and [main] ends there, before the login; and whether or not it names
    them, the tenant's tree is never fetched, the cluster associations
    are never queried and nothing is ever pushed, so no tree pass runs on
    a tree of the controller and none is written back. *)
Theorem invalid_combination_rejected (w : World) (args : Args) :
  invalid_combination args = true →
  (truthy (tenant args) = true → truthy (app args) = true →
   parse_args args = sys_exit 1
   ∧ main w args = Proc [] (inl (Exit 1)))
  ∧ (GetDeep ∉ trace (main w args))
  ∧ (GetClusters ∉ trace (main w args))
  ∧ ∀ tree extra, Push tree extra ∉ trace (main w args).
Proof.
  destruct args as [p c r cl ten ap dr dbg].
  unfold invalid_combination. simpl. intros Hinv. split_and!.
  - intros Ht Ha. unfold main, parse_args. simpl. rewrite Ht, Ha.
    by destruct p, c, r, cl.
  - destruct p, c, r, cl; try discriminate Hinv; run_main; not_in_trace.
  - destruct p, c, r, cl; try discriminate Hinv; run_main; not_in_trace.
  - intros tree extra.
    destruct p, c, r, cl; try discriminate Hinv; run_main; not_in_trace.
Qed.

(** ** Cluster associations *)

(** C4. A device-manager record, which has no 'vnsRsMDevAtt' attribute,
    is ignored by the forward cluster migration and left out of its
    output; the revert cluster migration reads
    [cluster['vnsRsMDevAtt']] without the membership test of the forward
    path and raises KeyError on it. *)
Theorem revert_clusters_fails_on_other_shape :
  migrate_clusters [devMgr "uni/tn-T/devMgr-M" "M"] = Ok []
  ∧ revert_clusters [devMgr "uni/tn-T/devMgr-M" "M"] = Raise KeyError.
Proof. split; reflexivity. Qed.

Lemma dict_item_Some (d : dict) k v : d !! k = Some v → dict_item d k = Ok v.
Proof. unfold dict_item. by intros ->. Qed.

Lemma tDn_of_Ok cluster k v :
  tDn_of cluster k = Ok v →
  ∃ a b, cluster !! k = Some (JObj a)
         ∧ a !! "attributes" = Some (JObj b)
         ∧ b !! "tDn" = Some v.
Proof.
  unfold tDn_of, dict_item, item, mbind, raises_bind.
  destruct (cluster !! k) as [[s|a|l]|]; simpl; unfold dict_item; try done.
  destruct (a !! "attributes") as [[s|b|l]|] eqn:Ha; simpl;
    unfold dict_item; try done.
  destruct (b !! "tDn") as [v'|] eqn:Hb; simpl; [|done].
  intros [= ->]. by exists a, b.
Qed.

Lemma tDn_of_lookup cluster k a b v :
  cluster !! k = Some (JObj a) →
  a !! "attributes" = Some (JObj b) →
  b !! "tDn" = Some v →
  tDn_of cluster k = Ok v.
Proof.
  unfold tDn_of, dict_item, item, mbind, raises_bind.
  intros H1 H2 H3. rewrite H1. simpl. unfold dict_item. rewrite H2. simpl.
  unfold dict_item. by rewrite H3.
Qed.


(** ** Passes 2 and 3 on one Folder *)

Lemma bind_nil_ext {A B} (f : A → list B) (l : list A) :
  (∀ x, f x = []) → l ≫= f = [].
Proof.
  intros H. induction l as [|x l IH]; [done|].
  by rewrite bind_cons, H, IH.
Qed.

Section ChildrenAfterFacts.
Context {A : Type}.
Variable body : A → bool → A * list A * bool.

Lemma children_after_kept l x :
  x ∈ l → kept body x ∈ children_after body l.
Proof.
  intros H. unfold children_after. apply elem_of_app. left.
  by apply list_elem_of_fmap_2.
Qed.

Lemma children_after_added l x y :
  x ∈ l → y ∈ added body x → y ∈ children_after body l.
Proof.
  intros H Hy. unfold children_after. apply elem_of_app. right.
  apply list_elem_of_bind. eauto.
Qed.

Lemma children_after_elem_of l y :
  y ∈ children_after body l →
  (∃ x, x ∈ l ∧ y = kept body x) ∨ (∃ x, x ∈ l ∧ y ∈ added body x).
Proof.
  unfold children_after.
  rewrite elem_of_app, list_elem_of_fmap, list_elem_of_bind.
  intros [(x & -> & ?)|(x & ? & ?)]; eauto.
Qed.
End ChildrenAfterFacts.

Section ScanShape.
Variable on_param :
  Folder → Folder → Child → list Folder * bool
  → Child * list Child * (list Folder * bool).
Hypothesis Hparam : ∀ folder layerfolder,
  collecting (on_param folder layerfolder).

Lemma scan_layerfolder_cadded folder c :
  cadded (scan_layerfolder on_param folder) c = [].
Proof.
  unfold cadded, scan_layerfolder. destruct c as [f|p|r]; [|done..].
  by destruct (negb _).
Qed.

Lemma scan_layerfolder_ckept folder layerfolder :
  is_layerfolder layerfolder = true →
  ckept (scan_layerfolder on_param folder) (CFolder layerfolder)
  = CFolder
      (set_children
         ((ckept (on_param folder layerfolder) <$> children layerfolder)
          ++ (children layerfolder ≫= cadded (on_param folder layerfolder)))
         layerfolder).
Proof.
  unfold is_layerfolder, ckept at 1, scan_layerfolder. intros ->. simpl.
  by rewrite (for_each_collecting _ (Hparam folder layerfolder)).
Qed.

Lemma scan_layerfolder_cmade folder layerfolder :
  is_layerfolder layerfolder = true →
  cmade (scan_layerfolder on_param folder) (CFolder layerfolder)
  = children layerfolder ≫= cmade (on_param folder layerfolder).
Proof.
  unfold is_layerfolder, cmade at 1, scan_layerfolder. intros ->. simpl.
  by rewrite (for_each_collecting _ (Hparam folder layerfolder)).
Qed.

Lemma scan_layerfolder_cmade_elem_of folder c y :
  y ∈ cmade (scan_layerfolder on_param folder) c →
  ∃ layerfolder c',
    c = CFolder layerfolder ∧ c' ∈ children layerfolder
    ∧ y ∈ cmade (on_param folder layerfolder) c'.
Proof.
  destruct c as [lf|p|r]; try (by intros ?%elem_of_nil).
  destruct (is_layerfolder lf) eqn:Hlf.
  - rewrite scan_layerfolder_cmade by done.
    intros (c' & ? & ?)%list_elem_of_bind. eauto.
  - unfold cmade, scan_layerfolder. unfold is_layerfolder in Hlf.
    rewrite Hlf. by intros ?%elem_of_nil.
Qed.

Lemma scan_folder_kept folder :
  key folder = "Interface" →
  kept (scan_folder on_param) folder
  = set_children
      (ckept (scan_layerfolder on_param folder) <$> children folder)
      folder.
Proof.
  intros Hk. unfold kept, scan_folder.
  rewrite bool_decide_false by (by intros []). simpl.
  rewrite (for_each_collecting _
             (scan_layerfolder_collecting _ Hparam folder)). simpl.
  rewrite bind_nil_ext by apply scan_layerfolder_cadded.
  by rewrite app_nil_r.
Qed.

Lemma scan_folder_added folder :
  key folder = "Interface" →
  added (scan_folder on_param) folder
  = children folder ≫= cmade (scan_layerfolder on_param folder).
Proof.
  intros Hk. unfold added, scan_folder.
  rewrite bool_decide_false by (by intros []). simpl.
  by rewrite (for_each_collecting _
                (scan_layerfolder_collecting _ Hparam folder)).
Qed.

Lemma scan_folder_key folder :
  key (kept (scan_folder on_param) folder) = key folder.
Proof.
  destruct (decide (key folder = "Interface")) as [Hk|Hk].
  - by rewrite scan_folder_kept.
  - by rewrite scan_folder_kept_other.
Qed.

Lemma scan_folder_name folder :
  name (kept (scan_folder on_param) folder) = name folder.
Proof.
  destruct (decide (key folder = "Interface")) as [Hk|Hk].
  - by rewrite scan_folder_kept.
  - by rewrite scan_folder_kept_other.
Qed.

Lemma scan_folder_added_elem_of folder y :
  y ∈ added (scan_folder on_param) folder →
  ∃ layerfolder c,
    y ∈ cmade (on_param folder layerfolder) c.
Proof.
  destruct (decide (key folder = "Interface")) as [Hk|Hk].
  - rewrite scan_folder_added by done.
    intros (c & Hy & _)%list_elem_of_bind.
    apply scan_layerfolder_cmade_elem_of in Hy as (lf & c' & _ & _ & ?).
    eauto.
  - rewrite scan_folder_added_other by done. by intros ?%elem_of_nil.
Qed.
End ScanShape.

(** What pass 2 does at one Parameter. *)
Lemma zone_param folder layerfolder p :
  p_key p = "security_zone" →
  extract_zone_or_vlan folder layerfolder (CParameter p) ([], false)
  = (CParameter (mark_param_as_deleted p),
     [CRelation (mkRelation "security_zone_rel" "zone" (p_value p) false)],
     ([mkFolder (p_value p) "Zone" (ctrctNameOrLbl folder)
         (devCtxLbl folder) (graphNameOrLbl folder) (nodeNameOrLbl folder)
         (scopedBy folder) false
         [CParameter
            (mkParam "mode" "mode"
               (PyStr.lower (PyStr.slice_to 6 (key layerfolder))) false)]],
      true)).
Proof.
  intros Hk. unfold extract_zone_or_vlan, py_in. simpl. by rewrite Hk.
Qed.

Lemma other_param_zone folder layerfolder p :
  py_in (p_key p) ["security_zone"; "bridge_domain"] = false →
  extract_zone_or_vlan folder layerfolder (CParameter p) ([], false)
  = (CParameter p, [], ([], false)).
Proof. intros Hk. unfold extract_zone_or_vlan. by rewrite Hk. Qed.

Lemma zone_or_vlan_made folder layerfolder c y :
  y ∈ cmade (extract_zone_or_vlan folder layerfolder) c →
  is_migrated y = true.
Proof.
  unfold cmade, extract_zone_or_vlan.
  destruct c as [f|p|r]; simpl; try (by intros ?%elem_of_nil).
  destruct (py_in _ _) eqn:Hin; simpl; [|by intros ?%elem_of_nil].
  apply bool_decide_eq_true in Hin.
  repeat case_bool_decide; simpl; intros ->%list_elem_of_singleton;
    try done.
  (* neither key: excluded by the test of line 167 *)
  apply elem_of_cons in Hin as [?|Hin]; [done|].
  apply elem_of_cons in Hin as [?|Hin]; [done|].
  by apply elem_of_nil in Hin.
Qed.

(** What pass 3 does at one Parameter. *)
Lemma gateway_param folder layerfolder p :
  p_key p = "default_gateway" →
  extract_default_gateway folder layerfolder (CParameter p) ([], false)
  = (CParameter (mark_param_as_deleted p), [],
     ([mkFolder "default_gateway" "StaticRoute" (ctrctNameOrLbl folder)
         (devCtxLbl folder) (graphNameOrLbl folder) (nodeNameOrLbl folder)
         (scopedBy folder) false
         [CParameter (mkParam "nexthop" "nexthop" (p_value p) false);
          CParameter (mkParam "destination" "destination" "0.0.0.0/0" false)]],
      true)).
Proof.
  intros Hk. unfold extract_default_gateway.
  by rewrite bool_decide_false by (by intros []).
Qed.

Lemma gateway_relation folder layerfolder r :
  ckept (extract_default_gateway folder layerfolder) (CRelation r)
  = CRelation r.
Proof. done. Qed.

Lemma default_gateway_made folder layerfolder c y :
  y ∈ cmade (extract_default_gateway folder layerfolder) c →
  is_migrated y = true.
Proof.
  unfold cmade, extract_default_gateway.
  destruct c as [f|p|r]; simpl; try (by intros ?%elem_of_nil).
  case_bool_decide; simpl; [by intros ?%elem_of_nil|].
  by intros ->%list_elem_of_singleton.
Qed.

Section ScanMembers.
Variable on_param :
  Folder → Folder → Child → list Folder * bool
  → Child * list Child * (list Folder * bool).
Hypothesis Hparam : ∀ folder layerfolder,
  collecting (on_param folder layerfolder).

Lemma scan_folder_child folder layerfolder :
  key folder = "Interface" →
  CFolder layerfolder ∈ children folder →
  is_layerfolder layerfolder = true →
  CFolder (scanned_layerfolder on_param folder layerfolder)
  ∈ children (kept (scan_folder on_param) folder).
Proof.
  intros Hk Hin Hl. rewrite (scan_folder_kept _ Hparam) by done. simpl.
  apply list_elem_of_fmap. exists (CFolder layerfolder). split; [|done].
  by rewrite (scan_layerfolder_ckept _ Hparam).
Qed.

Lemma scan_folder_made folder layerfolder c y :
  key folder = "Interface" →
  CFolder layerfolder ∈ children folder →
  is_layerfolder layerfolder = true →
  c ∈ children layerfolder →
  y ∈ cmade (on_param folder layerfolder) c →
  y ∈ added (scan_folder on_param) folder.
Proof.
  intros Hk Hin Hl Hc Hy. rewrite (scan_folder_added _ Hparam) by done.
  apply list_elem_of_bind. exists (CFolder layerfolder). split; [|done].
  rewrite (scan_layerfolder_cmade _ Hparam) by done.
  apply list_elem_of_bind. eauto.
Qed.

Lemma scanned_layerfolder_kept folder layerfolder c :
  c ∈ children layerfolder →
  ckept (on_param folder layerfolder) c
  ∈ children (scanned_layerfolder on_param folder layerfolder).
Proof.
  intros Hc. simpl. apply elem_of_app. left.
  by apply list_elem_of_fmap_2.
Qed.

Lemma scanned_layerfolder_added folder layerfolder c c' :
  c ∈ children layerfolder →
  c' ∈ cadded (on_param folder layerfolder) c →
  c' ∈ children (scanned_layerfolder on_param folder layerfolder).
Proof.
  intros Hc Hc'. simpl. apply elem_of_app. right.
  apply list_elem_of_bind. eauto.
Qed.
End ScanMembers.

(** ** The forward migration *)

Lemma forward_tree t n : forward t n = map_folders forward_children t n.
Proof.
  unfold forward, migrate_interface_folder_keys, migrate_zones_and_vlans,
    migrate_default_gateway. simpl.
  rewrite (pass_tree _ migrate_keys_folder_flagging).
  rewrite (pass_tree _
             (scan_folder_flagging _ extract_zone_or_vlan_collecting)).
  rewrite (pass_tree _
             (scan_folder_flagging _ extract_default_gateway_collecting)).
  by rewrite !map_folders_compose.
Qed.

Lemma forward_children_example (cs : list Folder) (f sf : Folder)
    (pz pg : Param) :
  f ∈ cs →
  is_v12_interface f = true →
  CFolder sf ∈ children f →
  key sf = "Layer3InterfaceConfig" →
  CParameter pz ∈ children sf →
  p_key pz = "security_zone" →
  CParameter pg ∈ children sf →
  p_key pg = "default_gateway" →
  backup_of f ∈ forward_children cs
  ∧ (∃ fi l3 r,
        fi ∈ forward_children cs ∧ key fi = "Interface"
        ∧ name fi = name f
        ∧ CFolder l3 ∈ children fi ∧ key l3 = "Layer3Interface"
        ∧ CRelation r ∈ children l3
        ∧ r_key r = "zone" ∧ r_targetName r = p_value pz)
  ∧ (∃ z m,
        z ∈ forward_children cs ∧ key z = "Zone" ∧ name z = p_value pz
        ∧ CParameter m ∈ children z
        ∧ p_key m = "mode" ∧ p_value m = "layer3")
  ∧ (∃ sr nh d,
        sr ∈ forward_children cs ∧ key sr = "StaticRoute"
        ∧ name sr = "default_gateway"
        ∧ CParameter nh ∈ children sr
        ∧ p_key nh = "nexthop" ∧ p_value nh = p_value pg
        ∧ CParameter d ∈ children sr
        ∧ p_key d = "destination" ∧ p_value d = "0.0.0.0/0").
Proof.
  intros Hf Hv Hsf Hksf Hpz Hkz Hpg Hkg.
  set (P2 := extract_zone_or_vlan).
  set (P3 := extract_default_gateway).
  assert (∀ a b, collecting (P2 a b)) as HP2
    by apply extract_zone_or_vlan_collecting.
  assert (∀ a b, collecting (P3 a b)) as HP3
    by apply extract_default_gateway_collecting.
  set (cs1 := children_after migrate_keys_folder cs).
  set (cs2 := children_after (scan_folder P2) cs1).
  (* pass 1 *)
  set (f1 := kept migrate_keys_folder f).
  set (sf1 := set_key "Layer3Interface" sf).
  assert (f1 ∈ cs1) as Hf1 by (by apply children_after_kept).
  assert (backup_of f ∈ cs1) as Hb1.
  { apply (children_after_added _ _ f); [done|].
    rewrite migrate_keys_folder_added, Hv. by left. }
  assert (key f1 = "Interface" ∧ name f1 = name f
          ∧ CFolder sf1 ∈ children f1) as (Hk1 & Hn1 & Hsf1).
  { unfold f1. rewrite migrate_keys_folder_kept, Hv. simpl.
    split_and!; [done..|]. apply list_elem_of_fmap.
    exists (CFolder sf). split; [|done].
    unfold renamed_child, rename_subfolder, py_in, sf1. by rewrite Hksf. }
  assert (is_layerfolder sf1 = true) as Hl1 by done.
  (* pass 2 *)
  set (f2 := kept (scan_folder P2) f1).
  set (sf2 := scanned_layerfolder P2 f1 sf1).
  assert (f2 ∈ cs2) as Hf2 by (by apply children_after_kept).
  assert (backup_of f ∈ cs2) as Hb2.
  { rewrite <- (scan_folder_kept_other P2 (backup_of f)).
    - by apply children_after_kept.
    - simpl. apply andb_true_iff in Hv as [Hv _].
      apply bool_decide_eq_true in Hv. by rewrite Hv. }
  assert (key f2 = "Interface") as Hk2
    by (unfold f2; by rewrite scan_folder_key).
  assert (name f2 = name f) as Hn2
    by (unfold f2; by rewrite scan_folder_name).
  assert (CFolder sf2 ∈ children f2) as Hsf2
    by (by apply scan_folder_child).
  assert (is_layerfolder sf2 = true) as Hl2 by done.
  assert (CRelation (mkRelation "security_zone_rel" "zone" (p_value pz) false)
          ∈ children sf2) as Hr2.
  { apply (scanned_layerfolder_added P2 f1 sf1 (CParameter pz)); [done|].
    unfold cadded, P2. rewrite zone_param by done. by left. }
  assert (CParameter pg ∈ children sf2) as Hpg2.
  { replace (CParameter pg) with (ckept (P2 f1 sf1) (CParameter pg)).
    - by apply scanned_layerfolder_kept.
    - unfold ckept, P2. rewrite other_param_zone; [done|].
      unfold py_in. by rewrite Hkg. }
  set (z := mkFolder (p_value pz) "Zone" (ctrctNameOrLbl f1)
              (devCtxLbl f1) (graphNameOrLbl f1) (nodeNameOrLbl f1)
              (scopedBy f1) false
              [CParameter (mkParam "mode" "mode" "layer3" false)]).
  assert (z ∈ cs2) as Hz2.
  { apply (children_after_added _ _ f1); [done|].
    apply (scan_folder_made P2 HP2 f1 sf1 (CParameter pz)); try done.
    unfold cmade, P2. rewrite zone_param by done. by left. }
  (* pass 3 *)
  set (f3 := kept (scan_folder P3) f2).
  set (sf3 := scanned_layerfolder P3 f2 sf2).
  set (sr := mkFolder "default_gateway" "StaticRoute" (ctrctNameOrLbl f2)
               (devCtxLbl f2) (graphNameOrLbl f2) (nodeNameOrLbl f2)
               (scopedBy f2) false
               [CParameter (mkParam "nexthop" "nexthop" (p_value pg) false);
                CParameter
                  (mkParam "destination" "destination" "0.0.0.0/0" false)]).
  unfold forward_children. fold P2 P3 cs1 cs2.
  split_and!.
  - rewrite <- (scan_folder_kept_other P3 (backup_of f)).
    + by apply children_after_kept.
    + simpl. apply andb_true_iff in Hv as [Hv _].
      apply bool_decide_eq_true in Hv. by rewrite Hv.
  - exists f3, sf3, (mkRelation "security_zone_rel" "zone" (p_value pz) false).
    split_and!; try done.
    + by apply children_after_kept.
    + unfold f3. by rewrite scan_folder_key.
    + unfold f3. by rewrite scan_folder_name.
    + by apply scan_folder_child.
    + rewrite <- (gateway_relation f2 sf2).
      by apply scanned_layerfolder_kept.
  - exists z, (mkParam "mode" "mode" "layer3" false).
    split_and!; try done.
    + rewrite <- (scan_folder_kept_other P3 z) by done.
      by apply children_after_kept.
    + by left.
  - exists sr, (mkParam "nexthop" "nexthop" (p_value pg) false),
      (mkParam "destination" "destination" "0.0.0.0/0" false).
    split_and!; try done.
    + apply (children_after_added _ _ f2); [done|].
      apply (scan_folder_made P3 HP3 f2 sf2 (CParameter pg)); try done.
      unfold cmade, P3. rewrite gateway_param by done. by left.
    + by left.
    + right. by left.
Qed.

Lemma folders_of_map_folders F t n j cs :
  folders_of t n j = Some cs →
  folders_of (map_folders F t n) n j = Some (F cs).
Proof.
  unfold folders_of.
  destruct (get_child t n) as [[i a]|] eqn:Hg; [|done]. simpl.
  rewrite (map_folders_get_child F _ _ _ _ Hg). simpl.
  rewrite list_lookup_fmap.
  destruct (app_children a !! j) as [e|]; [|done]. simpl.
  by intros [= ->].
Qed.

(** C1, as stated, fails: an 'InterfaceConfig' Folder whose own name ends
    in '_premigration' is taken for a backup and skipped by the test of
    line 121; the three passes leave the tree as it was, with no backup,
    no 'Interface', no 'Zone' and no 'StaticRoute' Folder. *)
Lemma forward_skips_suffixed_name :
  key (sample_interface "if1_premigration") = "InterfaceConfig"
  ∧ CFolder sample_layer3 ∈ children (sample_interface "if1_premigration")
  ∧ forward (sample_tenant [sample_interface "if1_premigration"]) "A"
    = sample_tenant [sample_interface "if1_premigration"]
  ∧ ¬ ∃ cs' z,
        folders_of
          (forward (sample_tenant [sample_interface "if1_premigration"]) "A")
          "A" 0 = Some cs'
        ∧ z ∈ cs' ∧ key z = "Zone".
Proof.
  split_and!; [done|by left|reflexivity|].
  intros (cs' & z & Hcs & Hz & Hk).
  vm_compute in Hcs. injection Hcs as <-.
  apply list_elem_of_singleton in Hz as ->. discriminate Hk.
Qed.

(** C1, amended. Let an EPG of the application profile hold a Folder with
    key 'InterfaceConfig', whose name does not end in '_premigration',
    that holds a 'Layer3InterfaceConfig' sub-folder with Parameters
    security_zone=zoneA and default_gateway=10.0.0.1.  After the three
    forward passes, in that order, the EPG holds: the backup of the
    Folder, named with the original name plus '_premigration'; an
    'Interface' Folder with a 'Layer3Interface' sub-folder holding a
    Relation with key 'zone' and targetName 'zoneA'; a 'Zone' Folder
    named 'zoneA' with a 'mode' Parameter of value 'layer3'; and a
    'StaticRoute' Folder named 'default_gateway' with Parameters
    nexthop='10.0.0.1' and destination='0.0.0.0/0'. *)
Theorem forward_migration_example
    (t : Tenant) (n : string) (j : nat) (cs : list Folder)
    (f sf : Folder) (pz pg : Param) :
  folders_of t n j = Some cs →
  f ∈ cs →
  key f = "InterfaceConfig" →
  PyStr.endswith (name f) "_premigration" = false →
  CFolder sf ∈ children f →
  key sf = "Layer3InterfaceConfig" →
  CParameter pz ∈ children sf →
  p_key pz = "security_zone" → p_value pz = "zoneA" →
  CParameter pg ∈ children sf →
  p_key pg = "default_gateway" → p_value pg = "10.0.0.1" →
  ∃ cs',
    folders_of (forward t n) n j = Some cs'
    ∧ (∃ b, b ∈ cs' ∧ b = backup_of f
            ∧ name b = name f +:+ "_premigration")
    ∧ (∃ fi l3 r,
          fi ∈ cs' ∧ key fi = "Interface"
          ∧ CFolder l3 ∈ children fi ∧ key l3 = "Layer3Interface"
          ∧ CRelation r ∈ children l3
          ∧ r_key r = "zone" ∧ r_targetName r = "zoneA")
    ∧ (∃ z m,
          z ∈ cs' ∧ key z = "Zone" ∧ name z = "zoneA"
          ∧ CParameter m ∈ children z
          ∧ p_key m = "mode" ∧ p_value m = "layer3")
    ∧ (∃ sr nh d,
          sr ∈ cs' ∧ key sr = "StaticRoute" ∧ name sr = "default_gateway"
          ∧ CParameter nh ∈ children sr
          ∧ p_key nh = "nexthop" ∧ p_value nh = "10.0.0.1"
          ∧ CParameter d ∈ children sr
          ∧ p_key d = "destination" ∧ p_value d = "0.0.0.0/0").
Proof.
  intros Hcs Hf Hk Hn Hsf Hksf Hpz Hkz Hvz Hpg Hkg Hvg.
  exists (forward_children cs). rewrite forward_tree.
  split; [by apply folders_of_map_folders|].
  assert (is_v12_interface f = true) as Hv.
  { unfold is_v12_interface. by rewrite Hn, bool_decide_true. }
  destruct (forward_children_example cs f sf pz pg)
    as (Hb & (fi & l3 & r & ?) & (z & m & ?) & (sr & nh & d & ?));
    try done.
  destruct_and!. rewrite Hvz, Hvg in *.
  split_and!.
  - by exists (backup_of f).
  - exists fi, l3, r. by split_and!.
  - exists z, m. by split_and!.
  - exists sr, nh, d. by split_and!.
Qed.

(** ** The revert *)

Lemma delete_middle {A} (l1 l2 : list A) (x : A) :
  delete (length l1) (l1 ++ x :: l2) = l1 ++ l2.
Proof. induction l1 as [|y l1 IH]; simpl; [done|]. by rewrite IH. Qed.

Lemma remove_migrated_from (done rest : list Folder) (k : nat) :
  (foldl remove_migrated_step (done ++ rest, k)
     (seq (length done + k) (length rest))).1
  = done ++ filter (λ x, is_migrated x = false) rest.
Proof.
  revert done k. induction rest as [|x rest IH]; intros done k; simpl.
  - done.
  - unfold remove_migrated_step at 2. simpl.
    replace (length done + k - k) with (length done) by lia.
    rewrite lookup_app_r by lia. rewrite Nat.sub_diag. simpl.
    fold (is_migrated x). rewrite filter_cons.
    destruct (is_migrated x) eqn:Hx.
    + rewrite decide_False by done.
      replace (delete (length done) (done ++ x :: rest)) with (done ++ rest).
      * replace (S (length done + k)) with (length done + S k) by lia.
        apply IH.
      * symmetry. apply delete_middle.
    + rewrite decide_True by done.
      specialize (IH (done ++ [x]) k).
      rewrite length_app in IH. simpl in IH.
      replace (length done + 1 + k) with (S (length done + k)) in IH by lia.
      rewrite <- !app_assoc in IH. exact IH.
Qed.

Lemma remove_migrated_filter (l : list Folder) :
  remove_migrated l = filter (λ x, is_migrated x = false) l.
Proof. apply (remove_migrated_from [] l 0). Qed.

Lemma revert_epg_flagging : flagging revert_epg.
Proof.
  intros e s. unfold revert_epg.
  by rewrite (for_folders_flagging _ restore_backup_flagging).
Qed.

Lemma revert_tree t n :
  (revert_interface_folders t n).1
  = map_folders (children_after restore_backup ∘ remove_migrated) t n.
Proof.
  unfold revert_interface_folders, on_app_profile, map_folders.
  destruct (get_child t n) as [[i a]|]; [|done]. simpl.
  rewrite (for_each_flagging _ revert_epg_flagging). simpl.
  do 3 f_equal. unfold children_after.
  rewrite bind_nil_ext, app_nil_r.
  - apply list_fmap_ext. intros _ e _. unfold kept, revert_epg.
    by rewrite (for_folders_flagging _ restore_backup_flagging),
      (for_folders_kept _ restore_backup_flagging).
  - intros e. unfold added, revert_epg.
    by rewrite (for_folders_flagging _ restore_backup_flagging).
Qed.

Lemma round_trip_tree t n :
  round_trip t n = map_folders round_trip_children t n.
Proof.
  unfold round_trip. simpl. rewrite revert_tree.
  unfold delete_migrated_folders.
  rewrite (pass_tree _ delete_migrated_folder_flagging), forward_tree.
  by rewrite !map_folders_compose.
Qed.

(** Filters. *)
Section FilterFacts.
Context {A : Type}.
Variable P : A → Prop.
Context `{Pdec : !∀ x, Decision (P x)}.

Lemma filter_all (l : list A) : (∀ x, x ∈ l → P x) → filter P l = l.
Proof.
  induction l as [|x l IH]; intros Hl; [done|].
  rewrite filter_cons_True by (apply Hl; left).
  f_equal. apply IH. intros y Hy. apply Hl. by right.
Qed.

Lemma filter_none (l : list A) : (∀ x, x ∈ l → ¬ P x) → filter P l = [].
Proof.
  induction l as [|x l IH]; intros Hl; [done|].
  rewrite filter_cons_False by (apply Hl; left).
  apply IH. intros y Hy. apply Hl. by right.
Qed.

Lemma filter_fmap_same (g : A → A) (l : list A) :
  (∀ x, x ∈ l → P x → g x = x) →
  (∀ x, x ∈ l → ¬ P x → ¬ P (g x)) →
  filter P (g <$> l) = filter P l.
Proof.
  induction l as [|x l IH]; intros H1 H2; [done|].
  rewrite fmap_cons, !filter_cons.
  rewrite IH;
    [|intros y Hy; apply H1; by right|intros y Hy; apply H2; by right].
  destruct (decide (P x)) as [Hx|Hx].
  - rewrite H1 by (done || left). by rewrite decide_True.
  - rewrite decide_False; [done|]. apply H2; [left|done].
Qed.
End FilterFacts.

(** What survives the removal of the migrated Folders. *)
Lemma is_migrated_key x y : key x = key y → is_migrated x = is_migrated y.
Proof. unfold is_migrated. by intros ->. Qed.

Lemma delete_migrated_folder_kept x :
  kept delete_migrated_folder x
  = if is_migrated x then mark_as_deleted x else x.
Proof.
  unfold kept, delete_migrated_folder. fold (is_migrated x).
  by destruct (is_migrated x).
Qed.

Lemma not_migrated_delete_pass (l : list Folder) :
  filter (λ x, is_migrated x = false)
    (children_after delete_migrated_folder l)
  = filter (λ x, is_migrated x = false) l.
Proof.
  unfold children_after.
  rewrite (bind_nil_ext (added delete_migrated_folder)), app_nil_r.
  - apply filter_fmap_same.
    + intros x _ Hx. by rewrite delete_migrated_folder_kept, Hx.
    + intros x _ Hx. rewrite delete_migrated_folder_kept.
      destruct (is_migrated x) eqn:E; [|done].
      by rewrite (is_migrated_key _ x), E.
  - intros x. unfold added, delete_migrated_folder. by destruct (py_in _ _).
Qed.

Lemma not_migrated_scan_pass on_param (l : list Folder) :
  (∀ folder layerfolder, collecting (on_param folder layerfolder)) →
  (∀ folder layerfolder c y,
      y ∈ cmade (on_param folder layerfolder) c → is_migrated y = true) →
  filter (λ x, is_migrated x = false)
    (children_after (scan_folder on_param) l)
  = filter (λ x, is_migrated x = false) l.
Proof.
  intros Hparam Hmade. unfold children_after. rewrite filter_app.
  rewrite (filter_none _ (l ≫= _)), app_nil_r.
  - apply filter_fmap_same.
    + intros x _ Hx. apply scan_folder_kept_other. intros Hk.
      unfold is_migrated in Hx. by rewrite Hk in Hx.
    + intros x _ Hx.
      by rewrite (is_migrated_key _ x) by (by apply scan_folder_key).
  - intros y (x & Hy & _)%list_elem_of_bind.
    apply (scan_folder_added_elem_of _ Hparam) in Hy as (lf & c & Hy).
    by rewrite (Hmade _ _ _ _ Hy).
Qed.

Section RoundTripChildren.
Variable cs : list Folder.
Hypothesis Hcs :
  ∀ x, x ∈ cs →
       is_migrated x = false
       ∧ PyStr.endswith (name x) "_premigration" = false.

Lemma pre_migration_v12 x :
  x ∈ cs → is_v12_interface x = bool_decide (key x = "InterfaceConfig").
Proof.
  intros [_ Hx]%Hcs. unfold is_v12_interface. rewrite Hx.
  apply andb_true_r.
Qed.

Lemma keys_pass_kept_not_migrated :
  filter (λ x, is_migrated x = false) (kept migrate_keys_folder <$> cs)
  = filter (λ x, key x ≠ "InterfaceConfig") cs.
Proof.
  revert Hcs. induction cs as [|x l IH]; intros Hl; [done|].
  destruct (Hl x) as [Hm He]; [by left|].
  rewrite fmap_cons, !filter_cons.
  rewrite IH by (intros y Hy; apply Hl; by right).
  rewrite migrate_keys_folder_kept.
  unfold is_v12_interface. rewrite He, andb_true_r.
  destruct (decide (key x = "InterfaceConfig")) as [Hk|Hk].
  - rewrite bool_decide_true by done.
    rewrite decide_False by done.
    by rewrite decide_False by (by intros []).
  - rewrite bool_decide_false by done.
    by rewrite !decide_True by done.
Qed.

Lemma keys_pass_added :
  cs ≫= added migrate_keys_folder
  = backup_of <$> filter (λ x, key x = "InterfaceConfig") cs.
Proof.
  revert Hcs. induction cs as [|x l IH]; intros Hl; [done|].
  destruct (Hl x) as [Hm He]; [by left|].
  rewrite bind_cons, filter_cons.
  rewrite IH by (intros y Hy; apply Hl; by right).
  rewrite migrate_keys_folder_added.
  unfold is_v12_interface. rewrite He, andb_true_r.
  destruct (decide (key x = "InterfaceConfig")) as [Hk|Hk].
  - by rewrite bool_decide_true by done.
  - by rewrite bool_decide_false by done.
Qed.

Lemma backups_not_migrated (l : list Folder) :
  (∀ x, x ∈ l → key x = "InterfaceConfig") →
  filter (λ x, is_migrated x = false) (backup_of <$> l) = backup_of <$> l.
Proof.
  intros Hl. apply filter_all.
  intros y (x & -> & Hx)%list_elem_of_fmap.
  unfold is_migrated. simpl. by rewrite (Hl x Hx).
Qed.

Lemma not_migrated_keys_pass :
  filter (λ x, is_migrated x = false)
    (children_after migrate_keys_folder cs)
  = filter (λ x, key x ≠ "InterfaceConfig") cs
    ++ (backup_of <$> filter (λ x, key x = "InterfaceConfig") cs).
Proof.
  unfold children_after.
  rewrite filter_app, keys_pass_kept_not_migrated, keys_pass_added.
  rewrite backups_not_migrated; [done|].
  by intros x [? _]%list_elem_of_filter.
Qed.
Lemma round_trip_remaining :
  remove_migrated
    (children_after delete_migrated_folder (forward_children cs))
  = filter (λ x, key x ≠ "InterfaceConfig") cs
    ++ (backup_of <$> filter (λ x, key x = "InterfaceConfig") cs).
Proof.
  rewrite remove_migrated_filter, not_migrated_delete_pass.
  unfold forward_children.
  rewrite (not_migrated_scan_pass _ _ extract_default_gateway_collecting
             default_gateway_made).
  rewrite (not_migrated_scan_pass _ _ extract_zone_or_vlan_collecting
             zone_or_vlan_made).
  apply not_migrated_keys_pass.
Qed.
End RoundTripChildren.

Lemma restore_backup_of x :
  restore_backup (backup_of x) false
  = (x, [mark_as_deleted (backup_of x)], true).
Proof.
  unfold restore_backup. simpl.
  rewrite PyStrFacts.endswith_app. unfold deepcopy. simpl.
  rewrite !PyStrFacts.slice_to_neg_premigration. by destruct x.
Qed.

Lemma restore_backup_skips x :
  PyStr.endswith (name x) "_premigration" = false →
  skips restore_backup x.
Proof. unfold skips, restore_backup. by intros ->. Qed.

Lemma restore_backups (l : list Folder) :
  (kept restore_backup <$> (backup_of <$> l)) = l
  ∧ (backup_of <$> l) ≫= added restore_backup
    = (λ x, mark_as_deleted (backup_of x)) <$> l.
Proof.
  induction l as [|x l [IH1 IH2]]; [done|].
  rewrite !fmap_cons, bind_cons, IH1, IH2.
  unfold kept, added. by rewrite restore_backup_of.
Qed.

Lemma restore_children (l1 l2 : list Folder) :
  (∀ x, x ∈ l1 → PyStr.endswith (name x) "_premigration" = false) →
  children_after restore_backup (l1 ++ (backup_of <$> l2))
  = l1 ++ l2 ++ ((λ x, mark_as_deleted (backup_of x)) <$> l2).
Proof.
  intros H1.
  unfold children_after. rewrite fmap_app, bind_app.
  destruct (restore_backups l2) as [-> ->].
  assert (kept restore_backup <$> l1 = l1
          ∧ l1 ≫= added restore_backup = []) as [-> ->].
  { induction l1 as [|x l1 IH]; [done|].
    destruct IH as [IH1 IH2]; [intros y Hy; apply H1; by right|].
    rewrite fmap_cons, bind_cons, IH1, IH2. unfold kept, added.
    by rewrite (restore_backup_skips x) by (apply H1; left). }
  by rewrite <- !app_assoc.
Qed.

Lemma round_trip_children_pre_migration (cs : list Folder) :
  (∀ x, x ∈ cs →
        is_migrated x = false
        ∧ PyStr.endswith (name x) "_premigration" = false) →
  round_trip_children cs = reverted_children cs.
Proof.
  intros Hcs. unfold round_trip_children, reverted_children.
  rewrite round_trip_remaining by done.
  apply restore_children.
  intros x [_ Hx]%list_elem_of_filter. by apply Hcs.
Qed.

(** C2, as stated, fails: the round trip is not the identity up to
    deleted copies of backups on every tree.  A Folder that has key
    'Zone' before the migration is taken for a migrated one by the revert
    and unlinked: the EPG ends up empty.  And a restored interface Folder
    comes back behind the Folders the migration did not touch. *)
Lemma round_trip_drops_zone_folder :
  round_trip (sample_tenant [sample_zone]) "A" = sample_tenant []
  ∧ without_deleted_copies (round_trip (sample_tenant [sample_zone]) "A")
    ≠ sample_tenant [sample_zone]
  ∧ round_trip (sample_tenant [sample_interface "if1"; sample_other]) "A"
    = sample_tenant
        [sample_other; sample_interface "if1";
         mark_as_deleted (backup_of (sample_interface "if1"))]
  ∧ without_deleted_copies
      (round_trip (sample_tenant [sample_interface "if1"; sample_other]) "A")
    ≠ sample_tenant [sample_interface "if1"; sample_other].
Proof.
  split_and!.
  - vm_compute. reflexivity.
  - intros H. vm_compute in H. discriminate H.
  - vm_compute. reflexivity.
  - intros H. vm_compute in H. discriminate H.
Qed.

(** C2, amended. Let the EPGs of the application profile hold no Folder
    with key 'Interface', 'Zone', 'Vlan' or 'StaticRoute' and no Folder
    whose name ends in '_premigration'.  The revert (delete-migrated, then
    restore-backups) applied to the output of the three forward passes
    gives back the tree with, under each EPG of the profile, the Folders
    that were not 'InterfaceConfig' Folders, unchanged, then the
    'InterfaceConfig' Folders exactly as they were (name, ctrctNameOrLbl,
    key, sub-folder keys, Parameters), then a copy of each backup, marked
    deleted.  Where every Folder of the profile is an 'InterfaceConfig'
    Folder, that is the tree before the migration with the deleted
    copies behind the Folders of each EPG. *)
Theorem revert_restores_pre_migration (t : Tenant) (n : string) :
  pre_migration t n →
  round_trip t n = map_folders reverted_children t n
  ∧ ((∀ e x, e ∈ selected_epgs t n → x ∈ epg_children e →
             key x = "InterfaceConfig") →
     round_trip t n
     = map_folders
         (λ cs, cs ++ ((λ x, mark_as_deleted (backup_of x)) <$> cs)) t n).
Proof.
  intros Hpre.
  assert (round_trip t n = map_folders reverted_children t n) as E.
  { rewrite round_trip_tree. apply map_folders_ext. intros e He.
    apply round_trip_children_pre_migration. intros x Hx.
    by apply (Hpre e x). }
  split; [done|]. intros Hall. rewrite E.
  apply map_folders_ext. intros e He. unfold reverted_children.
  rewrite (filter_none (λ x, key x ≠ "InterfaceConfig")).
  - rewrite (filter_all (λ x, key x = "InterfaceConfig")); [done|].
    intros x Hx. by apply (Hall e x).
  - intros x Hx Hk. apply Hk. by apply (Hall e x).
Qed.

(** * The theorems at sample inputs *)

Lemma selected_epgs_sample cs :
  selected_epgs (sample_tenant cs) "A" = [mkEPG "E" cs].
Proof. reflexivity. Qed.

Ltac members :=
  repeat match goal with
         | H : _ ∈ [] |- _ => by apply elem_of_nil in H
         | H : _ ∈ _ :: _ |- _ => apply elem_of_cons in H as [->|H]
         end.

Lemma sample_v12_pre_migration : pre_migration sample_v12 "A".
Proof.
  intros e x He Hx. unfold sample_v12 in He.
  rewrite selected_epgs_sample in He. members.
  simpl in Hx. members; by vm_compute.
Qed.

Lemma sample_v12_no_backups : no_backups sample_v12.
Proof.
  intros a e x Ha He Hx. simpl in Ha. members. simpl in He. members.
  simpl in Hx. members; by vm_compute.
Qed.

Lemma forward_migration_example_witness :
  ∃ cs',
    folders_of (forward sample_v12 "A") "A" 0 = Some cs'
    ∧ (∃ b, b ∈ cs' ∧ b = backup_of (sample_interface "if1")
            ∧ name b = "if1" +:+ "_premigration")
    ∧ (∃ fi l3 r,
          fi ∈ cs' ∧ key fi = "Interface"
          ∧ CFolder l3 ∈ children fi ∧ key l3 = "Layer3Interface"
          ∧ CRelation r ∈ children l3
          ∧ r_key r = "zone" ∧ r_targetName r = "zoneA")
    ∧ (∃ z m,
          z ∈ cs' ∧ key z = "Zone" ∧ name z = "zoneA"
          ∧ CParameter m ∈ children z
          ∧ p_key m = "mode" ∧ p_value m = "layer3")
    ∧ (∃ sr nh d,
          sr ∈ cs' ∧ key sr = "StaticRoute" ∧ name sr = "default_gateway"
          ∧ CParameter nh ∈ children sr
          ∧ p_key nh = "nexthop" ∧ p_value nh = "10.0.0.1"
          ∧ CParameter d ∈ children sr
          ∧ p_key d = "destination" ∧ p_value d = "0.0.0.0/0").
Proof.
  apply (forward_migration_example sample_v12 "A" 0
           [sample_interface "if1"; sample_other]
           (sample_interface "if1") sample_layer3
           (mkParam "sz" "security_zone" "zoneA" false)
           (mkParam "gw" "default_gateway" "10.0.0.1" false)).
  - reflexivity.
  - left.
  - reflexivity.
  - vm_compute. reflexivity.
  - left.
  - reflexivity.
  - left.
  - reflexivity.
  - reflexivity.
  - right. left.
  - reflexivity.
  - reflexivity.
Defined.

Lemma revert_restores_pre_migration_witness :
  pre_migration sample_v12 "A"
  ∧ round_trip sample_v12 "A"
    = map_folders reverted_children sample_v12 "A"
  ∧ map_folders reverted_children sample_v12 "A"
    = sample_tenant
        [sample_other; sample_interface "if1";
         mark_as_deleted (backup_of (sample_interface "if1"))].
Proof.
  split; [exact sample_v12_pre_migration|]. split.
  - exact (proj1 (revert_restores_pre_migration sample_v12 "A"
                    sample_v12_pre_migration)).
  - vm_compute. reflexivity.
Defined.

Lemma subfolder_key_truncation_witness :
  ∃ child,
    children (kept migrate_keys_folder (sample_interface "if1")) !! 0
    = Some (CFolder child)
    ∧ key sample_layer3 = "Layer3InterfaceConfig"
    ∧ key child = "Layer3Interface"
    ∧ key child = remove_suffix "Config" "Layer3InterfaceConfig"
    ∧ name child = "l3"
    ∧ deleted child = false
    ∧ children child
      = [CParameter (mkParam "sz" "security_zone" "zoneA" false);
         CParameter (mkParam "gw" "default_gateway" "10.0.0.1" false)].
Proof.
  destruct (subfolder_key_truncation (sample_interface "if1")
              sample_layer3 0)
    as (child & Hc & _ & _ & Hr & H3 & _ & Hn & _ & _ & _ & _ & _ & Hd & Hcs).
  - vm_compute. reflexivity.
  - reflexivity.
  - left. reflexivity.
  - exists child. split_and!.
    + exact Hc.
    + reflexivity.
    + apply H3. reflexivity.
    + exact Hr.
    + exact Hn.
    + exact Hd.
    + exact Hcs.
Defined.


Lemma cleanup_without_backups_witness :
  no_backups (deep world_v12)
  ∧ cleanup_interface_folders (deep world_v12) "A" = (deep world_v12, false)
  ∧ (cleanup args_cleanup = true →
     ∀ tree extra, Push tree extra ∉ trace (main world_v12 args_cleanup)).
Proof.
  split; [exact sample_v12_no_backups|].
  exact (cleanup_without_backups world_v12 args_cleanup "A"
           sample_v12_no_backups).
Defined.

Lemma invalid_combination_rejected_witness :
  (invalid_combination args_cleanup_parameters = true
   ∧ parse_args args_cleanup_parameters = sys_exit 1
   ∧ main world_v12 args_cleanup_parameters = Proc [] (inl (Exit 1)))
  ∧ (invalid_combination args_revert_cleanup_no_app = true
     ∧ main world_v12 args_revert_cleanup_no_app
       = Proc [Login; GetTenants; GetAppProfiles] (inl (Exit 0))
     ∧ (GetDeep ∉ trace (main world_v12 args_revert_cleanup_no_app))
     ∧ (GetClusters ∉ trace (main world_v12 args_revert_cleanup_no_app))
     ∧ ∀ tree extra,
         Push tree extra
         ∉ trace (main world_v12 args_revert_cleanup_no_app)).
Proof.
  split.
  - split; [reflexivity|].
    apply (invalid_combination_rejected world_v12 args_cleanup_parameters);
      reflexivity.
  - split; [reflexivity|]. split; [reflexivity|].
    apply (invalid_combination_rejected world_v12
             args_revert_cleanup_no_app).
    reflexivity.
Defined.

Lemma forward_passes_keep_backups_witness :
  folder_at
    (run_sequence [(KeyRename, "A"); (ZoneVlan, "A"); (DefaultGateway, "A")]
       (sample_tenant [backup_of (sample_interface "if1")])) 0 0 0
  = Some (backup_of (sample_interface "if1")).
Proof.
  apply (forward_passes_keep_backups
           [(KeyRename, "A"); (ZoneVlan, "A"); (DefaultGateway, "A")]
           (sample_tenant [backup_of (sample_interface "if1")]) 0 0 0
           (backup_of (sample_interface "if1"))).
  - vm_compute. reflexivity.
  - reflexivity.
Defined.

Lemma unknown_app_profile_no_change_witness :
  migrate_interface_folder_keys sample_v12 "B" = (sample_v12, false)
  ∧ migrate_zones_and_vlans sample_v12 "B" = (sample_v12, false)
  ∧ migrate_default_gateway sample_v12 "B" = (sample_v12, false)
  ∧ cleanup_interface_folders sample_v12 "B" = (sample_v12, false)
  ∧ delete_migrated_folders sample_v12 "B" = (sample_v12, false)
  ∧ revert_interface_folders sample_v12 "B" = (sample_v12, false).
Proof.
  apply (unknown_app_profile_no_change sample_v12 "B").
  intros a Ha. simpl in Ha. members. discriminate.
Defined.

(** * Further properties of the code *)

(** ** The command *)

Ltac in_trace H :=
  repeat (apply elem_of_cons in H as [H|H];
          [try discriminate H|]);
  try (by apply elem_of_nil in H).

(** X1. With a tenant and an application profile named, [parse_args]
    exits with status 1 exactly on the invalid combinations of actions and
    returns the arguments on all others; with either name missing it
    returns the arguments whatever the actions are. *)
Theorem parse_args_decides (args : Args) :
  parse_args args
  = if truthy (tenant args) && truthy (app args)
    then if invalid_combination args then sys_exit 1 else mret args
    else mret args.
Proof.
  destruct args as [p c r cl ten ap dr dbg].
  unfold parse_args, invalid_combination. simpl.
  destruct (truthy ten), (truthy ap); simpl; try done.
  by destruct p, c, r, cl.
Qed.

(** X2. In dry-run mode the command never pushes to the controller,
    whatever the actions, the tree and the cluster records are. *)
Theorem dry_run_never_pushes (w : World) (args : Args) :
  dry_run args = true →
  ∀ tree extra, Push tree extra ∉ trace (main w args).
Proof.
  destruct args as [p c r cl ten ap dr dbg]. simpl. intros -> tree extra.
  destruct p, c, r, cl; run_main; not_in_trace.
Qed.

Lemma dry_run_never_pushes_witness :
  dry_run (mkArgs true false false false (Some "T") (Some "A") true false)
  = true
  ∧ ∀ tree extra,
      Push tree extra
      ∉ trace (main world_v12
                 (mkArgs true false false false (Some "T") (Some "A")
                    true false)).
Proof.
  split; [reflexivity|].
  apply (dry_run_never_pushes world_v12
           (mkArgs true false false false (Some "T") (Some "A") true false)).
  reflexivity.
Defined.

(** X3. When the login is refused the command exits with status 1 and
    asks the controller for nothing else. *)
Theorem refused_login_stops (w : World) (args : Args) :
  login_ok w = false →
  main w args = Proc [] (inl (Exit 1))
  ∨ main w args = Proc [Login] (inl (Exit 1)).
Proof.
  destruct args as [p c r cl ten ap dr dbg]. intros Hl.
  unfold main, parse_args. simpl. rewrite Hl.
  destruct (truthy ten), (truthy ap), p, c, r, cl; simpl; auto.
Qed.

Lemma refused_login_stops_witness :
  login_ok (mkWorld false ["T"] ["A"] sample_v12 [] true true) = false
  ∧ (main (mkWorld false ["T"] ["A"] sample_v12 [] true true) args_cleanup
     = Proc [] (inl (Exit 1))
     ∨ main (mkWorld false ["T"] ["A"] sample_v12 [] true true) args_cleanup
       = Proc [Login] (inl (Exit 1))).
Proof.
  split; [reflexivity|].
  apply (refused_login_stops
           (mkWorld false ["T"] ["A"] sample_v12 [] true true) args_cleanup).
  reflexivity.
Defined.

(** X4. Without the parameters and the cleanup action the command never
    fetches the tenant's tree: whatever it pushes is a Tenant object it
    made itself, with no children, that carries the cluster fragments. *)
Theorem clusters_only_pushes_empty_tenant (w : World) (args : Args) :
  parameters args = false →
  cleanup args = false →
  (GetDeep ∉ trace (main w args))
  ∧ ∀ tree extra,
      Push tree extra ∈ trace (main w args) →
      tree = mkTenant (default "" (tenant args)) [].
Proof.
  destruct args as [p c r cl ten ap dr dbg]. simpl. intros -> ->. split.
  - destruct c, r; run_main; not_in_trace.
  - intros tree extra.
    destruct c, r; run_main; intros H; in_trace H; by injection H as <- _.
Qed.

Lemma clusters_only_pushes_empty_tenant_witness :
  main world_cluster args_clusters
  = Proc [Login; GetTenants; GetAppProfiles; NewTenant "T"; GetClusters;
          Push (mkTenant "T" []) [lDevVip "FW" PANOS_1_3]] (inr tt)
  ∧ (GetDeep ∉ trace (main world_cluster args_clusters))
  ∧ ∀ tree extra,
      Push tree extra ∈ trace (main world_cluster args_clusters) →
      tree = mkTenant "T" [].
Proof.
  split; [vm_compute; reflexivity|].
  apply (clusters_only_pushes_empty_tenant world_cluster args_clusters);
    reflexivity.
Defined.

Lemma truthy_Some (s : string) : s ≠ "" → truthy (Some s) = true.
Proof. intros H. unfold truthy. by rewrite bool_decide_false. Qed.

(** Running the command up to the first test that is not decided. *)
Ltac step_main :=
  unfold main, parse_args;
  repeat progress
    (simpl; unfold when;
     rewrite ?truthy_Some, ?bool_decide_true by done;
     repeat match goal with
            | H : _ = true |- _ => rewrite H
            | H : _ = false |- _ => rewrite H
            end;
     simpl).

(** X5. An invocation with the parameters action alone, on a tenant and
    an application profile the controller knows, fetches the tree, runs
    the three forward passes on it and, when one of them reports a
    change, pushes the result once: a refused push ends the command with
    status 1.  When none reports a change nothing is pushed. *)
Theorem parameters_invocation (w : World) (tn ap : string) (dbg : bool) :
  tn ≠ "" → ap ≠ "" →
  login_ok w = true →
  tn ∈ apic_tenants w →
  ap ∈ apic_apps w →
  main w (mkArgs true false false false (Some tn) (Some ap) false dbg)
  = if forward_changed (deep w) ap
    then Proc [Login; GetTenants; GetAppProfiles; GetDeep;
               Push (forward (deep w) ap) []]
           (if final_push_ok w then inr tt else inl (Exit 1))
    else Proc [Login; GetTenants; GetAppProfiles; GetDeep] (inr tt).
Proof.
  intros Htn Hap Hl Ht Ha.
  step_main.
  fold (forward (deep w) ap). fold (forward_changed (deep w) ap).
  destruct (forward_changed (deep w) ap); [|done]. simpl.
  by destruct (final_push_ok w).
Qed.

Lemma parameters_invocation_witness :
  main world_v12 (mkArgs true false false false (Some "T") (Some "A") false false)
  = if forward_changed (deep world_v12) "A"
    then Proc [Login; GetTenants; GetAppProfiles; GetDeep;
               Push (forward (deep world_v12) "A") []]
           (if final_push_ok world_v12 then inr tt else inl (Exit 1))
    else Proc [Login; GetTenants; GetAppProfiles; GetDeep] (inr tt).
Proof.
  apply (parameters_invocation world_v12 "T" "A" false);
    [discriminate|discriminate|reflexivity|left|left].
Defined.

(** X6. An invocation with revert and parameters marks the migrated
    Folders deleted and, when that reports a change, pushes the tree at
    once; if the controller refuses this first push the command exits
    with status 1 before any backup is restored.  Otherwise the backups
    are restored and the tree is pushed a second time. *)
Theorem revert_parameters_invocation
    (w : World) (tn ap : string) (dbg : bool) :
  tn ≠ "" → ap ≠ "" →
  login_ok w = true →
  tn ∈ apic_tenants w →
  ap ∈ apic_apps w →
  let marked := delete_migrated_folders (deep w) ap in
  let restored := revert_interface_folders marked.1 ap in
  main w (mkArgs true false true false (Some tn) (Some ap) false dbg)
  = if marked.2
    then if revert_push_ok w
         then Proc [Login; GetTenants; GetAppProfiles; GetDeep;
                    Push marked.1 []; Push restored.1 []]
                (if final_push_ok w then inr tt else inl (Exit 1))
         else Proc [Login; GetTenants; GetAppProfiles; GetDeep;
                    Push marked.1 []]
                (inl (Exit 1))
    else if restored.2
         then Proc [Login; GetTenants; GetAppProfiles; GetDeep;
                    Push restored.1 []]
                (if final_push_ok w then inr tt else inl (Exit 1))
         else Proc [Login; GetTenants; GetAppProfiles; GetDeep] (inr tt).
Proof.
  intros Htn Hap Hl Ht Ha marked restored.
  step_main.
  fold marked. rewrite orb_false_r.
  destruct (marked.2) eqn:Hm; simpl.
  - destruct (revert_push_ok w); simpl; [|done].
    fold restored. rewrite orb_true_r. simpl.
    by destruct (final_push_ok w).
  - fold restored. rewrite orb_false_r.
    destruct (restored.2); simpl; [|done].
    by destruct (final_push_ok w).
Qed.

Lemma revert_parameters_invocation_witness :
  (main (world_migrated true) args_revert_parameters
   = Proc [Login; GetTenants; GetAppProfiles; GetDeep;
           Push (delete_migrated_folders (forward sample_v12 "A") "A").1 [];
           Push (revert_interface_folders
                   (delete_migrated_folders (forward sample_v12 "A") "A").1
                   "A").1 []]
       (inr tt)
   ∧ main (world_migrated false) args_revert_parameters
     = Proc [Login; GetTenants; GetAppProfiles; GetDeep;
             Push (delete_migrated_folders (forward sample_v12 "A") "A").1 []]
         (inl (Exit 1)))
  ∧ ((λ cs : list Folder, (λ f, (name f, key f, deleted f)) <$> cs)
       <$> folders_of
             (delete_migrated_folders (forward sample_v12 "A") "A").1 "A" 0
     = Some [("if1", "Interface", true); ("oth", "Other", false);
             ("if1_premigration", "InterfaceConfig", false);
             ("zoneA", "Zone", true);
             ("default_gateway", "StaticRoute", true)]
     ∧ folders_of
         (revert_interface_folders
            (delete_migrated_folders (forward sample_v12 "A") "A").1 "A").1
         "A" 0
       = Some [sample_other; sample_interface "if1";
               mark_as_deleted (backup_of (sample_interface "if1"))]).
Proof.
  unfold args_revert_parameters. split; [split|].
  - rewrite (revert_parameters_invocation (world_migrated true) "T" "A" false);
      [vm_compute; reflexivity|discriminate|discriminate|reflexivity
      |left|left].
  - rewrite (revert_parameters_invocation (world_migrated false) "T" "A" false);
      [vm_compute; reflexivity|discriminate|discriminate|reflexivity
      |left|left].
  - split_and!; vm_compute; reflexivity.
Defined.

(** X7. An exception of the cluster revert is caught by nobody: an
    invocation with revert and clusters ends with it, right after the
    cluster query, and pushes nothing. *)
Theorem revert_clusters_exception_ends_command
    (w : World) (tn : string) (ap : option string) (dr dbg : bool) (e : exn) :
  tn ≠ "" →
  login_ok w = true →
  tn ∈ apic_tenants w →
  revert_clusters (cluster_rels w) = Raise e →
  main w (mkArgs false true true false (Some tn) ap dr dbg)
  = Proc [Login; GetTenants; GetAppProfiles; NewTenant tn; GetClusters]
      (inl (Uncaught e)).
Proof.
  intros Htn Hl Ht He.
  destruct (truthy ap) eqn:Hap; step_main; by rewrite He.
Qed.

Lemma revert_clusters_exception_ends_command_witness :
  main (mkWorld true ["T"] ["A"] sample_v12
          [devMgr "uni/tn-T/devMgr-M" "M"] true true)
    (mkArgs false true true false (Some "T") (Some "A") false false)
  = Proc [Login; GetTenants; GetAppProfiles; NewTenant "T"; GetClusters]
      (inl (Uncaught KeyError)).
Proof.
  apply (revert_clusters_exception_ends_command
           (mkWorld true ["T"] ["A"] sample_v12
              [devMgr "uni/tn-T/devMgr-M" "M"] true true)
           "T" (Some "A") false false KeyError);
    [discriminate|reflexivity|left|reflexivity].
Defined.

(** ** Cluster associations, one record at a time *)

Lemma for_result_app {A B} (body : B → A → raises B) (b : B) (l1 l2 : list A) :
  for_result body b (l1 ++ l2)
  = b' ← for_result body b l1; for_result body b' l2.
Proof.
  revert b. induction l1 as [|x l1 IH]; intros b; simpl; [done|].
  destruct (body b x) as [b'|e]; simpl; [apply IH|done].
Qed.

Lemma raises_bind_Ok {A B} (a : A) (k : A → raises B) :
  (x ← Ok a; k x) = k a.
Proof. done. Qed.

Lemma raises_bind_Raise {A B} (e : exn) (k : A → raises B) :
  (x ← Raise e; k x) = Raise e.
Proof. done. Qed.

Lemma raises_bind_assoc {A B C} (r : raises A) (f : A → raises B)
    (g : B → raises C) :
  (y ← (x ← r; f x); g y) = (x ← r; y ← f x; g y).
Proof. by destruct r. Qed.

Lemma migrate_cluster_acc (acc : list dict) (cluster : dict) :
  migrate_cluster acc cluster
  = r ← migrate_cluster [] cluster; mret (acc ++ r).
Proof.
  unfold migrate_cluster, dict_name.
  destruct (has_target cluster "vnsRsMDevAtt" _) as [[]|e]; simpl; [| |done].
  { destruct (cluster_name_of cluster) as [nm|e]; simpl; [done|done]. }
  destruct (has_target cluster "vnsRsDevMgrToMDevMgr" _) as [[]|e]; simpl;
    [done| |done].
  destruct (has_target cluster "vnsRsChassisToMChassis" _) as [[]|e]; simpl;
    [done| |done].
  unfold mret, raises_ret. by rewrite app_nil_r.
Qed.

Lemma revert_cluster_acc (acc : list dict) (cluster : dict) :
  revert_cluster acc cluster
  = r ← revert_cluster [] cluster; mret (acc ++ r).
Proof.
  unfold revert_cluster, dict_name.
  destruct (tDn_of cluster "vnsRsMDevAtt") as [t|e]; simpl; [|done].
  destruct (json_is t _); simpl.
  { destruct (cluster_name_of cluster) as [nm|e]; simpl; [done|done]. }
  destruct (has_target cluster "vnsRsDevMgrToMDevMgr" _) as [[]|e]; simpl;
    [done| |done].
  destruct (has_target cluster "vnsRsChassisToMChassis" _) as [[]|e]; simpl;
    [done| |done].
  unfold mret, raises_ret. by rewrite app_nil_r.
Qed.

Section PerRecord.
Variable body : list dict → dict → raises (list dict).
Hypothesis body_acc : ∀ acc cluster,
  body acc cluster = r ← body [] cluster; mret (acc ++ r).

Lemma for_result_acc (acc : list dict) (l : list dict) :
  for_result body acc l = r ← for_result body [] l; mret (acc ++ r).
Proof.
  revert acc. induction l as [|x l IH]; intros acc; simpl.
  - unfold mret, raises_ret. by rewrite app_nil_r.
  - rewrite (body_acc acc x).
    destruct (body [] x) as [r|e]; simpl; [|done].
    rewrite (IH (acc ++ r)), (IH r).
    destruct (for_result body [] l) as [r'|e]; simpl; [|done].
    unfold mret, raises_ret. by rewrite app_assoc.
Qed.

Lemma for_result_per_record (l1 l2 : list dict) :
  for_result body [] (l1 ++ l2)
  = r1 ← for_result body [] l1;
    r2 ← for_result body [] l2;
    mret (r1 ++ r2).
Proof.
  rewrite for_result_app.
  destruct (for_result body [] l1) as [r1|e]; simpl; [|done].
  apply for_result_acc.
Qed.
End PerRecord.

(** X8. Both cluster migrations work record by record: the output for
    two lists one after the other is the output for the first followed by
    the output for the second, and an exception in the first list is the
    result whatever the second holds. *)
Theorem cluster_migrations_per_record (l1 l2 : list dict) :
  migrate_clusters (l1 ++ l2)
  = (r1 ← migrate_clusters l1; r2 ← migrate_clusters l2; mret (r1 ++ r2))
  ∧ revert_clusters (l1 ++ l2)
    = (r1 ← revert_clusters l1; r2 ← revert_clusters l2; mret (r1 ++ r2)).
Proof.
  split.
  - apply for_result_per_record, migrate_cluster_acc.
  - apply for_result_per_record, revert_cluster_acc.
Qed.

Lemma has_target_absent (cluster : dict) k v :
  cluster !! k = None → has_target cluster k v = Ok false.
Proof.
  intros H. unfold has_target.
  rewrite bool_decide_false; [done|]. rewrite H. by intros [? ?].
Qed.

Lemma has_target_present (cluster : dict) k v t :
  tDn_of cluster k = Ok t → has_target cluster k v = Ok (json_is t v).
Proof.
  intros H. unfold has_target.
  destruct (tDn_of_Ok _ _ _ H) as (a & b & Ha & _).
  rewrite bool_decide_true by (by rewrite Ha). simpl. by rewrite H.
Qed.

Lemma migrate_cluster_other_shape (cluster : dict) :
  other_shape cluster → migrate_cluster [] cluster = Ok [].
Proof.
  intros (H1 & H2 & H3). unfold migrate_cluster.
  by rewrite !has_target_absent by done.
Qed.

(** X9. The forward cluster migration ignores every record that has none
    of the three attributes it looks for: on a list of such records it
    returns the empty list and raises nothing. *)
Theorem migrate_clusters_ignores_other_shapes (l : list dict) :
  Forall other_shape l → migrate_clusters l = Ok [].
Proof.
  unfold migrate_clusters. induction 1 as [|x l Hx _ IH]; simpl; [done|].
  by rewrite migrate_cluster_other_shape.
Qed.

Lemma devMgr_other_shape dn n : other_shape (devMgr dn n).
Proof. by split_and!. Qed.

Lemma migrate_clusters_ignores_other_shapes_witness :
  migrate_clusters [devMgr "uni/tn-T/devMgr-M" "M"; devMgr "uni/tn-T/devMgr-N" "N"]
  = Ok [].
Proof.
  apply (migrate_clusters_ignores_other_shapes
           [devMgr "uni/tn-T/devMgr-M" "M"; devMgr "uni/tn-T/devMgr-N" "N"]).
  repeat constructor.
Defined.

(** X10. The cluster revert raises KeyError as soon as it meets a record
    without the 'vnsRsMDevAtt' attribute, whatever follows it in the
    list. *)
Theorem revert_clusters_KeyError (cluster : dict) (rest : list dict) :
  cluster !! "vnsRsMDevAtt" = None →
  revert_clusters (cluster :: rest) = Raise KeyError.
Proof.
  intros H. unfold revert_clusters. simpl.
  unfold revert_cluster, tDn_of, dict_item. by rewrite H.
Qed.

Lemma revert_clusters_KeyError_witness :
  revert_clusters
    [devMgr "uni/tn-T/devMgr-M" "M";
     rsMDevAtt "uni/tn-T/lDevVip-FW/rsMDevAtt" PANOS_1_3]
  = Raise KeyError.
Proof.
  apply (revert_clusters_KeyError (devMgr "uni/tn-T/devMgr-M" "M")
           [rsMDevAtt "uni/tn-T/lDevVip-FW/rsMDevAtt" PANOS_1_3]).
  reflexivity.
Defined.

(** X11. A device-package record whose target is neither literal is
    ignored by both cluster migrations, given that it has neither of the
    two other attributes: each returns the empty list. *)
Theorem unmatched_device_package_ignored (cluster : dict) (v : string) :
  tDn_of cluster "vnsRsMDevAtt" = Ok (JStr v) →
  cluster !! "vnsRsDevMgrToMDevMgr" = None →
  cluster !! "vnsRsChassisToMChassis" = None →
  (v ≠ PANOS_1_2 → migrate_clusters [cluster] = Ok [])
  ∧ (v ≠ PANOS_1_3 → revert_clusters [cluster] = Ok []).
Proof.
  intros Ht H2 H3. split; intros Hv.
  - unfold migrate_clusters. simpl. unfold migrate_cluster.
    rewrite (has_target_present _ _ _ _ Ht). simpl.
    fold PANOS_1_2. rewrite bool_decide_false by done. simpl.
    by rewrite !has_target_absent by done.
  - unfold revert_clusters. simpl. unfold revert_cluster.
    rewrite Ht. simpl. fold PANOS_1_3.
    rewrite bool_decide_false by done. simpl.
    by rewrite !has_target_absent by done.
Qed.

Lemma unmatched_device_package_ignored_witness :
  migrate_clusters
    [rsMDevAtt "uni/tn-T/lDevVip-FW/rsMDevAtt" "uni/infra/mDev-Other-1.0"]
  = Ok []
  ∧ revert_clusters
      [rsMDevAtt "uni/tn-T/lDevVip-FW/rsMDevAtt" "uni/infra/mDev-Other-1.0"]
    = Ok [].
Proof.
  destruct (unmatched_device_package_ignored
              (rsMDevAtt "uni/tn-T/lDevVip-FW/rsMDevAtt"
                 "uni/infra/mDev-Other-1.0")
              "uni/infra/mDev-Other-1.0") as [H1 H2]; [reflexivity..|].
  split; [apply H1|apply H2]; discriminate.
Defined.

(** X12. The forward cluster migration cannot upgrade a device manager
    or a chassis: on a record whose device-manager target (or, with no
    device-manager attribute, whose chassis target) is the 1.2 literal it
    reads [cluster.name] on a dict and raises AttributeError. *)
Theorem migrate_clusters_manager_AttributeError
    (cluster : dict) (rest : list dict) :
  cluster !! "vnsRsMDevAtt" = None →
  (tDn_of cluster "vnsRsDevMgrToMDevMgr" = Ok (JStr Panorama_1_2)
   ∨ (cluster !! "vnsRsDevMgrToMDevMgr" = None
      ∧ tDn_of cluster "vnsRsChassisToMChassis" = Ok (JStr Chassis_1_2))) →
  migrate_clusters (cluster :: rest) = Raise AttributeError.
Proof.
  intros H1 H. unfold migrate_clusters. simpl. unfold migrate_cluster.
  rewrite (has_target_absent _ _ _ H1). simpl.
  destruct H as [H2|[H2 H3]].
  - by rewrite (has_target_present _ _ _ _ H2).
  - rewrite (has_target_absent _ _ _ H2). simpl.
    by rewrite (has_target_present _ _ _ _ H3).
Qed.

Lemma migrate_clusters_manager_AttributeError_witness :
  migrate_clusters
    [{[ "vnsRsDevMgrToMDevMgr" :=
          JObj {[ "attributes" := JObj {[ "tDn" := JStr Panorama_1_2 ]} ]} ]}]
  = Raise AttributeError.
Proof.
  apply (migrate_clusters_manager_AttributeError
           {[ "vnsRsDevMgrToMDevMgr" :=
                JObj {[ "attributes" :=
                          JObj {[ "tDn" := JStr Panorama_1_2 ]} ]} ]} []).
  - reflexivity.
  - left. reflexivity.
Defined.

(** ** The name of a cluster *)








(** ** The tree passes *)

Lemma map_folders_frame F t n : frame_kept t (map_folders F t n) n.
Proof.
  unfold frame_kept, map_folders.
  destruct (get_child t n) as [[i0 a0]|] eqn:Hg.
  - simpl. split_and!; [done|by rewrite length_insert|].
    intros i a Hi. destruct (decide (i = i0)) as [->|Hne].
    + exists (set_app_children (map_epg F <$> app_children a0) a0).
      apply get_child_lookup in Hg as [Hi0 _].
      assert (a = a0) as -> by congruence.
      split_and!.
      * apply list_lookup_insert_eq. by eapply lookup_lt_Some.
      * done.
      * simpl. rewrite <- list_fmap_compose. by apply list_fmap_ext.
      * intros H. by destruct H.
    + exists a. by rewrite list_lookup_insert_ne.
  - split_and!; [done..|]. intros i a Hi. by exists a.
Qed.

Lemma run_pass_tree (p : tree_pass) t n :
  ∃ F, (run_pass p t n).1 = map_folders F t n.
Proof.
  destruct p; simpl; eexists.
  - apply (pass_tree _ migrate_keys_folder_flagging).
  - apply (pass_tree _
             (scan_folder_flagging _ extract_zone_or_vlan_collecting)).
  - apply (pass_tree _
             (scan_folder_flagging _ extract_default_gateway_collecting)).
  - apply (pass_tree _ cleanup_folder_flagging).
  - apply (pass_tree _ delete_migrated_folder_flagging).
  - apply revert_tree.
Qed.

(** X14. Each of the six tree passes keeps the tenant's name, its
    application profiles with their names and order, the EPGs of each
    with their names and order, and leaves every application profile but
    the one it is run on exactly as it was: a pass only rewrites the
    Folders under the EPGs of its own profile. *)
Theorem passes_keep_frame (p : tree_pass) (t : Tenant) (n : string) :
  frame_kept t (run_pass p t n).1 n.
Proof.
  destruct (run_pass_tree p t n) as [F ->]. apply map_folders_frame.
Qed.

(** *** No change reported, no change made *)

Lemma set_children_same f : set_children (children f) f = f.
Proof. by destruct f. Qed.

Section CollectingSkips.
Context {A B : Type}.
Variable body : A → list B * bool → A * list A * (list B * bool).
Hypothesis Hbody : collecting body.

Lemma chit_false_all (l : list A) :
  existsb (chit body) l = false → ∀ x, x ∈ l → chit body x = false.
Proof.
  induction l as [|y l IH]; simpl; intros H x Hx;
    [by apply elem_of_nil in Hx|].
  apply orb_false_iff in H as [Hy Hl].
  apply elem_of_cons in Hx as [->|Hx]; auto.
Qed.

Lemma for_each_collecting_skips (l : list A) :
  (∀ x, x ∈ l → body x ([], false) = (x, [], ([], false))) →
  for_each body l ([], false) = (l, ([], false)).
Proof.
  intros H. rewrite (for_each_collecting _ Hbody). simpl.
  assert (ckept body <$> l = l ∧ l ≫= cadded body = []
          ∧ l ≫= cmade body = [] ∧ existsb (chit body) l = false)
    as (-> & -> & -> & ->); [|by rewrite app_nil_r].
  induction l as [|x l IH]; [done|].
  destruct IH as (IH1 & IH2 & IH3 & IH4);
    [intros y Hy; apply H; by right|].
  rewrite fmap_cons, !bind_cons, IH1, IH2, IH3. simpl. rewrite IH4.
  unfold ckept, cadded, cmade, chit. by rewrite (H x) by left.
Qed.
End CollectingSkips.

Lemma extract_zone_or_vlan_quiet folder layerfolder c :
  chit (extract_zone_or_vlan folder layerfolder) c = false →
  extract_zone_or_vlan folder layerfolder c ([], false) = (c, [], ([], false)).
Proof.
  unfold chit, extract_zone_or_vlan. destruct c as [f|p|r]; try done.
  destruct (negb (py_in _ _)); [done|]. simpl.
  by repeat case_bool_decide.
Qed.

Lemma extract_default_gateway_quiet folder layerfolder c :
  chit (extract_default_gateway folder layerfolder) c = false →
  extract_default_gateway folder layerfolder c ([], false)
  = (c, [], ([], false)).
Proof.
  unfold chit, extract_default_gateway. destruct c as [f|p|r]; try done.
  by case_bool_decide.
Qed.

Section ScanQuiet.
Variable on_param :
  Folder → Folder → Child → list Folder * bool
  → Child * list Child * (list Folder * bool).
Hypothesis Hparam : ∀ folder layerfolder,
  collecting (on_param folder layerfolder).
Hypothesis Hquiet : ∀ folder layerfolder c,
  chit (on_param folder layerfolder) c = false →
  on_param folder layerfolder c ([], false) = (c, [], ([], false)).

Lemma scan_layerfolder_quiet folder c :
  chit (scan_layerfolder on_param folder) c = false →
  scan_layerfolder on_param folder c ([], false) = (c, [], ([], false)).
Proof.
  unfold chit, scan_layerfolder. destruct c as [lf|p|r]; try done.
  destruct (negb (py_in _ _)); [done|]. simpl.
  intros H. rewrite (for_each_collecting _ (Hparam folder lf)) in H.
  simpl in H.
  rewrite (for_each_collecting_skips _ (Hparam folder lf)).
  - simpl. by rewrite set_children_same.
  - intros x Hx. apply Hquiet.
    by apply (chit_false_all _ (children lf)).
Qed.

Lemma scan_folder_quiet folder :
  hit (scan_folder on_param) folder = false →
  skips (scan_folder on_param) folder.
Proof.
  unfold hit, skips, scan_folder. case_bool_decide as Hk; [done|]. simpl.
  intros Hh.
  rewrite (for_each_collecting _
             (scan_layerfolder_collecting _ Hparam folder)) in Hh.
  simpl in Hh.
  rewrite (for_each_collecting_skips _
             (scan_layerfolder_collecting _ Hparam folder)).
  - simpl. by rewrite set_children_same.
  - intros x Hx. apply scan_layerfolder_quiet.
    by apply (chit_false_all _ (children folder)).
Qed.
End ScanQuiet.

Lemma pass_quiet body t n :
  flagging body →
  (∀ x, hit body x = false → skips body x) →
  (on_app_profile (for_folders body) t n).2 = false →
  (on_app_profile (for_folders body) t n).1 = t.
Proof.
  intros Hbody Hq. rewrite pass_flag by done. intros Hflag.
  rewrite (pass_skips body t n); [done|done|].
  intros e x He Hx. apply Hq.
  induction (selected_epgs t n) as [|e' es IH];
    [by apply elem_of_nil in He|].
  simpl in Hflag. apply orb_false_iff in Hflag as [He' Hes].
  apply elem_of_cons in He as [->|He]; [|by apply IH].
  clear IH Hes. induction (epg_children e') as [|y l IH];
    [by apply elem_of_nil in Hx|].
  simpl in He'. apply orb_false_iff in He' as [Hy Hl].
  apply elem_of_cons in Hx as [->|Hx]; [done|by apply IH].
Qed.

(** X15. The key rename, zone/VLAN, default-gateway, cleanup and
    delete-migrated passes change the tree only when they say so: a pass
    that returns False hands back the tree it was given. *)
Theorem no_change_reported_no_change_made
    (p : tree_pass) (t : Tenant) (n : string) :
  p ≠ PassRestore →
  (run_pass p t n).2 = false →
  (run_pass p t n).1 = t.
Proof.
  intros Hp. destruct p; simpl; try done.
  - apply pass_quiet; [apply migrate_keys_folder_flagging|].
    intros x. unfold hit, skips, migrate_keys_folder.
    by destruct (bool_decide _ && negb _).
  - apply pass_quiet.
    + apply scan_folder_flagging, extract_zone_or_vlan_collecting.
    + apply scan_folder_quiet;
        [apply extract_zone_or_vlan_collecting
        |apply extract_zone_or_vlan_quiet].
  - apply pass_quiet.
    + apply scan_folder_flagging, extract_default_gateway_collecting.
    + apply scan_folder_quiet;
        [apply extract_default_gateway_collecting
        |apply extract_default_gateway_quiet].
  - apply pass_quiet; [apply cleanup_folder_flagging|].
    intros x. unfold hit, skips, cleanup_folder.
    by destruct (bool_decide _ && _).
  - apply pass_quiet; [apply delete_migrated_folder_flagging|].
    intros x. unfold hit, skips, delete_migrated_folder.
    by destruct (py_in _ _).
Qed.

Lemma no_change_reported_no_change_made_witness :
  (run_pass PassZones sample_v12 "A").1 = sample_v12.
Proof.
  apply (no_change_reported_no_change_made PassZones sample_v12 "A");
    [discriminate|reflexivity].
Defined.

(** *** The restore pass on its own *)

Lemma revert_epg_hit e :
  hit revert_epg e
  = existsb (hit restore_backup) (remove_migrated (epg_children e)).
Proof.
  unfold hit at 1, revert_epg, for_folders.
  by rewrite (for_each_flagging _ restore_backup_flagging).
Qed.

Lemma revert_flag t n :
  (revert_interface_folders t n).2
  = existsb (hit revert_epg) (selected_epgs t n).
Proof.
  unfold revert_interface_folders, on_app_profile, selected_epgs.
  destruct (get_child t n) as [[i a]|]; [|done]. simpl.
  by rewrite (for_each_flagging _ revert_epg_flagging).
Qed.

(** X16. The restore pass unlinks the Folders with key 'Interface',
    'Zone', 'Vlan' or 'StaticRoute' without counting that as a change:
    on a profile with no Folder named as a backup it returns False, and
    the tree it leaves has lost every such Folder. *)
Theorem restore_unlinks_without_reporting (t : Tenant) (n : string) :
  (∀ e x, e ∈ selected_epgs t n → x ∈ epg_children e →
          PyStr.endswith (name x) "_premigration" = false) →
  revert_interface_folders t n
  = (map_folders (filter (λ x, is_migrated x = false)) t n, false).
Proof.
  intros H.
  rewrite (surjective_pairing (revert_interface_folders t n)).
  rewrite revert_tree, revert_flag. f_equal.
  - apply map_folders_ext. intros e He. simpl.
    rewrite remove_migrated_filter. apply children_after_skips.
    intros x [_ Hx]%list_elem_of_filter.
    apply restore_backup_skips. by apply (H e).
  - induction (selected_epgs t n) as [|e es IH]; [done|]. simpl.
    rewrite IH by (intros e' x He'; apply H; by right).
    rewrite orb_false_r, revert_epg_hit, remove_migrated_filter.
    apply existsb_hit_skips. intros x [_ Hx]%list_elem_of_filter.
    apply restore_backup_skips. apply (H e); [left|done].
Qed.

Lemma restore_unlinks_without_reporting_witness :
  revert_interface_folders (sample_tenant [sample_zone; sample_other]) "A"
  = (sample_tenant [sample_other], false).
Proof.
  rewrite (restore_unlinks_without_reporting
             (sample_tenant [sample_zone; sample_other]) "A").
  - reflexivity.
  - intros e x He Hx. rewrite selected_epgs_sample in He.
    apply elem_of_cons in He as [->|He]; [|by apply elem_of_nil in He].
    simpl in Hx.
    apply elem_of_cons in Hx as [->|Hx]; [reflexivity|].
    apply elem_of_cons in Hx as [->|Hx]; [reflexivity|].
    by apply elem_of_nil in Hx.
Defined.

(** *** Pass 1 on an EPG *)

Lemma renamed_child_explicit (c : Child) :
  renamed_child c
  = match c with
    | CFolder s =>
        if bool_decide (key s = "Layer3InterfaceConfig")
        then CFolder (mkFolder (name s) "Layer3Interface" (ctrctNameOrLbl s)
                        (devCtxLbl s) (graphNameOrLbl s) (nodeNameOrLbl s)
                        (scopedBy s) (deleted s) (children s))
        else if bool_decide (key s = "Layer2InterfaceConfig")
        then CFolder (mkFolder (name s) "Layer2Interface" (ctrctNameOrLbl s)
                        (devCtxLbl s) (graphNameOrLbl s) (nodeNameOrLbl s)
                        (scopedBy s) (deleted s) (children s))
        else c
    | _ => c
    end.
Proof.
  destruct c as [s| |]; [|done..].
  unfold renamed_child, rename_subfolder, py_in. simpl.
  destruct (decide (key s = "Layer3InterfaceConfig")) as [H3|H3].
  - rewrite (bool_decide_true (key s = _)) by done.
    rewrite bool_decide_true by (rewrite H3; left). simpl.
    by rewrite H3.
  - rewrite (bool_decide_false (key s = "Layer3InterfaceConfig")) by done.
    destruct (decide (key s = "Layer2InterfaceConfig")) as [H2|H2].
    + rewrite (bool_decide_true (key s = _)) by done.
      rewrite bool_decide_true by (rewrite H2; right; left). simpl.
      by rewrite H2.
    + rewrite (bool_decide_false (key s = "Layer2InterfaceConfig")) by done.
      rewrite bool_decide_false; [done|].
      intros H. apply elem_of_cons in H as [H|H]; [done|].
      apply elem_of_cons in H as [H|H]; [done|].
      by apply elem_of_nil in H.
Qed.

(** X17. The key rename pass rewrites the interface Folders of an EPG
    (key 'InterfaceConfig', name not ending in '_premigration') in place:
    such a Folder gets key 'Interface' and keeps its name, its fields and
    its deletion mark; each of its sub-folders with key
    'Layer3InterfaceConfig' or 'Layer2InterfaceConfig' gets key
    'Layer3Interface' or 'Layer2Interface' and is otherwise kept, and its
    other children are kept as they are.  Every other Folder of the EPG
    is left as it is.  Behind the Folders the EPG had come the backups,
    in the order of their originals: a backup is its original with
    '_premigration' put behind its name and its ctrctNameOrLbl.  The pass
    returns True exactly when some EPG of the profile holds a Folder it
    rewrites. *)
Theorem key_rename_on_epg
    (t : Tenant) (n : string) (j : nat) (cs : list Folder) :
  folders_of t n j = Some cs →
  folders_of (migrate_interface_folder_keys t n).1 n j
  = Some
      (((λ f,
          if bool_decide (key f = "InterfaceConfig")
             && negb (PyStr.endswith (name f) "_premigration")
          then
            mkFolder (name f) "Interface" (ctrctNameOrLbl f) (devCtxLbl f)
              (graphNameOrLbl f) (nodeNameOrLbl f) (scopedBy f) (deleted f)
              ((λ c,
                 match c with
                 | CFolder s =>
                     if bool_decide (key s = "Layer3InterfaceConfig")
                     then CFolder
                            (mkFolder (name s) "Layer3Interface"
                               (ctrctNameOrLbl s) (devCtxLbl s)
                               (graphNameOrLbl s) (nodeNameOrLbl s)
                               (scopedBy s) (deleted s) (children s))
                     else if bool_decide (key s = "Layer2InterfaceConfig")
                     then CFolder
                            (mkFolder (name s) "Layer2Interface"
                               (ctrctNameOrLbl s) (devCtxLbl s)
                               (graphNameOrLbl s) (nodeNameOrLbl s)
                               (scopedBy s) (deleted s) (children s))
                     else c
                 | _ => c
                 end) <$> children f)
          else f) <$> cs)
       ++ ((λ f,
             mkFolder (name f +:+ "_premigration") (key f)
               (ctrctNameOrLbl f +:+ "_premigration") (devCtxLbl f)
               (graphNameOrLbl f) (nodeNameOrLbl f) (scopedBy f) (deleted f)
               (children f))
           <$> filter
                 (λ f, bool_decide (key f = "InterfaceConfig")
                       && negb (PyStr.endswith (name f) "_premigration")
                       = true) cs))
  ∧ (migrate_interface_folder_keys t n).2
    = existsb
        (λ e, existsb
                (λ f, bool_decide (key f = "InterfaceConfig")
                      && negb (PyStr.endswith (name f) "_premigration"))
                (epg_children e))
        (selected_epgs t n).
Proof.
  intros Hcs. unfold migrate_interface_folder_keys.
  rewrite (pass_tree _ migrate_keys_folder_flagging).
  rewrite (pass_flag _ migrate_keys_folder_flagging).
  split.
  - rewrite (folders_of_map_folders _ _ _ _ _ Hcs). f_equal.
    unfold children_after. f_equal.
    + apply list_fmap_ext. intros _ f _.
      rewrite migrate_keys_folder_kept. unfold is_v12_interface.
      destruct (bool_decide _ && negb _); [|done].
      unfold set_children, set_key. simpl. f_equal.
      apply list_fmap_ext. intros _ c _. apply renamed_child_explicit.
    + clear Hcs. induction cs as [|x cs IH]; [done|].
      rewrite bind_cons, filter_cons, IH, migrate_keys_folder_added.
      unfold is_v12_interface.
      destruct (decide (bool_decide (key x = "InterfaceConfig")
                        && negb (PyStr.endswith (name x) "_premigration")
                        = true)) as [Hx|Hx].
      * by rewrite Hx.
      * apply not_true_is_false in Hx. rewrite Hx. done.
  - induction (selected_epgs t n) as [|e es IH]; [done|]. simpl.
    rewrite IH. f_equal.
    induction (epg_children e) as [|x l IHl]; [done|]. simpl.
    by rewrite IHl, migrate_keys_folder_hit.
Qed.

Lemma key_rename_on_epg_witness :
  folders_of (migrate_interface_folder_keys sample_v12 "A").1 "A" 0
  = Some
      [mkFolder "if1" "Interface" "c1" "d" "g" "n" "s" false
         [CFolder
            (mkFolder "l3" "Layer3Interface" "" "" "" "" "" false
               [CParameter (mkParam "sz" "security_zone" "zoneA" false);
                CParameter (mkParam "gw" "default_gateway" "10.0.0.1" false)])];
       mkFolder "oth" "Other" "c1" "d" "g" "n" "s" false [];
       mkFolder "if1_premigration" "InterfaceConfig" "c1_premigration"
         "d" "g" "n" "s" false
         [CFolder
            (mkFolder "l3" "Layer3InterfaceConfig" "" "" "" "" "" false
               [CParameter (mkParam "sz" "security_zone" "zoneA" false);
                CParameter (mkParam "gw" "default_gateway" "10.0.0.1" false)])]]
  ∧ (migrate_interface_folder_keys sample_v12 "A").2 = true.
Proof.
  destruct (key_rename_on_epg sample_v12 "A" 0
              [sample_interface "if1"; sample_other] eq_refl) as [H1 H2].
  split.
  - rewrite H1. vm_compute. reflexivity.
  - rewrite H2. vm_compute. reflexivity.
Defined.

(** *** Running a marking pass again *)

Section MarkingPass.
Variable body : Folder → bool → Folder * list Folder * bool.
Hypothesis Hbody : flagging body.
Hypothesis Hadded : ∀ x, added body x = [].
Hypothesis Hkept : ∀ x, kept body (kept body x) = kept body x.
Hypothesis Hhit : ∀ x, hit body (kept body x) = hit body x.

Lemma marking_children_after l : children_after body l = kept body <$> l.
Proof.
  unfold children_after. by rewrite bind_nil_ext, app_nil_r.
Qed.

Lemma marking_pass_again t n :
  on_app_profile (for_folders body)
    (on_app_profile (for_folders body) t n).1 n
  = on_app_profile (for_folders body) t n.
Proof.
  apply injective_projections.
  - rewrite !pass_tree by done.
    rewrite map_folders_compose. apply map_folders_ext. intros e _.
    simpl. rewrite !marking_children_after, <- list_fmap_compose.
    apply list_fmap_ext. intros _ x _. apply Hkept.
  - rewrite !pass_flag, pass_tree by done.
    rewrite selected_epgs_map_folders.
    induction (selected_epgs t n) as [|e es IH]; [done|].
    rewrite fmap_cons. simpl. rewrite IH. f_equal.
    rewrite marking_children_after.
    induction (epg_children e) as [|x l IHl]; [done|].
    rewrite fmap_cons. simpl. by rewrite IHl, Hhit.
Qed.
End MarkingPass.

Lemma cleanup_folder_kept x :
  kept cleanup_folder x = if is_backup x then mark_as_deleted x else x.
Proof.
  unfold kept, cleanup_folder. fold (is_backup x). by destruct (is_backup x).
Qed.

Lemma cleanup_folder_hit x : hit cleanup_folder x = is_backup x.
Proof.
  unfold hit, cleanup_folder. fold (is_backup x). by destruct (is_backup x).
Qed.

Lemma cleanup_folder_added x : added cleanup_folder x = [].
Proof.
  unfold added, cleanup_folder. by destruct (bool_decide _ && _).
Qed.

Lemma delete_migrated_folder_hit x :
  hit delete_migrated_folder x = is_migrated x.
Proof.
  unfold hit, delete_migrated_folder. fold (is_migrated x).
  by destruct (is_migrated x).
Qed.

Lemma delete_migrated_folder_added x : added delete_migrated_folder x = [].
Proof.
  unfold added, delete_migrated_folder. by destruct (py_in _ _).
Qed.

(** X18. Cleanup and delete-migrated only set deletion marks, so running
    either a second time on its own output gives the same tree; but
    neither looks at the marks, so the second run returns what the first
    returned: a change is reported again although nothing changes. *)
Theorem marking_passes_again (t : Tenant) (n : string) :
  cleanup_interface_folders (cleanup_interface_folders t n).1 n
  = cleanup_interface_folders t n
  ∧ delete_migrated_folders (delete_migrated_folders t n).1 n
    = delete_migrated_folders t n.
Proof.
  split.
  - apply marking_pass_again.
    + apply cleanup_folder_flagging.
    + apply cleanup_folder_added.
    + intros x. rewrite !cleanup_folder_kept.
      destruct (is_backup x) eqn:Hx; [|by rewrite Hx].
      by assert (is_backup (mark_as_deleted x) = true) as -> by done.
    + intros x. rewrite !cleanup_folder_hit, cleanup_folder_kept.
      by destruct (is_backup x) eqn:Hx.
  - apply marking_pass_again.
    + apply delete_migrated_folder_flagging.
    + apply delete_migrated_folder_added.
    + intros x. rewrite !delete_migrated_folder_kept.
      destruct (is_migrated x) eqn:Hx; [|by rewrite Hx].
      by assert (is_migrated (mark_as_deleted x) = true) as -> by done.
    + intros x.
      rewrite !delete_migrated_folder_hit, delete_migrated_folder_kept.
      by destruct (is_migrated x) eqn:Hx.
Qed.

(** *** Running an extraction pass again *)

Lemma existsb_elem_of {A} (f : A → bool) (l : list A) :
  existsb f l = true ↔ ∃ x, x ∈ l ∧ f x = true.
Proof.
  rewrite existsb_exists. split; intros (x & Hx & Hf); exists x;
    (split; [by apply list_elem_of_In|done]).
Qed.

Section ScanAgain.
Variable on_param :
  Folder → Folder → Child → list Folder * bool
  → Child * list Child * (list Folder * bool).
Hypothesis Hparam : ∀ folder layerfolder,
  collecting (on_param folder layerfolder).
(** The body does not look at the deletion mark it sets. *)
Hypothesis Hagain : ∀ f lf f' lf' c,
  chit (on_param f lf) c = true →
  chit (on_param f' lf') (ckept (on_param f lf) c) = true.

Lemma scan_layerfolder_chit folder c :
  chit (scan_layerfolder on_param folder) c
  = match c with
    | CFolder lf =>
        is_layerfolder lf
        && existsb (chit (on_param folder lf)) (children lf)
    | _ => false
    end.
Proof.
  unfold chit at 1, scan_layerfolder. destruct c as [lf|p|r]; try done.
  fold (is_layerfolder lf). destruct (is_layerfolder lf); [|done]. simpl.
  by rewrite (for_each_collecting _ (Hparam folder lf)).
Qed.

Lemma scan_folder_hit folder :
  hit (scan_folder on_param) folder
  = bool_decide (key folder = "Interface")
    && existsb (chit (scan_layerfolder on_param folder)) (children folder).
Proof.
  unfold hit, scan_folder. case_bool_decide as Hk.
  - by rewrite bool_decide_false.
  - rewrite bool_decide_true by (by destruct (decide (key folder = "Interface"))).
    simpl.
    by rewrite (for_each_collecting _
                  (scan_layerfolder_collecting _ Hparam folder)).
Qed.

Lemma scan_layerfolder_chit_again f f' c :
  chit (scan_layerfolder on_param f) c = true →
  chit (scan_layerfolder on_param f')
    (ckept (scan_layerfolder on_param f) c) = true.
Proof.
  rewrite scan_layerfolder_chit. destruct c as [lf|p|r]; try done.
  intros [Hl (c & Hc & Hh)%existsb_elem_of]%andb_true_iff.
  rewrite (scan_layerfolder_ckept _ Hparam) by done.
  rewrite scan_layerfolder_chit. apply andb_true_iff. split; [done|].
  apply existsb_elem_of. exists (ckept (on_param f lf) c). split.
  - simpl. apply elem_of_app. left. by apply list_elem_of_fmap_2.
  - by apply Hagain.
Qed.

Lemma scan_folder_hit_again folder :
  hit (scan_folder on_param) folder = true →
  hit (scan_folder on_param) (kept (scan_folder on_param) folder) = true.
Proof.
  rewrite scan_folder_hit.
  intros [Hk%bool_decide_eq_true (c & Hc & Hh)%existsb_elem_of]%andb_true_iff.
  rewrite scan_folder_hit, (scan_folder_kept _ Hparam) by done. simpl.
  rewrite bool_decide_true by done. simpl.
  apply existsb_elem_of.
  exists (ckept (scan_layerfolder on_param folder) c). split.
  - by apply list_elem_of_fmap_2.
  - by apply scan_layerfolder_chit_again.
Qed.

Lemma scan_pass_again t n :
  (on_app_profile (for_folders (scan_folder on_param)) t n).2 = true →
  (on_app_profile (for_folders (scan_folder on_param))
     (on_app_profile (for_folders (scan_folder on_param)) t n).1 n).2
  = true.
Proof.
  pose proof (scan_folder_flagging _ Hparam) as Hf.
  rewrite !pass_flag, pass_tree, selected_epgs_map_folders by done.
  intros (e & He & (x & Hx & Hh)%existsb_elem_of)%existsb_elem_of.
  apply existsb_elem_of.
  exists (map_epg (children_after (scan_folder on_param)) e). split.
  - by apply list_elem_of_fmap_2.
  - apply existsb_elem_of. exists (kept (scan_folder on_param) x). split.
    + simpl. by apply children_after_kept.
    + by apply scan_folder_hit_again.
Qed.
End ScanAgain.

Lemma zone_or_vlan_at_param f lf p :
  chit (extract_zone_or_vlan f lf) (CParameter p)
  = py_in (p_key p) ["security_zone"; "bridge_domain"]
  ∧ ckept (extract_zone_or_vlan f lf) (CParameter p)
    = CParameter
        (if py_in (p_key p) ["security_zone"; "bridge_domain"]
         then mark_param_as_deleted p else p).
Proof.
  unfold chit, ckept, extract_zone_or_vlan.
  destruct (py_in (p_key p) _); simpl; [|done].
  by repeat case_bool_decide.
Qed.

Lemma default_gateway_at_param f lf p :
  chit (extract_default_gateway f lf) (CParameter p)
  = bool_decide (p_key p = "default_gateway")
  ∧ ckept (extract_default_gateway f lf) (CParameter p)
    = CParameter
        (if bool_decide (p_key p = "default_gateway")
         then mark_param_as_deleted p else p).
Proof.
  unfold chit, ckept, extract_default_gateway.
  case_bool_decide as Hp; simpl.
  - by rewrite bool_decide_false.
  - rewrite bool_decide_true; [done|].
    by destruct (decide (p_key p = "default_gateway")).
Qed.

(** X19. The zone/VLAN and the default-gateway pass do not look at the
    deletion marks they set: run again on its own output, a pass that
    returned True returns True again (and makes its Folders anew), so
    neither pass is idempotent once it has found a Parameter. *)
Theorem extraction_passes_again (t : Tenant) (n : string) :
  ((migrate_zones_and_vlans t n).2 = true →
   (migrate_zones_and_vlans (migrate_zones_and_vlans t n).1 n).2 = true)
  ∧ ((migrate_default_gateway t n).2 = true →
     (migrate_default_gateway (migrate_default_gateway t n).1 n).2 = true).
Proof.
  split.
  - apply scan_pass_again; [apply extract_zone_or_vlan_collecting|].
    intros f lf f' lf' c. destruct c as [x|p|r]; try done.
    destruct (zone_or_vlan_at_param f lf p) as [-> ->]. intros Hp.
    rewrite Hp. by destruct (zone_or_vlan_at_param f' lf'
                               (mark_param_as_deleted p)) as [-> _].
  - apply scan_pass_again; [apply extract_default_gateway_collecting|].
    intros f lf f' lf' c. destruct c as [x|p|r]; try done.
    destruct (default_gateway_at_param f lf p) as [-> ->]. intros Hp.
    rewrite Hp. by destruct (default_gateway_at_param f' lf'
                               (mark_param_as_deleted p)) as [-> _].
Qed.

Lemma extraction_passes_again_witness :
  (migrate_zones_and_vlans (migrate_zones_and_vlans sample_renamed "A").1 "A").2
  = true
  ∧ (migrate_default_gateway
       (migrate_default_gateway sample_renamed "A").1 "A").2
    = true.
Proof.
  destruct (extraction_passes_again sample_renamed "A") as [H1 H2].
  split; [apply H1|apply H2]; vm_compute; reflexivity.
Defined.

(** *** What an extraction pass makes of one Parameter *)

Lemma folders_of_selected t n j cs :
  folders_of t n j = Some cs →
  ∃ e, e ∈ selected_epgs t n ∧ epg_children e = cs.
Proof.
  unfold folders_of, selected_epgs.
  destruct (get_child t n) as [[i a]|]; [|done]. simpl.
  destruct (app_children a !! j) as [e|] eqn:He; [|done]. simpl.
  intros [= <-]. exists e. split; [|done]. by eapply list_elem_of_lookup_2.
Qed.

Section ScanAtParam.
Variable on_param :
  Folder → Folder → Child → list Folder * bool
  → Child * list Child * (list Folder * bool).
Hypothesis Hparam : ∀ folder layerfolder,
  collecting (on_param folder layerfolder).

Variables (t : Tenant) (n : string) (j : nat) (cs : list Folder).
Variables (f lf : Folder) (c : Child).
Hypothesis Hcs : folders_of t n j = Some cs.
Hypothesis Hf : f ∈ cs.
Hypothesis Hk : key f = "Interface".
Hypothesis Hlf : CFolder lf ∈ children f.
Hypothesis Hl : is_layerfolder lf = true.
Hypothesis Hc : c ∈ children lf.

Lemma scan_at_param :
  ∃ cs',
    folders_of (on_app_profile (for_folders (scan_folder on_param)) t n).1
      n j = Some cs'
    ∧ (∀ y, y ∈ cmade (on_param f lf) c → y ∈ cs')
    ∧ kept (scan_folder on_param) f ∈ cs'
    ∧ CFolder (scanned_layerfolder on_param f lf)
      ∈ children (kept (scan_folder on_param) f)
    ∧ ckept (on_param f lf) c
      ∈ children (scanned_layerfolder on_param f lf)
    ∧ (∀ c', c' ∈ cadded (on_param f lf) c →
             c' ∈ children (scanned_layerfolder on_param f lf)).
Proof.
  exists (children_after (scan_folder on_param) cs).
  rewrite (pass_tree _ (scan_folder_flagging _ Hparam)).
  split_and!.
  - by apply folders_of_map_folders.
  - intros y Hy. apply (children_after_added _ _ f); [done|].
    by apply (scan_folder_made _ Hparam f lf c).
  - by apply children_after_kept.
  - by apply scan_folder_child.
  - by apply scanned_layerfolder_kept.
  - intros c' Hc'. by apply (scanned_layerfolder_added _ f lf c).
Qed.

Lemma scan_flag_at_param :
  chit (on_param f lf) c = true →
  (on_app_profile (for_folders (scan_folder on_param)) t n).2 = true.
Proof.
  intros Hh. rewrite (pass_flag _ (scan_folder_flagging _ Hparam)).
  destruct (folders_of_selected _ _ _ _ Hcs) as (e & He & Hecs).
  apply existsb_elem_of. exists e. split; [done|].
  apply existsb_elem_of. exists f. split; [by rewrite Hecs|].
  rewrite (scan_folder_hit _ Hparam), bool_decide_true by done. simpl.
  apply existsb_elem_of. exists (CFolder lf). split; [done|].
  rewrite (scan_layerfolder_chit _ Hparam), Hl. simpl.
  apply existsb_elem_of. by exists c.
Qed.
End ScanAtParam.

Lemma vlan_param folder layerfolder p :
  p_key p = "bridge_domain" →
  extract_zone_or_vlan folder layerfolder (CParameter p) ([], false)
  = (CParameter (mark_param_as_deleted p),
     [CRelation (mkRelation "bridge_domain_rel" "vlan" (p_value p) false)],
     ([mkFolder (p_value p) "Vlan" (ctrctNameOrLbl folder)
         (devCtxLbl folder) (graphNameOrLbl folder) (nodeNameOrLbl folder)
         (scopedBy folder) false []],
      true)).
Proof.
  intros Hk. unfold extract_zone_or_vlan, py_in. simpl. by rewrite Hk.
Qed.

Lemma layerfolder_mode lf :
  is_layerfolder lf = true →
  PyStr.lower (PyStr.slice_to 6 (key lf))
  = if bool_decide (key lf = "Layer3Interface") then "layer3" else "layer2".
Proof.
  unfold is_layerfolder, py_in. intros H%bool_decide_eq_true.
  apply elem_of_cons in H as [->|H]; [done|].
  apply elem_of_cons in H as [->|H]; [done|].
  by apply elem_of_nil in H.
Qed.

(** X20. For every Parameter with key 'security_zone' in a Layer3Interface
    or Layer2Interface sub-folder of an 'Interface' Folder, the zone/VLAN
    pass returns True, marks the Parameter deleted in place, adds to the
    sub-folder a Relation 'security_zone_rel' with key 'zone' that targets
    the Parameter's value, and adds to the EPG a Folder named by that
    value, with key 'Zone', the five fields of the 'Interface' Folder and
    one Parameter 'mode' whose value is 'layer3' in a Layer3Interface and
    'layer2' in a Layer2Interface sub-folder. *)
Theorem zone_extraction
    (t : Tenant) (n : string) (j : nat) (cs : list Folder)
    (f lf : Folder) (p : Param) :
  folders_of t n j = Some cs →
  f ∈ cs → key f = "Interface" →
  CFolder lf ∈ children f → is_layerfolder lf = true →
  CParameter p ∈ children lf → p_key p = "security_zone" →
  (migrate_zones_and_vlans t n).2 = true
  ∧ ∃ cs' f' lf',
      folders_of (migrate_zones_and_vlans t n).1 n j = Some cs'
      ∧ mkFolder (p_value p) "Zone" (ctrctNameOrLbl f) (devCtxLbl f)
          (graphNameOrLbl f) (nodeNameOrLbl f) (scopedBy f) false
          [CParameter
             (mkParam "mode" "mode"
                (if bool_decide (key lf = "Layer3Interface")
                 then "layer3" else "layer2") false)]
        ∈ cs'
      ∧ f' ∈ cs' ∧ name f' = name f ∧ key f' = "Interface"
      ∧ CFolder lf' ∈ children f' ∧ key lf' = key lf
      ∧ CParameter (mark_param_as_deleted p) ∈ children lf'
      ∧ CRelation (mkRelation "security_zone_rel" "zone" (p_value p) false)
        ∈ children lf'.
Proof.
  intros Hcs Hf Hk Hlf Hl Hp Hkp.
  pose proof extract_zone_or_vlan_collecting as HP.
  split.
  - apply (scan_flag_at_param _ HP t n j cs f lf (CParameter p)); try done.
    unfold chit. by rewrite zone_param.
  - destruct (scan_at_param _ HP t n j cs f lf (CParameter p))
      as (cs' & Hcs' & Hmade & Hf' & Hlf' & Hkept & Hadded); try done.
    exists cs', (kept (scan_folder extract_zone_or_vlan) f),
      (scanned_layerfolder extract_zone_or_vlan f lf).
    split_and!; try done.
    + apply Hmade. unfold cmade. rewrite zone_param, layerfolder_mode by done.
      by left.
    + by apply scan_folder_name.
    + by rewrite scan_folder_key.
    + revert Hkept. unfold ckept. by rewrite zone_param.
    + apply Hadded. unfold cadded. rewrite zone_param by done. by left.
Qed.

Lemma zone_extraction_witness :
  (migrate_zones_and_vlans sample_v13 "A").2 = true
  ∧ ∃ cs' f' lf',
      folders_of (migrate_zones_and_vlans sample_v13 "A").1 "A" 0 = Some cs'
      ∧ mkFolder "zoneB" "Zone" "c2" "d" "g" "n" "s" false
          [CParameter (mkParam "mode" "mode" "layer2" false)]
        ∈ cs'
      ∧ f' ∈ cs' ∧ name f' = "if2" ∧ key f' = "Interface"
      ∧ CFolder lf' ∈ children f' ∧ key lf' = "Layer2Interface"
      ∧ CParameter (mkParam "sz" "security_zone" "zoneB" true) ∈ children lf'
      ∧ CRelation (mkRelation "security_zone_rel" "zone" "zoneB" false)
        ∈ children lf'.
Proof.
  apply (zone_extraction sample_v13 "A" 0 [sample_interface_13]
           sample_interface_13 sample_layer2
           (mkParam "sz" "security_zone" "zoneB" false));
    try reflexivity.
  - left.
  - left.
  - right. left.
Defined.

(** X21. For every Parameter with key 'bridge_domain' in a
    Layer3Interface or Layer2Interface sub-folder of an 'Interface'
    Folder, the zone/VLAN pass returns True, marks the Parameter deleted
    in place, adds to the sub-folder a Relation 'bridge_domain_rel' with
    key 'vlan' that targets the Parameter's value, and adds to the EPG a
    Folder named by that value, with key 'Vlan', the five fields of the
    'Interface' Folder and no child: a Vlan Folder gets no 'mode'
    Parameter. *)
Theorem vlan_extraction
    (t : Tenant) (n : string) (j : nat) (cs : list Folder)
    (f lf : Folder) (p : Param) :
  folders_of t n j = Some cs →
  f ∈ cs → key f = "Interface" →
  CFolder lf ∈ children f → is_layerfolder lf = true →
  CParameter p ∈ children lf → p_key p = "bridge_domain" →
  (migrate_zones_and_vlans t n).2 = true
  ∧ ∃ cs' f' lf',
      folders_of (migrate_zones_and_vlans t n).1 n j = Some cs'
      ∧ mkFolder (p_value p) "Vlan" (ctrctNameOrLbl f) (devCtxLbl f)
          (graphNameOrLbl f) (nodeNameOrLbl f) (scopedBy f) false []
        ∈ cs'
      ∧ f' ∈ cs' ∧ name f' = name f ∧ key f' = "Interface"
      ∧ CFolder lf' ∈ children f' ∧ key lf' = key lf
      ∧ CParameter (mark_param_as_deleted p) ∈ children lf'
      ∧ CRelation (mkRelation "bridge_domain_rel" "vlan" (p_value p) false)
        ∈ children lf'.
Proof.
  intros Hcs Hf Hk Hlf Hl Hp Hkp.
  pose proof extract_zone_or_vlan_collecting as HP.
  split.
  - apply (scan_flag_at_param _ HP t n j cs f lf (CParameter p)); try done.
    unfold chit. by rewrite vlan_param.
  - destruct (scan_at_param _ HP t n j cs f lf (CParameter p))
      as (cs' & Hcs' & Hmade & Hf' & Hlf' & Hkept & Hadded); try done.
    exists cs', (kept (scan_folder extract_zone_or_vlan) f),
      (scanned_layerfolder extract_zone_or_vlan f lf).
    split_and!; try done.
    + apply Hmade. unfold cmade. rewrite vlan_param by done. by left.
    + by apply scan_folder_name.
    + by rewrite scan_folder_key.
    + revert Hkept. unfold ckept. by rewrite vlan_param.
    + apply Hadded. unfold cadded. rewrite vlan_param by done. by left.
Qed.

Lemma vlan_extraction_witness :
  (migrate_zones_and_vlans sample_v13 "A").2 = true
  ∧ ∃ cs' f' lf',
      folders_of (migrate_zones_and_vlans sample_v13 "A").1 "A" 0 = Some cs'
      ∧ mkFolder "bd1" "Vlan" "c2" "d" "g" "n" "s" false [] ∈ cs'
      ∧ f' ∈ cs' ∧ name f' = "if2" ∧ key f' = "Interface"
      ∧ CFolder lf' ∈ children f' ∧ key lf' = "Layer2Interface"
      ∧ CParameter (mkParam "bd" "bridge_domain" "bd1" true) ∈ children lf'
      ∧ CRelation (mkRelation "bridge_domain_rel" "vlan" "bd1" false)
        ∈ children lf'.
Proof.
  apply (vlan_extraction sample_v13 "A" 0 [sample_interface_13]
           sample_interface_13 sample_layer2
           (mkParam "bd" "bridge_domain" "bd1" false));
    try reflexivity.
  - left.
  - left.
  - left.
Defined.

Lemma default_gateway_cadded f lf c :
  cadded (extract_default_gateway f lf) c = [].
Proof.
  unfold cadded, extract_default_gateway. destruct c as [x|p|r]; try done.
  by case_bool_decide.
Qed.

(** X22. For every Parameter with key 'default_gateway' in a
    Layer3Interface or Layer2Interface sub-folder of an 'Interface'
    Folder, the default-gateway pass returns True, marks the Parameter
    deleted in place, and adds to the EPG a Folder named
    'default_gateway', with key 'StaticRoute', the five fields of the
    'Interface' Folder and two Parameters: 'nexthop' with the value of
    the Parameter and 'destination' with '0.0.0.0/0'.  It adds nothing to
    the sub-folder: no Relation points at the new Folder. *)
Theorem default_gateway_extraction
    (t : Tenant) (n : string) (j : nat) (cs : list Folder)
    (f lf : Folder) (p : Param) :
  folders_of t n j = Some cs →
  f ∈ cs → key f = "Interface" →
  CFolder lf ∈ children f → is_layerfolder lf = true →
  CParameter p ∈ children lf → p_key p = "default_gateway" →
  (migrate_default_gateway t n).2 = true
  ∧ ∃ cs' f' lf',
      folders_of (migrate_default_gateway t n).1 n j = Some cs'
      ∧ mkFolder "default_gateway" "StaticRoute" (ctrctNameOrLbl f)
          (devCtxLbl f) (graphNameOrLbl f) (nodeNameOrLbl f) (scopedBy f)
          false
          [CParameter (mkParam "nexthop" "nexthop" (p_value p) false);
           CParameter (mkParam "destination" "destination" "0.0.0.0/0" false)]
        ∈ cs'
      ∧ f' ∈ cs' ∧ name f' = name f ∧ key f' = "Interface"
      ∧ CFolder lf' ∈ children f' ∧ key lf' = key lf
      ∧ CParameter (mark_param_as_deleted p) ∈ children lf'
      ∧ length (children lf') = length (children lf).
Proof.
  intros Hcs Hf Hk Hlf Hl Hp Hkp.
  pose proof extract_default_gateway_collecting as HP.
  split.
  - apply (scan_flag_at_param _ HP t n j cs f lf (CParameter p)); try done.
    unfold chit. by rewrite gateway_param.
  - destruct (scan_at_param _ HP t n j cs f lf (CParameter p))
      as (cs' & Hcs' & Hmade & Hf' & Hlf' & Hkept & Hadded); try done.
    exists cs', (kept (scan_folder extract_default_gateway) f),
      (scanned_layerfolder extract_default_gateway f lf).
    split_and!; try done.
    + apply Hmade. unfold cmade. rewrite gateway_param by done. by left.
    + by apply scan_folder_name.
    + by rewrite scan_folder_key.
    + revert Hkept. unfold ckept. by rewrite gateway_param.
    + simpl. rewrite bind_nil_ext by apply default_gateway_cadded.
      by rewrite app_nil_r, length_fmap.
Qed.

Lemma default_gateway_extraction_witness :
  (migrate_default_gateway sample_renamed "A").2 = true
  ∧ ∃ cs' f' lf',
      folders_of (migrate_default_gateway sample_renamed "A").1 "A" 0
      = Some cs'
      ∧ mkFolder "default_gateway" "StaticRoute" "c1" "d" "g" "n" "s" false
          [CParameter (mkParam "nexthop" "nexthop" "10.0.0.1" false);
           CParameter (mkParam "destination" "destination" "0.0.0.0/0" false)]
        ∈ cs'
      ∧ f' ∈ cs' ∧ name f' = "if1" ∧ key f' = "Interface"
      ∧ CFolder lf' ∈ children f' ∧ key lf' = "Layer3Interface"
      ∧ CParameter (mkParam "gw" "default_gateway" "10.0.0.1" true)
        ∈ children lf'
      ∧ length (children lf') = 2.
Proof.
  apply (default_gateway_extraction sample_renamed "A" 0
           [migrated_interface (sample_interface "if1"); sample_other;
            backup_of (sample_interface "if1")]
           (migrated_interface (sample_interface "if1"))
           (set_key "Layer3Interface" sample_layer3)
           (mkParam "gw" "default_gateway" "10.0.0.1" false));
    try reflexivity.
  - left.
  - left.
  - right. left.
Defined.

(** *** A revert after a cleanup *)

Lemma filter_fmap_commute {A} (P : A → Prop) `{!∀ x, Decision (P x)}
    (g : A → A) (l : list A) :
  (∀ x, P (g x) ↔ P x) →
  filter P (g <$> l) = g <$> filter P l.
Proof.
  intros Hg. induction l as [|x l IH]; [done|].
  rewrite fmap_cons, !filter_cons, IH.
  destruct (decide (P x)) as [Hx|Hx].
  - by rewrite decide_True by (by apply Hg).
  - by rewrite decide_False by (by rewrite Hg).
Qed.

Lemma restore_deleted_backup_of x :
  restore_backup (mark_as_deleted (backup_of x)) false
  = (mark_as_deleted x, [mark_as_deleted (backup_of x)], true).
Proof.
  unfold restore_backup. simpl.
  rewrite PyStrFacts.endswith_app. unfold deepcopy. simpl.
  rewrite !PyStrFacts.slice_to_neg_premigration. by destruct x.
Qed.

Lemma restore_deleted_backups (l : list Folder) :
  (kept restore_backup <$> ((λ x, mark_as_deleted (backup_of x)) <$> l))
  = mark_as_deleted <$> l
  ∧ ((λ x, mark_as_deleted (backup_of x)) <$> l) ≫= added restore_backup
    = (λ x, mark_as_deleted (backup_of x)) <$> l.
Proof.
  induction l as [|x l [IH1 IH2]]; [done|].
  rewrite !fmap_cons, bind_cons, IH1, IH2.
  unfold kept, added. by rewrite restore_deleted_backup_of.
Qed.

Lemma restore_children_after_cleanup (l1 l2 : list Folder) :
  (∀ x, x ∈ l1 → PyStr.endswith (name x) "_premigration" = false) →
  children_after restore_backup
    (l1 ++ ((λ x, mark_as_deleted (backup_of x)) <$> l2))
  = l1 ++ (mark_as_deleted <$> l2)
    ++ ((λ x, mark_as_deleted (backup_of x)) <$> l2).
Proof.
  intros H1. unfold children_after. rewrite fmap_app, bind_app.
  destruct (restore_deleted_backups l2) as [-> ->].
  assert (kept restore_backup <$> l1 = l1
          ∧ l1 ≫= added restore_backup = []) as [-> ->].
  { induction l1 as [|x l1 IH]; [done|].
    destruct IH as [IH1 IH2]; [intros y Hy; apply H1; by right|].
    rewrite fmap_cons, bind_cons, IH1, IH2. unfold kept, added.
    by rewrite (restore_backup_skips x) by (apply H1; left). }
  by rewrite <- !app_assoc.
Qed.

Lemma cleanup_marks_backups (l1 l2 : list Folder) :
  (∀ x, x ∈ l1 → key x ≠ "InterfaceConfig") →
  (∀ x, x ∈ l2 → key x = "InterfaceConfig") →
  kept cleanup_folder <$> (l1 ++ (backup_of <$> l2))
  = l1 ++ ((λ x, mark_as_deleted (backup_of x)) <$> l2).
Proof.
  intros H1 H2. rewrite fmap_app, <- list_fmap_compose. f_equal.
  - rewrite <- (list_fmap_id l1) at 2. apply list_fmap_ext.
    intros _ x Hx%list_elem_of_lookup_2. rewrite cleanup_folder_kept.
    unfold is_backup. by rewrite bool_decide_false by (by apply H1).
  - apply list_fmap_ext. intros _ x Hx%list_elem_of_lookup_2. simpl.
    rewrite cleanup_folder_kept. unfold is_backup. simpl.
    by rewrite bool_decide_true, PyStrFacts.endswith_app by (by apply H2).
Qed.

Lemma cleanup_then_revert_children (cs : list Folder) :
  (∀ x, x ∈ cs →
        is_migrated x = false
        ∧ PyStr.endswith (name x) "_premigration" = false) →
  children_after restore_backup
    (remove_migrated
       (children_after delete_migrated_folder
          (children_after cleanup_folder (forward_children cs))))
  = reverted_after_cleanup cs.
Proof.
  intros Hcs.
  rewrite remove_migrated_filter, not_migrated_delete_pass.
  rewrite (marking_children_after _ cleanup_folder_added).
  rewrite filter_fmap_commute.
  2:{ intros x. rewrite (is_migrated_key (kept cleanup_folder x) x); [done|].
      rewrite cleanup_folder_kept. by destruct (is_backup x). }
  unfold forward_children.
  rewrite (not_migrated_scan_pass _ _ extract_default_gateway_collecting
             default_gateway_made).
  rewrite (not_migrated_scan_pass _ _ extract_zone_or_vlan_collecting
             zone_or_vlan_made).
  rewrite not_migrated_keys_pass by done.
  rewrite cleanup_marks_backups.
  - apply restore_children_after_cleanup.
    intros x [_ Hx]%list_elem_of_filter. by apply Hcs.
  - by intros x [Hx _]%list_elem_of_filter.
  - by intros x [Hx _]%list_elem_of_filter.
Qed.

(** X23. A cleanup does not stop a later revert from renaming the
    backups back, but it does not bring the Folders back to life either:
    on a tree of version 1.2, after the forward passes, the cleanup and
    the revert, every interface Folder is under its EPG again with its
    own name, fields and children, and marked deleted. *)
Theorem revert_after_cleanup_keeps_marks (t : Tenant) (n : string) :
  pre_migration t n →
  cleanup_then_revert t n = map_folders reverted_after_cleanup t n.
Proof.
  intros Hpre. unfold cleanup_then_revert. simpl.
  rewrite revert_tree. unfold delete_migrated_folders.
  rewrite (pass_tree _ delete_migrated_folder_flagging).
  unfold cleanup_interface_folders.
  rewrite (pass_tree _ cleanup_folder_flagging), forward_tree.
  rewrite !map_folders_compose. apply map_folders_ext. intros e He.
  apply cleanup_then_revert_children. intros x Hx. by apply (Hpre e x).
Qed.

Lemma revert_after_cleanup_keeps_marks_witness :
  pre_migration sample_v12 "A"
  ∧ cleanup_then_revert sample_v12 "A"
    = sample_tenant
        [sample_other; mark_as_deleted (sample_interface "if1");
         mark_as_deleted (backup_of (sample_interface "if1"))].
Proof.
  split; [exact sample_v12_pre_migration|].
  rewrite (revert_after_cleanup_keeps_marks sample_v12 "A"
             sample_v12_pre_migration).
  vm_compute. reflexivity.
Defined.

(** *** What no pass but the restore does *)

Lemma same_identity_refl f : same_identity f f.
Proof. by repeat split. Qed.

Lemma folders_of_pass_positions body t n j cs :
  flagging body →
  (∀ x, same_identity x (kept body x)) →
  folders_of t n j = Some cs →
  ∃ cs',
    folders_of (on_app_profile (for_folders body) t n).1 n j = Some cs'
    ∧ length cs ≤ length cs'
    ∧ ∀ k f, cs !! k = Some f →
             ∃ f', cs' !! k = Some f' ∧ same_identity f f'.
Proof.
  intros Hbody Hid Hcs. exists (children_after body cs).
  rewrite pass_tree by done. split_and!.
  - by apply folders_of_map_folders.
  - unfold children_after. rewrite length_app, length_fmap. lia.
  - intros k f Hk. exists (kept body f). split; [|apply Hid].
    unfold children_after.
    rewrite lookup_app_l by (rewrite length_fmap; by eapply lookup_lt_Some).
    by rewrite list_lookup_fmap, Hk.
Qed.

(** X24. The key rename, zone/VLAN, default-gateway, cleanup and
    delete-migrated passes never unlink, move or rename a Folder of an
    EPG: after the pass every Folder is at the position it had, with its
    name and its five fields, and still marked deleted if it was; new
    Folders only come behind. *)
Theorem passes_never_unlink
    (p : tree_pass) (t : Tenant) (n : string) (j : nat) (cs : list Folder) :
  p ≠ PassRestore →
  folders_of t n j = Some cs →
  ∃ cs',
    folders_of (run_pass p t n).1 n j = Some cs'
    ∧ length cs ≤ length cs'
    ∧ ∀ k f, cs !! k = Some f →
             ∃ f', cs' !! k = Some f' ∧ same_identity f f'.
Proof.
  intros Hp Hcs. destruct p; simpl; try done.
  - apply folders_of_pass_positions;
      [apply migrate_keys_folder_flagging| |done].
    intros x. rewrite migrate_keys_folder_kept.
    destruct (is_v12_interface x); [by repeat split|].
    apply same_identity_refl.
  - apply folders_of_pass_positions; [| |done].
    + apply scan_folder_flagging, extract_zone_or_vlan_collecting.
    + intros x. destruct (decide (key x = "Interface")) as [Hk|Hk].
      * rewrite (scan_folder_kept _ extract_zone_or_vlan_collecting)
          by done.
        by repeat split.
      * rewrite scan_folder_kept_other by done. apply same_identity_refl.
  - apply folders_of_pass_positions; [| |done].
    + apply scan_folder_flagging, extract_default_gateway_collecting.
    + intros x. destruct (decide (key x = "Interface")) as [Hk|Hk].
      * rewrite (scan_folder_kept _ extract_default_gateway_collecting)
          by done.
        by repeat split.
      * rewrite scan_folder_kept_other by done. apply same_identity_refl.
  - apply folders_of_pass_positions; [apply cleanup_folder_flagging| |done].
    intros x. rewrite cleanup_folder_kept.
    destruct (is_backup x); [by repeat split|]. apply same_identity_refl.
  - apply folders_of_pass_positions;
      [apply delete_migrated_folder_flagging| |done].
    intros x. rewrite delete_migrated_folder_kept.
    destruct (is_migrated x); [by repeat split|]. apply same_identity_refl.
Qed.

Lemma passes_never_unlink_witness :
  ∃ cs',
    folders_of (run_pass PassKeys sample_v12 "A").1 "A" 0 = Some cs'
    ∧ length [sample_interface "if1"; sample_other] ≤ length cs'
    ∧ ∀ k f, [sample_interface "if1"; sample_other] !! k = Some f →
             ∃ f', cs' !! k = Some f' ∧ same_identity f f'.
Proof.
  apply (passes_never_unlink PassKeys sample_v12 "A" 0
           [sample_interface "if1"; sample_other]);
    [discriminate|reflexivity].
Defined.

(** *** A backup and its restore *)

(** X25. The restore undoes the backup: for every Folder, the restore
    step applied to its backup (lines 125-127) gives back the Folder
    itself, with its name, its ctrctNameOrLbl and everything else as they
    were, leaves one copy of the backup, marked deleted, and reports a
    change. *)
Theorem restore_of_backup (folder : Folder) :
  restore_backup (backup_of folder) false
  = (folder, [mark_as_deleted (backup_of folder)], true).
Proof. apply restore_backup_of. Qed.

Lemma slice_to_neg_short (n : nat) (s : string) :
  PyStr.len s ≤ n → PyStr.slice_to_neg n s = "".
Proof.
  intros H. unfold PyStr.slice_to_neg.
  by replace (PyStr.len s - n) with 0 by lia.
Qed.

Lemma slice_to_neg_cut (n : nat) (s : string) :
  s = PyStr.slice_to_neg n s +:+ PyStr.slice_from (PyStr.len s - n) s
  ∧ PyStr.len (PyStr.slice_from (PyStr.len s - n) s) = PyStr.len s `min` n.
Proof.
  unfold PyStr.slice_to_neg, PyStr.slice_from. split.
  - rewrite <- (PyStrFacts.of_chars_chars s) at 1.
    rewrite <- (take_drop (PyStr.len s - n) (PyStr.chars s)) at 1.
    rewrite <- (PyStrFacts.of_chars_chars (_ +:+ _)).
    by rewrite PyStrFacts.chars_app, !PyStrFacts.chars_of_chars.
  - unfold PyStr.len at 1. rewrite PyStrFacts.chars_of_chars, length_drop.
    unfold PyStr.len. lia.
Qed.

(** X26. The restore step does not check the ctrctNameOrLbl it cuts: for
    a Folder whose name ends in '_premigration' and whose ctrctNameOrLbl
    is made of ASCII characters, the label it leaves is the label without
    its last 13 characters, whatever they are (the label is what is left
    followed by a part of 13 characters, or of all its characters when
    it has fewer), so a label of 13 characters or fewer becomes the empty
    string. *)
Theorem restore_cuts_label (folder : Folder) :
  PyStr.endswith (name folder) "_premigration" = true →
  PyStr.is_ascii (ctrctNameOrLbl folder) = true →
  ∃ cut : string,
    ctrctNameOrLbl folder
    = ctrctNameOrLbl (kept restore_backup folder) +:+ cut
    ∧ PyStr.len cut = PyStr.len (ctrctNameOrLbl folder) `min` 13
    ∧ (PyStr.len (ctrctNameOrLbl folder) ≤ 13 →
       ctrctNameOrLbl (kept restore_backup folder) = "").
Proof.
  intros H _. unfold kept, restore_backup. rewrite H. simpl.
  exists (PyStr.slice_from (PyStr.len (ctrctNameOrLbl folder) - 13)
            (ctrctNameOrLbl folder)).
  destruct (slice_to_neg_cut 13 (ctrctNameOrLbl folder)) as [H1 H2].
  split_and!; [done|done|]. apply slice_to_neg_short.
Qed.

Lemma restore_cuts_label_witness :
  (∃ cut : string,
     "contract-number-1"
     = ctrctNameOrLbl
         (kept restore_backup
            (mkFolder "x_premigration" "InterfaceConfig" "contract-number-1"
               "" "" "" "" false [])) +:+ cut
     ∧ PyStr.len cut = 13)
  ∧ ctrctNameOrLbl
      (kept restore_backup
         (mkFolder "x_premigration" "InterfaceConfig" "c1" "" "" "" "" false
            []))
    = "".
Proof.
  split.
  - destruct (restore_cuts_label
                (mkFolder "x_premigration" "InterfaceConfig"
                   "contract-number-1" "" "" "" "" false []))
      as (cut & H1 & H2 & _).
    + vm_compute. reflexivity.
    + vm_compute. reflexivity.
    + exists cut. split; [exact H1|exact H2].
  - destruct (restore_cuts_label
                (mkFolder "x_premigration" "InterfaceConfig" "c1"
                   "" "" "" "" false []))
      as (cut & _ & _ & H3).
    + vm_compute. reflexivity.
    + vm_compute. reflexivity.
    + apply H3. vm_compute. lia.
Defined.

(** ** A record without a usable dn *)

(** X27. A device-package record with the 1.2 target whose attributes
    have no 'dn' makes the forward cluster migration raise KeyError, and
    one whose dn has fewer than three pieces between slashes makes it
    raise IndexError: the fragment is only made when the cluster's name
    can be read. *)
Theorem migrate_clusters_bad_dn
    (cluster a b : dict) (rest : list dict) :
  cluster !! "vnsRsMDevAtt" = Some (JObj a) →
  a !! "attributes" = Some (JObj b) →
  b !! "tDn" = Some (JStr PANOS_1_2) →
  (b !! "dn" = None → migrate_clusters (cluster :: rest) = Raise KeyError)
  ∧ (∀ dn, b !! "dn" = Some (JStr dn) →
           length (PyStr.split "/" dn) ≤ 2 →
           migrate_clusters (cluster :: rest) = Raise IndexError).
Proof.
  intros Ha Hb Ht.
  pose proof (tDn_of_lookup _ _ _ _ _ Ha Hb Ht) as Htarget.
  assert (has_target cluster "vnsRsMDevAtt" PANOS_1_2 = Ok true) as Hm
    by (by rewrite (has_target_present _ _ _ _ Htarget)).
  split.
  - intros Hdn. unfold migrate_clusters. simpl. unfold migrate_cluster.
    fold PANOS_1_2. rewrite Hm. simpl. unfold cluster_name_of.
    rewrite (dict_item_Some _ _ _ Ha). cbn.
    rewrite (dict_item_Some _ _ _ Hb). cbn.
    unfold dict_item. by rewrite Hdn.
  - intros dn Hdn Hlen. unfold migrate_clusters. simpl.
    unfold migrate_cluster. fold PANOS_1_2. rewrite Hm. simpl.
    unfold cluster_name_of.
    rewrite (dict_item_Some _ _ _ Ha). cbn.
    rewrite (dict_item_Some _ _ _ Hb). cbn.
    rewrite (dict_item_Some _ _ _ Hdn). cbn.
    by rewrite (lookup_ge_None_2 (PyStr.split "/" dn) 2) by lia.
Qed.

Lemma migrate_clusters_bad_dn_witness :
  migrate_clusters [rsMDevAtt "uni/tn-T" PANOS_1_2] = Raise IndexError.
Proof.
  refine (proj2 (migrate_clusters_bad_dn
                   (rsMDevAtt "uni/tn-T" PANOS_1_2)
                   {[ "attributes" :=
                        JObj (<["dn" := JStr "uni/tn-T"]>
                                {[ "tDn" := JStr PANOS_1_2 ]}) ]}
                   (<["dn" := JStr "uni/tn-T"]> {[ "tDn" := JStr PANOS_1_2 ]})
                   [] _ _ _) "uni/tn-T" _ _); reflexivity.
Defined.
